(** * GPU PME pipeline (pme_gpu.cpp): a shallow embedding

    The functions of [pme_gpu.cpp] are embedded as computations in a small
    state-and-error monad.  The state holds the objects the C++ functions
    receive by pointer ([gmx_pme_t], the wallcycle counter, the force and
    energy outputs) and a chronological log of every call made into code
    that lives outside this translation unit (the GPU back end declared in
    [pme_gpu_internal.h], host FFT and solver, OpenMP thread query).

    The structures and enumerations are declared in headers that are not
    part of this translation unit; the records below hold the fields that
    [pme_gpu.cpp] reads or writes, under their C++ names.

    [real] is C++ [float] in this translation unit: [pme->fftgrid] is
    read as [real**] in [pme_gpu_launch_spread] and as [float**] in
    [pme_gpu_launch_gather].  Its values are the IEEE-754 binary32 numbers,
    taken from the standard library's specification of binary
    floating-point arithmetic ([SpecFloat]) at precision 24 and exponent
    bound 128, rounding to nearest with ties to even.  The binary32
    numbers are the [spec_float]s accepted by [valid_binary 24 128]; what
    is proved below is proved for every [spec_float]. *)

From Stdlib Require Import ZArith List Bool String Lia SpecFloat.
Import ListNotations.
Local Open Scope Z_scope.

(** ** Scalars, vectors, matrices *)

Definition real : Set := spec_float.

(** [a + b] and [a * b] on [float]. *)
Abbreviation real_add := (SFadd 24 128).
Abbreviation real_mul := (SFmul 24 128).

(** C++ [a != b] on [real]: IEEE comparison, so a NaN differs from itself
    and the two zeros do not differ. *)
Definition real_ne (a b : real) : bool := negb (SFeqb a b).

(** The [float] nearest to [m * 2^e], and the literals used below. *)
Definition real_literal (m e : Z) : real := binary_normalize 24 128 m e false.
Definition real_of_Z (n : Z) : real := real_literal n 0.

Definition real_one : real := real_of_Z 1.
Definition real_zero : real := real_of_Z 0.
Definition real_half : real := real_literal 1 (-1).

(** The [double] of value [n]. *)
Definition double_of_Z (n : Z) : spec_float := binary_normalize 53 1024 n 0 false.

(** The binary formats of C++ [float] and [double]. *)
Inductive FloatFormat : Set := binary32 | binary64.

Definition format_prec (fmt : FloatFormat) : Z :=
  match fmt with binary32 => 24 | binary64 => 53 end.

Definition format_emax (fmt : FloatFormat) : Z :=
  match fmt with binary32 => 128 | binary64 => 1024 end.

(** The implicit conversion of a [real] operand to the format of the other
    operand.  A [float] keeps its value in either format; only the
    representation (mantissa and exponent) is renormalised. *)
Definition real_to_format (fmt : FloatFormat) (x : real) : spec_float :=
  match x with
  | S754_finite s m e =>
      binary_normalize (format_prec fmt) (format_emax fmt)
        (cond_Zopp s (Z.pos m)) e s
  | _ => x
  end.

Definition DIM : nat := 3.
Definition XX : nat := 0.
Definition YY : nat := 1.
Definition ZZ : nat := 2.

(** [rvec] is [real\[DIM\]], [matrix] is [real\[DIM\]\[DIM\]]. *)
Definition rvec : Set := (real * real * real)%type.
Definition matrix : Set := (rvec * rvec * rvec)%type.

Definition rvec_get (v : rvec) (d : nat) : real :=
  let '(x, y, z) := v in
  match d with O => x | S O => y | _ => z end.

Definition rvec_set (v : rvec) (d : nat) (r : real) : rvec :=
  let '(x, y, z) := v in
  match d with O => (r, y, z) | S O => (x, r, z) | _ => (x, y, r) end.

Definition mget (m : matrix) (i j : nat) : real :=
  let '(r0, r1, r2) := m in
  rvec_get (match i with O => r0 | S O => r1 | _ => r2 end) j.

Definition mset (m : matrix) (i j : nat) (r : real) : matrix :=
  let '(r0, r1, r2) := m in
  match i with
  | O => (rvec_set r0 j r, r1, r2)
  | S O => (r0, rvec_set r1 j r, r2)
  | _ => (r0, r1, rvec_set r2 j r)
  end.

(** [gmx::RVec::operator+=]. *)
Definition rvec_add (a b : rvec) : rvec :=
  let '(ax, ay, az) := a in
  let '(bx, by_, bz) := b in
  (real_add ax bx, real_add ay by_, real_add az bz).

Definition rvec_zero : rvec := (real_zero, real_zero, real_zero).
Definition matrix_zero : matrix := (rvec_zero, rvec_zero, rvec_zero).

(** A raw pointer that is only tested against [nullptr] or handed on. *)
Inductive pointer : Set :=
| nullptr
| addr (a : Z).

Definition is_null (p : pointer) : bool :=
  match p with nullptr => true | addr _ => false end.

(** ** Enumerations *)

(** [enum class PmeRunMode] of [pme.h].  This file only tests a mode
    against [CPU]; the other enumerators stand for every mode that is not. *)
Inductive PmeRunMode : Set := RunNone | CPU | GPU | Mixed.

Definition runMode_is_CPU (m : PmeRunMode) : bool :=
  match m with CPU => true | _ => false end.

(** [enum class GridOrdering]: the two enumerators used by the solver. *)
Inductive GridOrdering : Set := YZX | XYZ.

Inductive Axis : Set := AxisX | AxisY | AxisZ.

(** The axes of an ordering, outermost (slowest) first, as its name spells. *)
Definition ordering_axes (o : GridOrdering) : list Axis :=
  match o with
  | YZX => [AxisY; AxisZ; AxisX]
  | XYZ => [AxisX; AxisY; AxisZ]
  end.

Inductive gmx_fft_direction : Set :=
| GMX_FFT_REAL_TO_COMPLEX
| GMX_FFT_COMPLEX_TO_REAL.

Inductive GpuTaskCompletion : Set := Wait | Check.

Definition completion_is_Check (k : GpuTaskCompletion) : bool :=
  match k with Check => true | Wait => false end.

(** The value of the build-time macro [GMX_GPU] from [config.h]. *)
Inductive GpuFramework : Set := GMX_GPU_NONE | GMX_GPU_CUDA | GMX_GPU_OPENCL.

Definition is_cuda (g : GpuFramework) : bool :=
  match g with GMX_GPU_CUDA => true | _ => false end.

(** Wallcycle counters and sub-counters touched by this file. *)
Inductive ewc : Set :=
| ewcLAUNCH_GPU
| ewcPME_FFT_MIXED_MODE
| ewcPME_SOLVE_MIXED_MODE
| ewcWAIT_GPU_PME_SPREAD
| ewcWAIT_GPU_PME_GATHER
| ewcPME_GPU_F_REDUCTION.

Inductive ewcs : Set := ewcsLAUNCH_GPU_PME.

Inductive WcCall : Set :=
| wc_start (c : ewc)
| wc_start_nocount (c : ewc)
| wc_stop (c : ewc)
| wc_sub_start_nocount (c : ewcs)
| wc_sub_stop (c : ewcs).

(** ** Structures *)

Record PmeGpuSettings : Set := mkSettings {
  performGPUFFT : bool;
  performGPUSolve : bool;
  performGPUGather : bool;
  useDecomposition : bool;
  useGpuForceReduction : bool
}.

(** [PmeShared], reached through [pmeGpu->common]. *)
Record PmeShared : Set := mkShared {
  ngrids : Z;
  previousBox : matrix
}.

(** Everything behind [PmeGpu] that this file never reads or writes itself
    (stream, kernel parameters, staging buffers) is one opaque value. *)
Definition DeviceState : Set := Z.

Record PmeGpu : Set := mkPmeGpu {
  settings : PmeGpuSettings;
  common : PmeShared;
  archSpecific : DeviceState
}.

(** [gpu] is the GPU module [*pme->gpu].  A structure whose GPU module has
    not been constructed ([pme->gpu == nullptr]) is not represented: every
    [gmx_pme_t] below has one, whatever its run mode. *)
Record gmx_pme_t : Set := mkPme {
  runMode : PmeRunMode;
  gpu : PmeGpu;
  nnodes : Z;
  ndecompdim : Z;
  nthread : Z;
  bPPnode : bool;
  doCoulomb : bool;
  bFEP_q : bool;
  recipbox : matrix;
  boxVolume : real
}.

Record StepWorkload : Set := mkStepWork {
  haveDynamicBox : bool;
  computeEnergy : bool;
  computeVirial : bool;
  useGpuPmeFReduction : bool
}.

Record PmeOutput : Set := mkOutput {
  forces_ : list rvec;
  haveForceOutput_ : bool;
  coulombEnergy_ : real;
  coulombVirial_ : matrix;
  coulombDvdl_ : real
}.

Record ForceWithVirial : Set := mkFwv {
  force_ : list rvec;
  virial_ : matrix
}.

(** [enerd->term\[\]] and [enerd->dvdl_lin\[\]], indexed by enumerators.
    [term] holds [real]s.  The element type of [dvdl_lin] is fixed by the
    declaration of [gmx_enerdata_t], which this translation unit only
    includes: it is [float] or [double], as the environment below says. *)
Record gmx_enerdata_t : Set := mkEnerd {
  term : nat -> real;
  dvdl_lin : nat -> spec_float
}.

(** [a\[k\] += r], where [plus] is the addition of the element type. *)
Definition array_add (plus : spec_float -> real -> spec_float)
    (a : nat -> spec_float) (k : nat) (r : real) : nat -> spec_float :=
  fun i => if Nat.eqb i k then plus (a i) r else a i.

(** [x += r] for [x] of the given format and [r] a [real]: [r] is converted
    to the format of [x] and the sum is rounded in that format. *)
Definition add_real_to (fmt : FloatFormat) (x : spec_float) (r : real) : spec_float :=
  SFadd (format_prec fmt) (format_emax fmt) x (real_to_format fmt r).

(** ** Calls that leave this file *)

Inductive Call : Set :=
| call_update_input_box (box : matrix)
| call_spread (xReadyOnDevice : pointer) (computeSplines spreadCharges : bool)
    (lambdaQ : real)
| call_sync_spread_grid
| call_3dfft (dir : gmx_fft_direction) (gridIndex : Z)
| call_solve (gridIndex : Z) (gridOrdering : GridOrdering)
    (computeEnergyAndVirial : bool)
| call_gather (lambdaQ : real)
| call_stream_query
| call_synchronize
| call_update_timings
| call_getOutput (computeEnergyAndVirial : bool) (lambdaQ : real)
| host_parallel_3dfft_execute (gridIndex : Z) (dir : gmx_fft_direction)
    (thread : Z)
| host_solve_pme_yzx (gridIndex : Z) (boxVolume : real)
    (computeEnergyAndVirial : bool) (nthread thread : Z)
| host_omp_nthreads_get_emntPME.

(** ** The environment of this translation unit

    What the functions below obtain from code and configuration that lie
    outside [pme_gpu.cpp].  Every such function is a field, so each result
    proved in the section below holds for all implementations of them. *)

Record Externals : Type := mkExternals {
  (** [GMX_GPU] of [config.h] *)
  GMX_GPU : GpuFramework;
  (** the enumerators [F_COUL_RECIP] and [efptCOUL] *)
  F_COUL_RECIP : nat;
  efptCOUL : nat;
  (** the element type of [gmx_enerdata_t::dvdl_lin] *)
  dvdl_format : FloatFormat;
  (** what a back-end call does to the opaque part of [PmeGpu] *)
  device_effect : Call -> PmeGpu -> DeviceState;
  (** [pme_gpu_stream_query]: have all tasks enqueued in the stream completed? *)
  pme_gpu_stream_query : PmeGpu -> bool;
  (** host staging buffer of the forces, and the reduced energy terms
      (energy, virial, dvdl) for a given lambda weight *)
  staged_forces : PmeGpu -> list rvec;
  staged_energy_virial : gmx_pme_t -> real -> real * matrix * real;
  pme_gpu_get_atom_data_block_size : Z;
  pme_gpu_get_kernelparam_forces : PmeGpu -> pointer;
  pme_gpu_get_forces_ready_synchronizer : PmeGpu -> pointer;
  (** [boxScaler->scaleBox] and [gmx::invertBoxMatrix] *)
  scaleBox : matrix -> matrix;
  invertBoxMatrix : matrix -> matrix;
  (** [gmx::ForceWithVirial::addVirialContribution] *)
  addVirialContribution : ForceWithVirial -> matrix -> ForceWithVirial
}.

(** ** Program state and the monad *)

(** The objects behind the pointer arguments ([None] is a null pointer),
    and the log of outside calls, oldest first. *)
Record State : Type := mkState {
  pme : option gmx_pme_t;
  wcycle : list WcCall;
  calls : list Call;
  forceWithVirial : option ForceWithVirial;
  enerd : option gmx_enerdata_t
}.

Inductive Result (A : Type) : Type :=
| Ok (a : A) (s : State)
| AssertionFailed (msg : string)
| Undefined.

Arguments Ok {A} a s.
Arguments AssertionFailed {A} msg.
Arguments Undefined {A}.

Definition M (A : Type) : Type := State -> Result A.

Definition ret {A : Type} (a : A) : M A := fun s => Ok a s.

Definition bind {A B : Type} (m : M A) (k : A -> M B) : M B :=
  fun s =>
    match m s with
    | Ok a s' => k a s'
    | AssertionFailed msg => AssertionFailed msg
    | Undefined => Undefined
    end.

Declare Scope pme_scope.
Delimit Scope pme_scope with pme.
Notation "x <- m ;; k" := (bind m (fun x => k))
  (at level 61, m at next level, right associativity) : pme_scope.
Notation "m ;; k" := (bind m (fun _ => k))
  (at level 61, right associativity) : pme_scope.
Local Open Scope pme_scope.

(** Modelled from the spec: the macro [GMX_ASSERT] of [gmxassert.h], which
    is not among the sources.  A failed assertion terminates the process
    with its diagnostic. *)
Definition GMX_ASSERT (condition : bool) (msg : string) : M unit :=
  fun s => if condition then Ok tt s else AssertionFailed msg.

Fixpoint for_each {A : Type} (l : list A) (body : A -> M unit) : M unit :=
  match l with
  | [] => ret tt
  | a :: l' => body a ;; for_each l' body
  end.

(** The values [0, 1, ..., n-1] of a loop [for (int i = 0; i < n; i++)]. *)
Definition int_range (n : Z) : list Z := map Z.of_nat (seq 0 (Z.to_nat n)).

(** *** Field updates *)

Definition set_useGpuForceReduction (s : PmeGpuSettings) (b : bool) : PmeGpuSettings :=
  mkSettings (performGPUFFT s) (performGPUSolve s) (performGPUGather s)
             (useDecomposition s) b.

Definition set_settings (g : PmeGpu) (s : PmeGpuSettings) : PmeGpu :=
  mkPmeGpu s (common g) (archSpecific g).

Definition set_previousBox (g : PmeGpu) (b : matrix) : PmeGpu :=
  mkPmeGpu (settings g) (mkShared (ngrids (common g)) b) (archSpecific g).

Definition set_archSpecific (g : PmeGpu) (d : DeviceState) : PmeGpu :=
  mkPmeGpu (settings g) (common g) d.

Definition set_gpu (p : gmx_pme_t) (g : PmeGpu) : gmx_pme_t :=
  mkPme (runMode p) g (nnodes p) (ndecompdim p) (nthread p) (bPPnode p)
        (doCoulomb p) (bFEP_q p) (recipbox p) (boxVolume p).

Definition set_recipbox_boxVolume (p : gmx_pme_t) (r : matrix) (v : real) : gmx_pme_t :=
  mkPme (runMode p) (gpu p) (nnodes p) (ndecompdim p) (nthread p) (bPPnode p)
        (doCoulomb p) (bFEP_q p) r v.

Definition set_pme (s : State) (p : gmx_pme_t) : State :=
  mkState (Some p) (wcycle s) (calls s) (forceWithVirial s) (enerd s).

Definition set_wcycle (s : State) (w : list WcCall) : State :=
  mkState (pme s) w (calls s) (forceWithVirial s) (enerd s).

Definition set_calls (s : State) (c : list Call) : State :=
  mkState (pme s) (wcycle s) c (forceWithVirial s) (enerd s).

Definition set_forceWithVirial (s : State) (f : ForceWithVirial) : State :=
  mkState (pme s) (wcycle s) (calls s) (Some f) (enerd s).

Definition set_enerd (s : State) (e : gmx_enerdata_t) : State :=
  mkState (pme s) (wcycle s) (calls s) (forceWithVirial s) (Some e).

Definition set_force_ (f : ForceWithVirial) (l : list rvec) : ForceWithVirial :=
  mkFwv l (virial_ f).

(** *** Primitive computations *)

Definition pme_pointer : M (option gmx_pme_t) := fun s => Ok (pme s) s.

(** [*pme]; dereferencing a null pointer is undefined. *)
Definition deref_pme : M gmx_pme_t :=
  fun s => match pme s with Some p => Ok p s | None => Undefined end.

Definition write_pme (p : gmx_pme_t) : M unit := fun s => Ok tt (set_pme s p).

Definition forceWithVirial_pointer : M (option ForceWithVirial) :=
  fun s => Ok (forceWithVirial s) s.

Definition deref_forceWithVirial : M ForceWithVirial :=
  fun s => match forceWithVirial s with Some f => Ok f s | None => Undefined end.

Definition write_forceWithVirial (f : ForceWithVirial) : M unit :=
  fun s => Ok tt (set_forceWithVirial s f).

Definition enerd_pointer : M (option gmx_enerdata_t) := fun s => Ok (enerd s) s.

Definition deref_enerd : M gmx_enerdata_t :=
  fun s => match enerd s with Some e => Ok e s | None => Undefined end.

Definition write_enerd (e : gmx_enerdata_t) : M unit :=
  fun s => Ok tt (set_enerd s e).

Definition wallcycle (c : WcCall) : M unit :=
  fun s => Ok tt (set_wcycle s (wcycle s ++ [c])).

Definition log_call (c : Call) : M unit :=
  fun s => Ok tt (set_calls s (calls s ++ [c])).

Definition is_some {A : Type} (o : option A) : bool :=
  match o with Some _ => true | None => false end.

(** A reference environment, used to run the model on concrete inputs,
    for either element type of [dvdl_lin]. *)
Definition refExternals_with (dvdl : FloatFormat) : Externals :=
  mkExternals GMX_GPU_CUDA 0%nat 0%nat dvdl
    (fun _ g => archSpecific g + 1)
    (fun g => Z.leb 100 (archSpecific g))
    (fun _ => [(real_one, real_of_Z 2, real_of_Z 3); (real_of_Z 4, real_of_Z 5, real_of_Z 6)])
    (fun _ lambda => (lambda, ((lambda, real_zero, real_zero), rvec_zero, rvec_zero), lambda))
    64
    (fun g => addr (archSpecific g))
    (fun g => addr (archSpecific g + 1))
    (fun b => b)
    (fun b => b)
    (fun f v => mkFwv (force_ f)
       (let '(v0, v1, v2) := v in
        let '(w0, w1, w2) := virial_ f in
        (rvec_add w0 v0, rvec_add w1 v1, rvec_add w2 v2))).

Definition refExternals : Externals := refExternals_with binary64.

(** ** Sample data *)

Definition sample_settings : PmeGpuSettings := mkSettings true true true false false.

Definition sample_box : matrix :=
  ((real_of_Z 3, real_zero, real_zero),
   (real_zero, real_of_Z 3, real_zero),
   (real_zero, real_zero, real_of_Z 3)).

Definition sample_pme : gmx_pme_t :=
  mkPme GPU (mkPmeGpu sample_settings (mkShared 1 matrix_zero) 0)
        1 0 2 true true false matrix_zero real_zero.

Definition sample_fwv : ForceWithVirial :=
  mkFwv [rvec_zero; rvec_zero; rvec_zero] matrix_zero.

Definition sample_enerd : gmx_enerdata_t :=
  mkEnerd (fun _ => real_zero) (fun _ => real_zero).

Definition sample_state : State :=
  mkState (Some sample_pme) [] [] (Some sample_fwv) (Some sample_enerd).

(** The same rank with the force reduction done on the device. *)
Definition sample_pme_device_reduction : gmx_pme_t :=
  mkPme GPU (mkPmeGpu (mkSettings true true true false true) (mkShared 1 matrix_zero) 0)
        1 0 2 true true false matrix_zero real_zero.

Definition sample_state_device_reduction : State :=
  mkState (Some sample_pme_device_reduction) [] [] (Some sample_fwv) (Some sample_enerd).

(** A rank with a spatial decomposition of PME. *)
Definition sample_pme_decomposed : gmx_pme_t :=
  mkPme GPU (mkPmeGpu (mkSettings true true true true false) (mkShared 1 matrix_zero) 0)
        2 1 2 true true false matrix_zero real_zero.

Definition sample_state_decomposed : State :=
  mkState (Some sample_pme_decomposed) [] [] (Some sample_fwv) (Some sample_enerd).

(** A rank whose stream has finished. *)
Definition sample_pme_done : gmx_pme_t :=
  mkPme GPU (mkPmeGpu sample_settings (mkShared 1 matrix_zero) 100)
        1 0 2 true true false matrix_zero real_zero.

Definition sample_state_done : State :=
  mkState (Some sample_pme_done) [] [] (Some sample_fwv) (Some sample_enerd).

(** Three grids, which no FEP setting allows. *)
Definition sample_pme_three_grids : gmx_pme_t :=
  mkPme GPU (mkPmeGpu sample_settings (mkShared 3 matrix_zero) 0)
        1 0 2 true true true matrix_zero real_zero.

Definition sample_state_three_grids : State :=
  mkState (Some sample_pme_three_grids) [] [] (Some sample_fwv) (Some sample_enerd).

(** A rank that runs PME on the CPU. *)
Definition sample_pme_cpu : gmx_pme_t :=
  mkPme CPU (mkPmeGpu sample_settings (mkShared 1 matrix_zero) 0)
        1 0 2 true true false matrix_zero real_zero.

(** A rank that skips the gather while the force reduction is device-side. *)
Definition sample_pme_no_gather_device_reduction : gmx_pme_t :=
  mkPme GPU (mkPmeGpu (mkSettings true true false false true) (mkShared 1 matrix_zero) 0)
        1 0 2 true true false matrix_zero real_zero.

Definition sample_state_no_gather_device_reduction : State :=
  mkState (Some sample_pme_no_gather_device_reduction) [] []
          (Some sample_fwv) (Some sample_enerd).

(** A rank that skips the gather. *)
Definition sample_pme_no_gather : gmx_pme_t :=
  mkPme GPU (mkPmeGpu (mkSettings true true false false false) (mkShared 1 matrix_zero) 0)
        1 0 2 true true false matrix_zero real_zero.

Definition sample_state_no_gather : State :=
  mkState (Some sample_pme_no_gather) [] [] (Some sample_fwv) (Some sample_enerd).

(** A box whose first diagonal entry is not a number. *)
Definition nan_box : matrix :=
  ((S754_nan, real_zero, real_zero),
   (real_zero, real_of_Z 3, real_zero),
   (real_zero, real_zero, real_of_Z 3)).

(** [sample_box] with a negative zero below the diagonal. *)
Definition sample_box_negative_zero : matrix :=
  ((real_of_Z 3, real_zero, real_zero),
   (S754_zero true, real_of_Z 3, real_zero),
   (real_zero, real_zero, real_of_Z 3)).

Definition sample_box_stretched : matrix :=
  ((real_of_Z 3, real_zero, real_zero),
   (real_zero, real_of_Z 3, real_zero),
   (real_zero, real_zero, real_of_Z 4)).

Definition static_step : StepWorkload := mkStepWork false false false false.
Definition energy_step : StepWorkload := mkStepWork false true false false.
Definition device_reduction_step : StepWorkload := mkStepWork false false false true.

Section Pipeline.

Variable E : Externals.

(** A call into the GPU back end: logged, and the opaque device part of
    [pme->gpu] changes as the back end decides. *)
Definition gpu_call (c : Call) : M unit :=
  p <- deref_pme ;;
  write_pme (set_gpu p (set_archSpecific (gpu p) (device_effect E c (gpu p)))) ;;
  log_call c.

(** A call into host code of another module; the grids and work arrays it
    writes are not represented, only the call is logged. *)
Definition host_call (c : Call) : M unit := log_call c.

(** [#pragma omp parallel for num_threads(n) schedule(static)] over
    [thread = 0 .. n-1]; the calls are logged in index order. *)
Definition host_parallel_for (n : Z) (body : Z -> Call) : M unit :=
  for_each (int_range n) (fun thread => host_call (body thread)).

(** Modelled from the spec: the accessor [pme_gpu_settings] is declared in
    [pme_gpu_internal.h], which is not among the sources.  There is one set
    of compute settings per solver, so it returns [pmeGpu->settings], the
    field this file also reads directly. *)
Definition pme_gpu_settings (g : PmeGpu) : PmeGpuSettings := settings g.

(** *** Activity test and accessors *)

Definition pme_gpu_active (p : option gmx_pme_t) : bool :=
  match p with
  | None => false
  | Some q => negb (runMode_is_CPU (runMode q))
  end.

Definition pme_gpu_get_block_size (p : option gmx_pme_t) : Z :=
  if negb (is_some p) || negb (pme_gpu_active p) then 0
  else pme_gpu_get_atom_data_block_size E.

Definition pme_gpu_get_device_f (p : option gmx_pme_t) : pointer :=
  if negb (is_some p) || negb (pme_gpu_active p) then nullptr
  else match p with
       | Some q => pme_gpu_get_kernelparam_forces E (gpu q)
       | None => nullptr
       end.

Definition pme_gpu_get_f_ready_synchronizer (p : option gmx_pme_t) : pointer :=
  if negb (is_some p) || negb (pme_gpu_active p) then nullptr
  else match p with
       | Some q => pme_gpu_get_forces_ready_synchronizer E (gpu q)
       | None => nullptr
       end.

Definition msg_not_gpu : string :=
  "This should be a GPU run of PME but it is not enabled.".

Definition assert_active : M unit :=
  p <- pme_pointer ;;
  GMX_ASSERT (pme_gpu_active p) msg_not_gpu.

Definition launch_timers_start : M unit :=
  wallcycle (wc_start_nocount ewcLAUNCH_GPU) ;;
  wallcycle (wc_sub_start_nocount ewcsLAUNCH_GPU_PME).

Definition launch_timers_stop : M unit :=
  wallcycle (wc_sub_stop ewcsLAUNCH_GPU_PME) ;;
  wallcycle (wc_stop ewcLAUNCH_GPU).

(** *** parallel_3dfft_execute_gpu_wrapper *)

Definition parallel_3dfft_execute_gpu_wrapper
    (gridIndex : Z) (dir : gmx_fft_direction) : M unit :=
  p <- deref_pme ;;
  if performGPUFFT (pme_gpu_settings (gpu p)) then
    launch_timers_start ;;
    gpu_call (call_3dfft dir gridIndex) ;;
    launch_timers_stop
  else
    wallcycle (wc_start ewcPME_FFT_MIXED_MODE) ;;
    host_parallel_for (nthread p)
      (fun thread => host_parallel_3dfft_execute gridIndex dir thread) ;;
    wallcycle (wc_stop ewcPME_FFT_MIXED_MODE).

(** *** pme_gpu_prepare_computation *)

(** The body of the inner loop: accumulate the comparison, then copy. *)
Definition box_entry (box : matrix) (i : nat) (acc : bool * matrix) (j : nat)
  : bool * matrix :=
  let '(shouldUpdateBox, previous) := acc in
  (shouldUpdateBox || real_ne (mget previous i j) (mget box i j),
   mset previous i j (mget box i j)).

(** [for (i = 0; i < DIM; ++i) for (j = 0; j <= i; ++j)], started with
    [shouldUpdateBox = false]. *)
Definition box_scan (previous box : matrix) : bool * matrix :=
  fold_left
    (fun acc i => fold_left (box_entry box i) (seq 0 (S i)) acc)
    (seq 0 DIM) (false, previous).

Definition pme_gpu_prepare_computation (box : matrix) (stepWork : StepWorkload)
  : M unit :=
  assert_active ;;
  p <- deref_pme ;;
  GMX_ASSERT (0 <? nnodes p) EmptyString ;;
  GMX_ASSERT ((nnodes p =? 1) || (0 <? ndecompdim p)) EmptyString ;;
  let pmeGpu :=
    set_settings (gpu p)
      (set_useGpuForceReduction (settings (gpu p)) (useGpuPmeFReduction stepWork)) in
  let '(shouldUpdateBox, newPrevious) :=
    box_scan (previousBox (common pmeGpu)) box in
  write_pme (set_gpu p (set_previousBox pmeGpu newPrevious)) ;;
  if haveDynamicBox stepWork || shouldUpdateBox then
    launch_timers_start ;;
    gpu_call (call_update_input_box box) ;;
    launch_timers_stop ;;
    q <- deref_pme ;;
    if negb (performGPUSolve (pme_gpu_settings (gpu q))) then
      let scaledBox := scaleBox E box in
      write_pme
        (set_recipbox_boxVolume q (invertBoxMatrix E scaledBox)
           (real_mul
              (real_mul (mget scaledBox XX XX) (mget scaledBox YY YY))
              (mget scaledBox ZZ ZZ)))
    else ret tt
  else ret tt.

(** *** pme_gpu_launch_spread *)

Definition msg_xReady : string :=
  "Need a valid xReadyOnDevice on PP+PME ranks with CUDA.".
Definition msg_coulomb : string := "Only Coulomb PME can be run on GPU.".
Definition msg_ngrids : string :=
  "If not decoupling Coulomb interactions there should only be one FEP grid. If decoupling Coulomb interactions there should be two grids.".

Definition pme_gpu_launch_spread (xReadyOnDevice : pointer) (lambdaQ : real)
  : M unit :=
  assert_active ;;
  p <- deref_pme ;;
  GMX_ASSERT (negb (is_null xReadyOnDevice) || negb (bPPnode p)
              || negb (is_cuda (GMX_GPU E))) msg_xReady ;;
  GMX_ASSERT (doCoulomb p) msg_coulomb ;;
  let pmeGpu := gpu p in
  GMX_ASSERT ((ngrids (common pmeGpu) =? 1)
              || ((ngrids (common pmeGpu) =? 2) && bFEP_q p)) msg_ngrids ;;
  let computeSplines := true in
  let spreadCharges := true in
  launch_timers_start ;;
  gpu_call (call_spread xReadyOnDevice computeSplines spreadCharges lambdaQ) ;;
  launch_timers_stop.

(** *** pme_gpu_launch_complex_transforms *)

(** One turn of the loop over [gridIndex]. *)
Definition transform_grid (computeEnergyAndVirial : bool) (gridIndex : Z) : M unit :=
  parallel_3dfft_execute_gpu_wrapper gridIndex GMX_FFT_REAL_TO_COMPLEX ;;
  p <- deref_pme ;;
  (if performGPUSolve (settings (gpu p)) then
     let gridOrdering :=
       if useDecomposition (settings (gpu p)) then YZX else XYZ in
     launch_timers_start ;;
     gpu_call (call_solve gridIndex gridOrdering computeEnergyAndVirial) ;;
     launch_timers_stop
   else
     wallcycle (wc_start ewcPME_SOLVE_MIXED_MODE) ;;
     host_parallel_for (nthread p)
       (fun thread =>
          host_solve_pme_yzx gridIndex (boxVolume p) computeEnergyAndVirial
            (nthread p) thread) ;;
     wallcycle (wc_stop ewcPME_SOLVE_MIXED_MODE)) ;;
  parallel_3dfft_execute_gpu_wrapper gridIndex GMX_FFT_COMPLEX_TO_REAL.

(** Exceptions thrown by the outside calls (caught and turned into a fatal
    error by the source) are not represented: outside calls always return. *)
Definition pme_gpu_launch_complex_transforms (stepWork : StepWorkload) : M unit :=
  p <- deref_pme ;;
  let computeEnergyAndVirial := computeEnergy stepWork || computeVirial stepWork in
  (if negb (performGPUFFT (settings (gpu p))) then
     wallcycle (wc_start ewcWAIT_GPU_PME_SPREAD) ;;
     gpu_call call_sync_spread_grid ;;
     wallcycle (wc_stop ewcWAIT_GPU_PME_SPREAD)
   else ret tt) ;;
  for_each (int_range (ngrids (common (gpu p))))
    (transform_grid computeEnergyAndVirial).

(** *** pme_gpu_launch_gather *)

Definition pme_gpu_launch_gather (lambdaQ : real) : M unit :=
  assert_active ;;
  p <- deref_pme ;;
  if negb (performGPUGather (pme_gpu_settings (gpu p))) then ret tt
  else
    launch_timers_start ;;
    gpu_call (call_gather lambdaQ) ;;
    launch_timers_stop.

(** *** sum_forces and pme_gpu_reduce_outputs *)

(** [for (i = 0; i < forceToAdd.size(); i++) f\[i\] += forceToAdd\[i\]];
    [None] when [f] is the shorter array (an access out of bounds). *)
Fixpoint sum_forces_loop (f forceToAdd : list rvec) : option (list rvec) :=
  match forceToAdd, f with
  | [], _ => Some f
  | a :: forceToAdd', x :: f' =>
      match sum_forces_loop f' forceToAdd' with
      | Some r => Some (rvec_add x a :: r)
      | None => None
      end
  | _ :: _, [] => None
  end.

(** [sum_forces(forceWithVirial->force_, forceToAdd)]. *)
Definition sum_forces (forceToAdd : list rvec) : M unit :=
  host_call host_omp_nthreads_get_emntPME ;;
  fwv <- deref_forceWithVirial ;;
  match sum_forces_loop (force_ fwv) forceToAdd with
  | Some f' => write_forceWithVirial (set_force_ fwv f')
  | None => fun _ => Undefined
  end.

Definition msg_force_pointer : string := "Invalid force pointer".
Definition msg_enerd_pointer : string := "Invalid energy output manager".

Definition pme_gpu_reduce_outputs (computeEnergyAndVirial : bool)
    (output : PmeOutput) : M unit :=
  wallcycle (wc_start ewcPME_GPU_F_REDUCTION) ;;
  fp <- forceWithVirial_pointer ;;
  GMX_ASSERT (is_some fp) msg_force_pointer ;;
  (if computeEnergyAndVirial then
     ep <- enerd_pointer ;;
     GMX_ASSERT (is_some ep) msg_enerd_pointer ;;
     fwv <- deref_forceWithVirial ;;
     write_forceWithVirial (addVirialContribution E fwv (coulombVirial_ output)) ;;
     e <- deref_enerd ;;
     write_enerd (mkEnerd (array_add real_add (term e) (F_COUL_RECIP E)
                             (coulombEnergy_ output))
                          (dvdl_lin e)) ;;
     e' <- deref_enerd ;;
     write_enerd (mkEnerd (term e')
                          (array_add (add_real_to (dvdl_format E)) (dvdl_lin e')
                             (efptCOUL E) (coulombDvdl_ output)))
   else ret tt) ;;
  (if haveForceOutput_ output then sum_forces (forces_ output) else ret tt) ;;
  wallcycle (wc_stop ewcPME_GPU_F_REDUCTION).

(** *** Output fetch *)

(** Modelled from the spec: [pme_gpu_getOutput] is defined in
    [pme_gpu_internal.cpp], which is not among the sources.  The output is
    created fresh; forces are retrieved only when the reduction is
    host-side, and [haveForceOutput_] says whether they were; energy,
    virial and dvdl are retrieved only if [computeEnergyAndVirial], with
    the given lambda weight.  What is not retrieved is left at zero. *)
Definition getOutput_value (p : gmx_pme_t) (computeEnergyAndVirial : bool)
    (lambdaQ : real) : PmeOutput :=
  let haveForceOutput := negb (useGpuForceReduction (settings (gpu p))) in
  let '(energy, virial, dvdl) :=
    if computeEnergyAndVirial then staged_energy_virial E p lambdaQ
    else (real_zero, matrix_zero, real_zero) in
  mkOutput (if haveForceOutput then staged_forces E (gpu p) else [])
           haveForceOutput energy virial dvdl.

Definition pme_gpu_getOutput (computeEnergyAndVirial : bool) (lambdaQ : real)
  : M PmeOutput :=
  p <- deref_pme ;;
  log_call (call_getOutput computeEnergyAndVirial lambdaQ) ;;
  ret (getOutput_value p computeEnergyAndVirial lambdaQ).

(** [pme->gpu->common->ngrids > 1 ? lambdaQ : 1.0] *)
Definition lambda_weight (p : gmx_pme_t) (lambdaQ : real) : real :=
  if 1 <? ngrids (common (gpu p)) then lambdaQ else real_one.

Definition msg_reduction_active : string :=
  "GPU force reduction should not be active on the pme_gpu_try_finish_task() path".
Definition msg_force_output : string :=
  "When forces are reduced on the CPU, there needs to be force output".

(** *** pme_gpu_try_finish_task *)

(** The part of [pme_gpu_try_finish_task] after the early return. *)
Definition try_finish_tail (stepWork : StepWorkload) (lambdaQ : real)
    (needToSynchronize : bool) : M bool :=
  wallcycle (wc_start ewcWAIT_GPU_PME_GATHER) ;;
  (if needToSynchronize then gpu_call call_synchronize else ret tt) ;;
  gpu_call call_update_timings ;;
  let computeEnergyAndVirial := computeEnergy stepWork || computeVirial stepWork in
  p <- deref_pme ;;
  output <- pme_gpu_getOutput computeEnergyAndVirial (lambda_weight p lambdaQ) ;;
  wallcycle (wc_stop ewcWAIT_GPU_PME_GATHER) ;;
  q <- deref_pme ;;
  GMX_ASSERT (Bool.eqb (useGpuForceReduction (settings (gpu q)))
                       (negb (haveForceOutput_ output))) msg_force_output ;;
  pme_gpu_reduce_outputs computeEnergyAndVirial output ;;
  ret true.

Definition pme_gpu_try_finish_task (stepWork : StepWorkload) (lambdaQ : real)
    (completionKind : GpuTaskCompletion) : M bool :=
  assert_active ;;
  p <- deref_pme ;;
  GMX_ASSERT (negb (useGpuForceReduction (settings (gpu p)))) msg_reduction_active ;;
  let c_streamQuerySupported := is_cuda (GMX_GPU E) in
  if completion_is_Check completionKind && c_streamQuerySupported then
    wallcycle (wc_start_nocount ewcWAIT_GPU_PME_GATHER) ;;
    log_call call_stream_query ;;
    let pmeGpuDone := pme_gpu_stream_query E (gpu p) in
    wallcycle (wc_stop ewcWAIT_GPU_PME_GATHER) ;;
    if negb pmeGpuDone then ret false
    else try_finish_tail stepWork lambdaQ false
  else try_finish_tail stepWork lambdaQ true.

(** *** pme_gpu_wait_finish_task and pme_gpu_wait_and_reduce *)

Definition pme_gpu_wait_finish_task (computeEnergyAndVirial : bool)
    (lambdaQ : real) : M PmeOutput :=
  assert_active ;;
  wallcycle (wc_start ewcWAIT_GPU_PME_GATHER) ;;
  p <- deref_pme ;;
  (if negb (useGpuForceReduction (settings (gpu p))) || computeEnergyAndVirial
   then gpu_call call_synchronize
   else ret tt) ;;
  q <- deref_pme ;;
  output <- pme_gpu_getOutput computeEnergyAndVirial (lambda_weight q lambdaQ) ;;
  wallcycle (wc_stop ewcWAIT_GPU_PME_GATHER) ;;
  ret output.

Definition pme_gpu_wait_and_reduce (stepWork : StepWorkload) (lambdaQ : real)
  : M unit :=
  let computeEnergyAndVirial := computeEnergy stepWork || computeVirial stepWork in
  p <- deref_pme ;;
  output <- pme_gpu_wait_finish_task computeEnergyAndVirial (lambda_weight p lambdaQ) ;;
  q <- deref_pme ;;
  GMX_ASSERT (Bool.eqb (useGpuForceReduction (settings (gpu q)))
                       (negb (haveForceOutput_ output))) msg_force_output ;;
  pme_gpu_reduce_outputs computeEnergyAndVirial output.

End Pipeline.

(** ** Observations on states and logs *)

(** [p] with the opaque device part replaced. *)
Definition with_device (p : gmx_pme_t) (d : DeviceState) : gmx_pme_t :=
  set_gpu p (set_archSpecific (gpu p) d).

(** The arguments of the output fetches in a log. *)
Fixpoint fetches (l : list Call) : list (bool * real) :=
  match l with
  | [] => []
  | call_getOutput c lam :: l' => (c, lam) :: fetches l'
  | _ :: l' => fetches l'
  end.

(** Number of stream synchronisations, of box updates pushed to the device,
    of gather launches and of host force summations in a log. *)
Definition is_synchronize (c : Call) : bool :=
  match c with call_synchronize => true | _ => false end.
Definition is_update_input_box (c : Call) : bool :=
  match c with call_update_input_box _ => true | _ => false end.
Definition is_host_sum (c : Call) : bool :=
  match c with host_omp_nthreads_get_emntPME => true | _ => false end.

Definition synchronizations (l : list Call) : nat := List.length (filter is_synchronize l).
Definition box_updates (l : list Call) : nat := List.length (filter is_update_input_box l).
Definition host_force_sums (l : list Call) : nat := List.length (filter is_host_sum l).

(** The grid orderings handed to the device solver, and the
    energy-and-virial flags handed to either solver, in a log. *)
Fixpoint solve_orderings (l : list Call) : list GridOrdering :=
  match l with
  | [] => []
  | call_solve _ o _ :: l' => o :: solve_orderings l'
  | _ :: l' => solve_orderings l'
  end.

Fixpoint solve_flags (l : list Call) : list bool :=
  match l with
  | [] => []
  | call_solve _ _ c :: l' => c :: solve_flags l'
  | host_solve_pme_yzx _ _ c _ _ :: l' => c :: solve_flags l'
  | _ :: l' => solve_flags l'
  end.

(** The outside calls of one FFT, one solve, and one turn of the grid loop. *)
Definition fft_calls (p : gmx_pme_t) (gridIndex : Z) (dir : gmx_fft_direction)
  : list Call :=
  if performGPUFFT (settings (gpu p)) then [call_3dfft dir gridIndex]
  else map (host_parallel_3dfft_execute gridIndex dir) (int_range (nthread p)).

Definition solve_calls (p : gmx_pme_t) (computeEnergyAndVirial : bool)
    (gridIndex : Z) : list Call :=
  if performGPUSolve (settings (gpu p)) then
    [call_solve gridIndex
       (if useDecomposition (settings (gpu p)) then YZX else XYZ)
       computeEnergyAndVirial]
  else
    map (host_solve_pme_yzx gridIndex (boxVolume p) computeEnergyAndVirial (nthread p))
        (int_range (nthread p)).

Definition grid_calls (p : gmx_pme_t) (computeEnergyAndVirial : bool)
    (gridIndex : Z) : list Call :=
  fft_calls p gridIndex GMX_FFT_REAL_TO_COMPLEX
  ++ solve_calls p computeEnergyAndVirial gridIndex
  ++ fft_calls p gridIndex GMX_FFT_COMPLEX_TO_REAL.

(** The index pairs visited by the box loop, in order. *)
Definition lower_triangle : list (nat * nat) :=
  [(0, 0); (1, 0); (1, 1); (2, 0); (2, 1); (2, 2)]%nat.

(** Some compared entry differs under [!=]. *)
Definition lower_differs (previous box : matrix) : bool :=
  existsb (fun ij => real_ne (mget previous (fst ij) (snd ij))
                             (mget box (fst ij) (snd ij)))
          lower_triangle.

(** The grid-count contract of [pme_gpu_launch_spread]. *)
Definition grid_count_ok (p : gmx_pme_t) : Prop :=
  ngrids (common (gpu p)) = 1
  \/ (ngrids (common (gpu p)) = 2 /\ bFEP_q p = true).

(** Number of gather kernels launched in a log. *)
Definition is_gather (c : Call) : bool :=
  match c with call_gather _ => true | _ => false end.

Definition gather_launches (l : list Call) : nat := List.length (filter is_gather l).

(** Modelled from the spec: the gather kernel and its device-side force
    reduction are not among the sources.  With the force reduction on the
    device, a launched gather kernel accumulates its forces in place into
    the destination buffer; with the reduction on the host it only fills
    the staging buffer; and a gather that is not launched does neither.
    This counts the in-place accumulations made by the calls [l] of a step
    on the module [g]. *)
Definition device_force_accumulations (g : PmeGpu) (l : list Call) : nat :=
  if useGpuForceReduction (settings g) then gather_launches l else 0%nat.

(** [r] is [x + a], each component added in [float]. *)
Definition rvec_sum_of (x a r : rvec) : Prop :=
  r = (real_add (fst (fst x)) (fst (fst a)),
       real_add (snd (fst x)) (snd (fst a)),
       real_add (snd x) (snd a)).

(** [r] is the array [f] after [f\[i\] += a\[i\]] for every index [i] of
    [a]: the length is kept, the leading entries are the sums and the
    entries past [a] are those of [f]. *)
Definition forces_summed (f a r : list rvec) : Prop :=
  List.length r = List.length f
  /\ (forall i, (i < List.length a)%nat ->
        rvec_sum_of (nth i f rvec_zero) (nth i a rvec_zero) (nth i r rvec_zero))
  /\ (forall i, (List.length a <= i)%nat -> nth i r rvec_zero = nth i f rvec_zero).

(** [e'] is [e] after [term\[F_COUL_RECIP\] += energy], added in [float],
    and [dvdl_lin\[efptCOUL\] += dvdl], added in the format of [dvdl_lin];
    every other entry is as in [e]. *)
Definition energies_added (E : Externals) (energy dvdl : real)
    (e e' : gmx_enerdata_t) : Prop :=
  (forall k,
      term e' k
      = if Nat.eqb k (F_COUL_RECIP E) then real_add (term e k) energy else term e k)
  /\ (forall k,
        dvdl_lin e' k
        = if Nat.eqb k (efptCOUL E)
          then SFadd (format_prec (dvdl_format E)) (format_emax (dvdl_format E))
                 (dvdl_lin e k) (real_to_format (dvdl_format E) dvdl)
          else dvdl_lin e k).

(** What [pme_gpu_reduce_outputs] leaves in the force and energy outputs. *)
Definition reduced_forces (E : Externals) (computeEnergyAndVirial : bool)
    (output : PmeOutput) (f : ForceWithVirial) : option ForceWithVirial :=
  let f1 := if computeEnergyAndVirial
            then addVirialContribution E f (coulombVirial_ output) else f in
  if haveForceOutput_ output then
    match sum_forces_loop (force_ f1) (forces_ output) with
    | Some l => Some (set_force_ f1 l)
    | None => None
    end
  else Some f1.

Definition reduced_energies (E : Externals) (output : PmeOutput)
    (e : gmx_enerdata_t) : gmx_enerdata_t :=
  mkEnerd (array_add real_add (term e) (F_COUL_RECIP E) (coulombEnergy_ output))
          (array_add (add_real_to (dvdl_format E)) (dvdl_lin e) (efptCOUL E)
             (coulombDvdl_ output)).

(** Two results agree up to the logs. *)
Definition same_data (s1 s2 : State) : Prop :=
  pme s1 = pme s2 /\ forceWithVirial s1 = forceWithVirial s2 /\ enerd s1 = enerd s2.

Inductive same_outcome {A : Type} : Result A -> Result A -> Prop :=
| same_ok (a : A) (s1 s2 : State) :
    same_data s1 s2 -> same_outcome (Ok a s1) (Ok a s2)
| same_assert (msg : string) :
    same_outcome (AssertionFailed msg) (AssertionFailed msg)
| same_undefined : same_outcome Undefined Undefined.

(** The effect of a completed output fetch and reduction: [front] are the
    calls before the fetch, [p] is the structure at entry. *)
Definition finish_effect (E : Externals) (sw : StepWorkload) (lam : real)
    (p : gmx_pme_t) (front : list Call) (s s' : State) : Prop :=
  exists pf f f',
    let cev := computeEnergy sw || computeVirial sw in
    let out := getOutput_value E pf cev (lambda_weight p lam) in
    (exists d, pf = with_device p d)
    /\ pme s' = Some pf
    /\ calls s' = calls s ++ front ++ [call_getOutput cev (lambda_weight p lam)]
                   ++ (if haveForceOutput_ out then [host_omp_nthreads_get_emntPME] else [])
    /\ forceWithVirial s = Some f
    /\ reduced_forces E cev out f = Some f'
    /\ forceWithVirial s' = Some f'
    /\ (if cev then exists e, enerd s = Some e /\ enerd s' = Some (reduced_energies E out e)
        else enerd s' = enerd s).

(** The device moves on between two calls of the host. *)
Definition advance_device (s : State) (d : DeviceState) : State :=
  match pme s with
  | Some p => set_pme s (with_device p d)
  | None => s
  end.

(** The calls [step] of one step on the structure [p] reduce the forces
    exactly once: in place on the device and not on the host when the
    reduction is device-side, on the host and not on the device when it is
    host-side. *)
Definition reduces_forces_once (p : gmx_pme_t) (step : list Call) : Prop :=
  (device_force_accumulations (gpu p) step + host_force_sums step = 1)%nat
  /\ (useGpuForceReduction (settings (gpu p)) = true ->
      device_force_accumulations (gpu p) step = 1%nat
      /\ host_force_sums step = 0%nat)
  /\ (useGpuForceReduction (settings (gpu p)) = false ->
      device_force_accumulations (gpu p) step = 0%nat
      /\ host_force_sums step = 1%nat).


(** Virial, energy and dvdl of [output] are all added, or none is. *)
Definition updated_together (E : Externals) (computeEnergyAndVirial : bool)
    (output : PmeOutput) (s s' : State) : Prop :=
  exists f f',
    forceWithVirial s = Some f
    /\ forceWithVirial s' = Some f'
    /\ if computeEnergyAndVirial then
         virial_ f' = virial_ (addVirialContribution E f (coulombVirial_ output))
         /\ exists e e',
              enerd s = Some e
              /\ enerd s' = Some e'
              /\ energies_added E (coulombEnergy_ output) (coulombDvdl_ output) e e'
       else virial_ f' = virial_ f /\ enerd s' = enerd s.

(** ** Wallcycle timers *)

(** A running timer: a main counter or a sub-counter. *)
Inductive Timer : Set :=
| main_timer (c : ewc)
| sub_timer (c : ewcs).

Definition ewc_index (c : ewc) : nat :=
  match c with
  | ewcLAUNCH_GPU => 0
  | ewcPME_FFT_MIXED_MODE => 1
  | ewcPME_SOLVE_MIXED_MODE => 2
  | ewcWAIT_GPU_PME_SPREAD => 3
  | ewcWAIT_GPU_PME_GATHER => 4
  | ewcPME_GPU_F_REDUCTION => 5
  end.

Definition ewc_eqb (a b : ewc) : bool := Nat.eqb (ewc_index a) (ewc_index b).

(** Replays a sequence of wallcycle calls on the stack of running timers:
    a start pushes its counter, a stop must find its own counter on top.
    [None] when a stop does not match. *)
Fixpoint timers_run (running : list Timer) (l : list WcCall) : option (list Timer) :=
  match l with
  | [] => Some running
  | wc_start c :: l' => timers_run (main_timer c :: running) l'
  | wc_start_nocount c :: l' => timers_run (main_timer c :: running) l'
  | wc_sub_start_nocount c :: l' => timers_run (sub_timer c :: running) l'
  | wc_stop c :: l' =>
      match running with
      | main_timer c' :: rest => if ewc_eqb c c' then timers_run rest l' else None
      | _ => None
      end
  | wc_sub_stop c :: l' =>
      match running with
      | sub_timer _ :: rest => timers_run rest l'
      | _ => None
      end
  end.

(** A sequence that stops every timer it starts, innermost first. *)
Definition timers_balanced (w : list WcCall) : Prop :=
  forall running, timers_run running w = Some running.

(** Whenever [m] returns, the wallcycle calls it made take the stack of
    running timers from [before] to [after]. *)
Definition timers_effect {A : Type} (m : M A) (before after : list Timer) : Prop :=
  forall s a s',
    m s = Ok a s' ->
    exists w, wcycle s' = wcycle s ++ w /\ timers_run before w = Some after.

(** Whenever [m] returns, the wallcycle calls it made are balanced. *)
Definition keeps_timers_balanced {A : Type} (m : M A) : Prop :=
  forall s a s',
    m s = Ok a s' ->
    exists w, wcycle s' = wcycle s ++ w /\ timers_balanced w.

(** Number of stream queries in a log. *)
Definition is_stream_query (c : Call) : bool :=
  match c with call_stream_query => true | _ => false end.
Definition stream_queries (l : list Call) : nat := List.length (filter is_stream_query l).

(** [p'] differs from [p] at most in the opaque device part. *)
Definition same_host_fields (p p' : gmx_pme_t) : Prop :=
  exists d, p' = with_device p d.

(** The cell volumes handed to the host solver in a log. *)
Fixpoint solve_volumes (l : list Call) : list real :=
  match l with
  | [] => []
  | host_solve_pme_yzx _ v _ _ _ :: l' => v :: solve_volumes l'
  | _ :: l' => solve_volumes l'
  end.

(** ** More sample data *)

(** The state a computation returns in, or [default] if it does not return. *)
Definition run_state {A : Type} (r : Result A) (default : State) : State :=
  match r with
  | Ok _ s => s
  | _ => default
  end.


(** A call with a null [pme]. *)
Definition sample_state_null : State :=
  mkState None [] [] (Some sample_fwv) (Some sample_enerd).



(** FFT and solve on the host, two grids. *)
Definition sample_pme_host_solve : gmx_pme_t :=
  mkPme Mixed (mkPmeGpu (mkSettings false false true false false)
                        (mkShared 2 matrix_zero) 0)
        1 0 3 true true true matrix_zero real_zero.

Definition sample_state_host_solve : State :=
  mkState (Some sample_pme_host_solve) [] [] (Some sample_fwv) (Some sample_enerd).

(** [sample_box] with an entry above the diagonal changed. *)
Definition sample_box_upper : matrix :=
  ((real_of_Z 3, real_of_Z 7, real_zero),
   (real_zero, real_of_Z 3, real_zero),
   (real_zero, real_zero, real_of_Z 3)).

Definition dynamic_step : StepWorkload := mkStepWork true false false false.

Definition sample_output : PmeOutput :=
  mkOutput [(real_one, real_of_Z 2, real_of_Z 3)] true (real_of_Z 2)
           ((real_one, real_zero, real_zero), rvec_zero, rvec_zero) (real_of_Z 4).

(** ** Proof support *)

Arguments pme_gpu_active : simpl never.
Arguments parallel_3dfft_execute_gpu_wrapper : simpl never.
Arguments host_parallel_for : simpl never.
Arguments transform_grid : simpl never.
Arguments lower_differs : simpl never.
Arguments box_scan : simpl never.
Arguments pme_gpu_wait_finish_task : simpl never.
Arguments pme_gpu_reduce_outputs : simpl never.
Arguments try_finish_tail : simpl never.
Arguments getOutput_value : simpl never.
Arguments lambda_weight : simpl never.

Ltac open_state s H :=
  destruct s as [s_pme s_wc s_calls s_fwv s_enerd]; simpl in H; subst.

Ltac case_if :=
  match goal with
  | |- context [match (if ?c then _ else _) with _ => _ end] => destruct c eqn:?
  | |- context [if ?c then _ else _] => destruct c eqn:?
  end.

Ltac mrun :=
  cbv [bind ret GMX_ASSERT assert_active pme_pointer deref_pme write_pme
       forceWithVirial_pointer deref_forceWithVirial write_forceWithVirial
       enerd_pointer deref_enerd write_enerd wallcycle log_call gpu_call host_call
       launch_timers_start launch_timers_stop pme_gpu_settings
       set_pme set_wcycle set_calls set_forceWithVirial set_enerd];
  cbn.

Section Properties.
Variable E : Externals.

Lemma host_parallel_for_run (body : Z -> Call) (n : Z) (s : State) :
  host_parallel_for n body s
  = Ok tt (set_calls s (calls s ++ map body (int_range n))).
Proof.
  unfold host_parallel_for. generalize (int_range n) as l.
  intros l; revert s. induction l as [|t l IH]; intros s.
  - cbn. unfold ret. destruct s; cbn. rewrite app_nil_r. reflexivity.
  - cbn [for_each map]. unfold bind at 1. unfold host_call at 1, log_call.
    rewrite IH. destruct s; cbn. rewrite <- app_assoc. reflexivity.
Qed.

Lemma fft_wrapper_run (g : Z) (dir : gmx_fft_direction) p w c f e :
  exists d w',
    parallel_3dfft_execute_gpu_wrapper E g dir (mkState (Some p) w c f e)
    = Ok tt (mkState (Some (with_device p d)) w' (c ++ fft_calls p g dir) f e).
Proof.
  unfold parallel_3dfft_execute_gpu_wrapper, fft_calls.
  cbv [bind deref_pme pme_gpu_settings]. cbn [pme].
  destruct (performGPUFFT (settings (gpu p))).
  - mrun. do 2 eexists. reflexivity.
  - unfold bind, wallcycle. rewrite host_parallel_for_run. cbn.
    exists (archSpecific (gpu p)). eexists.
    unfold with_device. destruct p as [? [? ? ?] ? ? ? ? ? ? ? ?]; cbn. reflexivity.
Qed.

Lemma transform_grid_run (cev : bool) (g : Z) p w c f e :
  exists d w',
    transform_grid E cev g (mkState (Some p) w c f e)
    = Ok tt (mkState (Some (with_device p d)) w' (c ++ grid_calls p cev g) f e).
Proof.
  unfold transform_grid, grid_calls.
  destruct (fft_wrapper_run g GMX_FFT_REAL_TO_COMPLEX p w c f e) as (d1 & w1 & R1).
  unfold bind at 1. rewrite R1.
  unfold bind at 1, deref_pme at 1. cbn [pme].
  unfold bind at 1. unfold solve_calls.
  change (settings (gpu (with_device p d1))) with (settings (gpu p)).
  change (nthread (with_device p d1)) with (nthread p).
  change (boxVolume (with_device p d1)) with (boxVolume p).
  destruct (performGPUSolve (settings (gpu p))).
  - mrun.
    match goal with |- context [parallel_3dfft_execute_gpu_wrapper E g ?dir (mkState (Some ?q) ?w0 ?c0 ?f0 ?e0)] =>
      destruct (fft_wrapper_run g dir q w0 c0 f0 e0) as (d2 & w2 & R2) end.
    rewrite R2. cbn. do 2 eexists. rewrite <- !app_assoc. reflexivity.
  - unfold bind at 1. unfold bind at 1. unfold wallcycle at 1.
    rewrite host_parallel_for_run. mrun.
    match goal with |- context [parallel_3dfft_execute_gpu_wrapper E g ?dir (mkState (Some ?q) ?w0 ?c0 ?f0 ?e0)] =>
      destruct (fft_wrapper_run g dir q w0 c0 f0 e0) as (d2 & w2 & R2) end.
    rewrite R2. cbn. do 2 eexists. rewrite <- !app_assoc. reflexivity.
Qed.

Lemma grid_loop_run (cev : bool) (gs : list Z) p w c f e :
  exists d w',
    for_each gs (transform_grid E cev) (mkState (Some p) w c f e)
    = Ok tt (mkState (Some (with_device p d)) w'
                     (c ++ flat_map (grid_calls p cev) gs) f e).
Proof.
  revert p w c. induction gs as [|g gs IH]; intros p w c.
  - exists (archSpecific (gpu p)), w. cbn. unfold ret.
    rewrite app_nil_r.
    destruct p as [? [? ? ?] ? ? ? ? ? ? ? ?]; reflexivity.
  - cbn [for_each flat_map]. unfold bind.
    destruct (transform_grid_run cev g p w c f e) as (d1 & w1 & R1). rewrite R1.
    destruct (IH (with_device p d1) w1 (c ++ grid_calls p cev g)) as (d2 & w2 & R2).
    rewrite R2.
    exists d2, w2. rewrite <- app_assoc. reflexivity.
Qed.

Lemma launch_complex_transforms_run (sw : StepWorkload) p w c f e :
  exists d w',
    pme_gpu_launch_complex_transforms E sw (mkState (Some p) w c f e)
    = Ok tt (mkState (Some (with_device p d)) w'
               (c ++ (if performGPUFFT (settings (gpu p)) then [] else [call_sync_spread_grid])
                  ++ flat_map (grid_calls p (computeEnergy sw || computeVirial sw))
                       (int_range (ngrids (common (gpu p))))) f e).
Proof.
  unfold pme_gpu_launch_complex_transforms.
  unfold bind at 1, deref_pme at 1. cbn [pme].
  destruct (performGPUFFT (settings (gpu p))) eqn:Hfft; cbn [negb].
  - unfold bind at 1, ret at 1.
    destruct (grid_loop_run (computeEnergy sw || computeVirial sw)
                (int_range (ngrids (common (gpu p)))) p w c f e) as (d & w' & R).
    rewrite R. exists d, w'. reflexivity.
  - mrun.
    match goal with |- context [for_each ?gs ?body (mkState (Some ?q) ?w0 ?c0 ?f0 ?e0)] =>
      destruct (grid_loop_run (computeEnergy sw || computeVirial sw) gs q w0 c0 f0 e0)
        as (d & w' & R) end.
    rewrite R. exists d, w'. rewrite <- app_assoc. reflexivity.
Qed.


Lemma with_device_self p : with_device p (archSpecific (gpu p)) = p.
Proof. destruct p as [? [? ? ?] ? ? ? ? ? ? ? ?]; reflexivity. Qed.

(** *** What the summation loop computes *)

Lemma sum_forces_loop_none (f forceToAdd : list rvec) :
  sum_forces_loop f forceToAdd = None
  <-> (List.length f < List.length forceToAdd)%nat.
Proof.
  revert f. induction forceToAdd as [|a add IH]; intros f.
  - assert (H0 : sum_forces_loop f [] = Some f) by (destruct f; reflexivity).
    rewrite H0. cbn [List.length]. split; intros H; [discriminate H | lia].
  - destruct f as [|x f]; cbn [sum_forces_loop List.length].
    + split; intros _; [lia | reflexivity].
    + specialize (IH f). destruct (sum_forces_loop f add) as [r0|].
      * split; [intros H; discriminate H|]. intros H.
        assert (Hn : Some r0 = None) by (apply IH; lia). discriminate Hn.
      * split; [|reflexivity]. intros _.
        assert ((List.length f < List.length add)%nat) by (apply IH; reflexivity).
        lia.
Qed.

Lemma sum_forces_loop_some (f forceToAdd r : list rvec) :
  sum_forces_loop f forceToAdd = Some r -> forces_summed f forceToAdd r.
Proof.
  revert f r. induction forceToAdd as [|a add IH]; intros f r.
  - assert (H0 : sum_forces_loop f [] = Some f) by (destruct f; reflexivity).
    rewrite H0. intros H; inversion H; subst.
    split; [reflexivity|]. split; intros i Hi; [cbn in Hi; lia | reflexivity].
  - destruct f as [|x f]; cbn [sum_forces_loop]; [intros H; discriminate H|].
    destruct (sum_forces_loop f add) as [r0|] eqn:R0; [|intros H; discriminate H].
    intros H; inversion H; subst; clear H.
    destruct (IH f r0 R0) as (Hl & Hadd & Hrest).
    split; [cbn [List.length]; lia|]. split.
    + intros [|i] Hi; cbn [nth].
      * unfold rvec_sum_of, rvec_add.
        destruct x as [[x0 x1] x2], a as [[a0 a1] a2]. reflexivity.
      * apply Hadd. cbn [List.length] in Hi. lia.
    + intros [|i] Hi; cbn [nth]; cbn [List.length] in Hi; [lia | apply Hrest; lia].
Qed.


Lemma reduced_energies_added (out : PmeOutput) (e : gmx_enerdata_t) :
  energies_added E (coulombEnergy_ out) (coulombDvdl_ out) e (reduced_energies E out e).
Proof. split; intros k; reflexivity. Qed.


Lemma reduce_outputs_ok (cev : bool) (out : PmeOutput) (s s' : State) :
  pme_gpu_reduce_outputs E cev out s = Ok tt s' ->
  exists f f',
    forceWithVirial s = Some f
    /\ reduced_forces E cev out f = Some f'
    /\ forceWithVirial s' = Some f'
    /\ (if cev then exists e, enerd s = Some e /\ enerd s' = Some (reduced_energies E out e)
        else enerd s' = enerd s)
    /\ pme s' = pme s
    /\ calls s' = calls s ++ (if haveForceOutput_ out then [host_omp_nthreads_get_emntPME] else []).
Proof.
  destruct s as [s_pme s_wc s_calls s_fwv s_enerd].
  unfold pme_gpu_reduce_outputs, reduced_forces, sum_forces. mrun.
  destruct s_fwv as [f|]; cbn; [|discriminate].
  destruct cev; cbn;
    [destruct s_enerd as [e|]; cbn; [|discriminate]|];
    (destruct (haveForceOutput_ out); cbn;
     [destruct (sum_forces_loop _ _) as [l|] eqn:Hs; cbn; [|discriminate]|]);
    intros H; inversion H; subst; clear H; cbn;
    do 2 eexists; (split; [reflexivity|]);
    (split; [rewrite ?Hs; reflexivity|]);
    repeat split; rewrite ?app_nil_r; try reflexivity;
    eexists; split; reflexivity.
Qed.

Lemma wait_finish_task_run (cev : bool) (lam : real) p w c f e :
  pme_gpu_active (Some p) = true ->
  let sync := negb (useGpuForceReduction (settings (gpu p))) || cev in
  let pf := if sync then with_device p (device_effect E call_synchronize (gpu p)) else p in
  pme_gpu_wait_finish_task E cev lam (mkState (Some p) w c f e)
  = Ok (getOutput_value E pf cev (lambda_weight p lam))
       (mkState (Some pf)
          (w ++ [wc_start ewcWAIT_GPU_PME_GATHER; wc_stop ewcWAIT_GPU_PME_GATHER])
          (c ++ (if sync then [call_synchronize] else [])
             ++ [call_getOutput cev (lambda_weight p lam)]) f e).
Proof.
  intros Ha. unfold pme_gpu_wait_finish_task, pme_gpu_getOutput. mrun. rewrite Ha. cbn.
  destruct (negb (useGpuForceReduction (settings (gpu p))) || cev); cbn;
    rewrite <- !app_assoc; reflexivity.
Qed.

Lemma lambda_weight_idem p d lam :
  lambda_weight (with_device p d) (lambda_weight p lam) = lambda_weight p lam.
Proof. unfold lambda_weight; cbn. destruct (1 <? _); reflexivity. Qed.

Lemma lambda_weight_twice p lam :
  lambda_weight p (lambda_weight p lam) = lambda_weight p lam.
Proof. unfold lambda_weight. destruct (1 <? _); reflexivity. Qed.

Lemma wait_and_reduce_ok (sw : StepWorkload) (lam : real) (s s' : State) p :
  pme s = Some p ->
  pme_gpu_wait_and_reduce E sw lam s = Ok tt s' ->
  finish_effect E sw lam p
    (if negb (useGpuForceReduction (settings (gpu p)))
        || (computeEnergy sw || computeVirial sw)
     then [call_synchronize] else []) s s'.
Proof.
  intros Hp. open_state s Hp.
  unfold pme_gpu_wait_and_reduce.
  unfold bind at 1, deref_pme at 1. cbn [pme].
  unfold bind at 1.
  destruct (pme_gpu_active (Some p)) eqn:Ha.
  2:{ unfold pme_gpu_wait_finish_task. mrun. rewrite Ha. cbn. discriminate. }
  rewrite (wait_finish_task_run _ _ p s_wc s_calls s_fwv s_enerd Ha).
  cbv zeta.
  set (cev := computeEnergy sw || computeVirial sw).
  set (sync := negb (useGpuForceReduction (settings (gpu p))) || cev).
  set (pf := if sync then _ else p).
  assert (Hpf : exists d, pf = with_device p d).
  { subst pf. destruct sync; [eexists; reflexivity|].
    exists (archSpecific (gpu p)). symmetry; apply with_device_self. }
  destruct Hpf as (d & Hpf).
  assert (Hlam : lambda_weight p (lambda_weight p lam) = lambda_weight p lam).
  { rewrite <- (with_device_self p) at 1. apply lambda_weight_idem. }
  rewrite Hlam.
  set (out := getOutput_value E pf cev (lambda_weight p lam)).
  unfold bind at 1, deref_pme at 1. cbn [pme].
  unfold bind at 1, GMX_ASSERT at 1.
  destruct (Bool.eqb _ _); [|discriminate].
  intros H. apply reduce_outputs_ok in H. cbn [forceWithVirial enerd pme calls] in H.
  destruct H as (f & f' & H1 & H2 & H3 & H4 & H5 & H6).
  exists pf, f, f'. cbn [forceWithVirial enerd pme calls]. fold cev. fold out.
  repeat split; try assumption.
  - exists d; exact Hpf.
  - rewrite H6, <- !app_assoc. reflexivity.
Qed.


Lemma try_finish_tail_ok (sw : StepWorkload) (lam : real) (b r : bool) p w c f e s' :
  try_finish_tail E sw lam b (mkState (Some p) w c f e) = Ok r s' ->
  r = true
  /\ finish_effect E sw lam p
       ((if b then [call_synchronize] else []) ++ [call_update_timings])
       (mkState (Some p) w c f e) s'.
Proof.
  unfold try_finish_tail, pme_gpu_getOutput.
  set (cev := computeEnergy sw || computeVirial sw).
  destruct b; mrun.
  - change (lambda_weight (set_gpu _ _) lam) with (lambda_weight p lam).
    match goal with |- context [getOutput_value E ?q cev _] => set (pf := q) end.
    set (out := getOutput_value E pf cev (lambda_weight p lam)).
    destruct (Bool.eqb _ _); [|discriminate].
    destruct (pme_gpu_reduce_outputs E cev out _) as [[] s2| |] eqn:R; try discriminate.
    intros H; inversion H; subst; clear H. split; [reflexivity|].
    apply reduce_outputs_ok in R. cbn [forceWithVirial enerd pme calls] in R.
    destruct R as (f0 & f' & H1 & H2 & H3 & H4 & H5 & H6).
    exists pf, f0, f'. cbn [forceWithVirial enerd pme calls]. fold cev. fold out.
    repeat split; try assumption.
    + eexists. reflexivity.
    + rewrite H6, <- !app_assoc. reflexivity.
  - change (lambda_weight (set_gpu _ _) lam) with (lambda_weight p lam).
    match goal with |- context [getOutput_value E ?q cev _] => set (pf := q) end.
    set (out := getOutput_value E pf cev (lambda_weight p lam)).
    destruct (Bool.eqb _ _); [|discriminate].
    destruct (pme_gpu_reduce_outputs E cev out _) as [[] s2| |] eqn:R; try discriminate.
    intros H; inversion H; subst; clear H. split; [reflexivity|].
    apply reduce_outputs_ok in R. cbn [forceWithVirial enerd pme calls] in R.
    destruct R as (f0 & f' & H1 & H2 & H3 & H4 & H5 & H6).
    exists pf, f0, f'. cbn [forceWithVirial enerd pme calls]. fold cev. fold out.
    repeat split; try assumption.
    + eexists. reflexivity.
    + rewrite H6, <- !app_assoc. reflexivity.
Qed.

Lemma try_finish_task_ok (sw : StepWorkload) (lam : real) (k : GpuTaskCompletion)
    (s s' : State) p :
  pme s = Some p ->
  pme_gpu_try_finish_task E sw lam k s = Ok true s' ->
  let polled := completion_is_Check k && is_cuda (GMX_GPU E) in
  useGpuForceReduction (settings (gpu p)) = false
  /\ (polled = true -> pme_gpu_stream_query E (gpu p) = true)
  /\ finish_effect E sw lam p
       ((if polled then [call_stream_query] else [call_synchronize])
          ++ [call_update_timings]) s s'.
Proof.
  intros Hp. open_state s Hp. unfold pme_gpu_try_finish_task.
  unfold bind at 1, assert_active at 1. mrun.
  destruct (pme_gpu_active (Some p)); cbn; [|discriminate].
  destruct (useGpuForceReduction (settings (gpu p))); cbn; [discriminate|].
  destruct (completion_is_Check k && is_cuda (GMX_GPU E)); cbn.
  - destruct (pme_gpu_stream_query E (gpu p)); cbn; [|discriminate].
    intros H. apply try_finish_tail_ok in H. destruct H as (_ & pf & f & f' & H).
    cbv zeta in H. cbn [calls forceWithVirial enerd] in H.
    repeat split; try reflexivity.
    exists pf, f, f'. cbv zeta. cbn [calls forceWithVirial enerd].
    destruct H as (H1 & H2 & H3 & H4 & H5 & H6 & H7).
    repeat split; try assumption.
    rewrite H3. cbn. rewrite <- !app_assoc. reflexivity.
  - intros H. apply try_finish_tail_ok in H. destruct H as (_ & H).
    repeat split; try discriminate. exact H.
Qed.


Lemma reduce_outputs_logs (cev : bool) (out : PmeOutput) pm w1 c1 w2 c2 f e :
  same_outcome (pme_gpu_reduce_outputs E cev out (mkState pm w1 c1 f e))
               (pme_gpu_reduce_outputs E cev out (mkState pm w2 c2 f e)).
Proof.
  unfold pme_gpu_reduce_outputs, sum_forces. mrun.
  destruct f as [f|]; cbn; [|constructor].
  destruct cev; cbn;
    [destruct e as [e|]; cbn; [|constructor]|];
    (destruct (haveForceOutput_ out); cbn;
     [destruct (sum_forces_loop _ _) as [l|]; cbn; [|constructor]|]);
    constructor; repeat split.
Qed.

Lemma try_finish_tail_logs sw lam b pm w1 c1 w2 c2 f e :
  same_outcome (try_finish_tail E sw lam b (mkState pm w1 c1 f e))
               (try_finish_tail E sw lam b (mkState pm w2 c2 f e)).
Proof.
  unfold try_finish_tail, pme_gpu_getOutput.
  destruct pm as [p|]; [|destruct b; mrun; constructor].
  destruct b; mrun;
    (destruct (Bool.eqb _ _); [|constructor]);
    match goal with
    | |- same_outcome (match pme_gpu_reduce_outputs E ?cev ?out (mkState ?pm ?wa ?ca ?f ?e) with _ => _ end)
                      (match pme_gpu_reduce_outputs E _ _ (mkState _ ?wb ?cb _ _) with _ => _ end) =>
        pose proof (reduce_outputs_logs cev out pm wa ca wb cb f e) as R
    end;
    inversion R; constructor; assumption.
Qed.

Lemma try_finish_task_logs sw lam k s1 s2 :
  same_data s1 s2 ->
  same_outcome (pme_gpu_try_finish_task E sw lam k s1)
               (pme_gpu_try_finish_task E sw lam k s2).
Proof.
  destruct s1 as [pm w1 c1 f e], s2 as [pm2 w2 c2 f2 e2].
  intros (H1 & H2 & H3); cbn in H1, H2, H3; subst pm2 f2 e2.
  unfold pme_gpu_try_finish_task. mrun.
  destruct (pme_gpu_active pm); cbn; [|constructor].
  destruct pm as [p|]; cbn; [|constructor].
  destruct (useGpuForceReduction (settings (gpu p))); cbn; [constructor|].
  destruct (completion_is_Check k && is_cuda (GMX_GPU E)); cbn.
  - destruct (pme_gpu_stream_query E (gpu p)); cbn.
    + apply try_finish_tail_logs.
    + constructor; repeat split.
  - apply try_finish_tail_logs.
Qed.

Lemma wait_and_reduce_logs sw lam s1 s2 :
  same_data s1 s2 ->
  same_outcome (pme_gpu_wait_and_reduce E sw lam s1)
               (pme_gpu_wait_and_reduce E sw lam s2).
Proof.
  destruct s1 as [pm w1 c1 f e], s2 as [pm2 w2 c2 f2 e2].
  intros (H1 & H2 & H3); cbn in H1, H2, H3; subst pm2 f2 e2.
  unfold pme_gpu_wait_and_reduce.
  destruct pm as [p|]; [|mrun; constructor].
  cbv [bind deref_pme]. cbn [pme].
  destruct (pme_gpu_active (Some p)) eqn:Ha.
  2:{ unfold pme_gpu_wait_finish_task. mrun. rewrite Ha. cbn. constructor. }
  rewrite (wait_finish_task_run _ _ p w1 c1 f e Ha), (wait_finish_task_run _ _ p w2 c2 f e Ha).
  cbv zeta.
  mrun.
  destruct (Bool.eqb _ _); [|constructor].
  apply reduce_outputs_logs.
Qed.

Lemma try_finish_task_incomplete (sw : StepWorkload) (lam : real) p w c f e :
  pme_gpu_active (Some p) = true ->
  useGpuForceReduction (settings (gpu p)) = false ->
  GMX_GPU E = GMX_GPU_CUDA ->
  pme_gpu_stream_query E (gpu p) = false ->
  pme_gpu_try_finish_task E sw lam Check (mkState (Some p) w c f e)
  = Ok false (mkState (Some p)
                (w ++ [wc_start_nocount ewcWAIT_GPU_PME_GATHER;
                       wc_stop ewcWAIT_GPU_PME_GATHER])
                (c ++ [call_stream_query]) f e).
Proof.
  intros Ha Hr Hc Hq. unfold pme_gpu_try_finish_task.
  unfold bind at 1, assert_active at 1. mrun.
  rewrite Ha; cbn. rewrite Hr; cbn. rewrite Hc; cbn. rewrite Hq; cbn.
  rewrite <- app_assoc. reflexivity.
Qed.

Lemma lambda_weight_single p lam1 lam2 :
  ngrids (common (gpu p)) <= 1 -> lambda_weight p lam1 = lambda_weight p lam2.
Proof.
  intros H. unfold lambda_weight.
  destruct (1 <? ngrids (common (gpu p))) eqn:T; [|reflexivity].
  apply Z.ltb_lt in T. lia.
Qed.

Lemma wait_finish_task_lambda cev lam1 lam2 s p :
  pme s = Some p -> ngrids (common (gpu p)) <= 1 ->
  pme_gpu_wait_finish_task E cev lam1 s = pme_gpu_wait_finish_task E cev lam2 s.
Proof.
  intros Hp Hn. open_state s Hp.
  unfold pme_gpu_wait_finish_task, pme_gpu_getOutput. mrun.
  destruct (pme_gpu_active (Some p)); cbn; [|reflexivity].
  destruct (negb _ || cev); cbn.
  - change (lambda_weight (set_gpu _ _) ?l) with (lambda_weight p l).
    rewrite (lambda_weight_single p lam1 lam2 Hn). reflexivity.
  - rewrite (lambda_weight_single p lam1 lam2 Hn). reflexivity.
Qed.

Lemma wait_and_reduce_lambda sw lam1 lam2 s p :
  pme s = Some p -> ngrids (common (gpu p)) <= 1 ->
  pme_gpu_wait_and_reduce E sw lam1 s = pme_gpu_wait_and_reduce E sw lam2 s.
Proof.
  intros Hp Hn. unfold pme_gpu_wait_and_reduce.
  cbv [bind deref_pme]. rewrite Hp.
  rewrite (lambda_weight_single p lam1 lam2 Hn). reflexivity.
Qed.

Lemma try_finish_tail_lambda sw lam1 lam2 b p w c f e :
  ngrids (common (gpu p)) <= 1 ->
  try_finish_tail E sw lam1 b (mkState (Some p) w c f e)
  = try_finish_tail E sw lam2 b (mkState (Some p) w c f e).
Proof.
  intros Hn. unfold try_finish_tail, pme_gpu_getOutput.
  destruct b; mrun;
    change (lambda_weight (set_gpu _ _) ?l) with (lambda_weight p l);
    rewrite (lambda_weight_single p lam1 lam2 Hn); reflexivity.
Qed.

Lemma try_finish_task_lambda sw lam1 lam2 k s p :
  pme s = Some p -> ngrids (common (gpu p)) <= 1 ->
  pme_gpu_try_finish_task E sw lam1 k s = pme_gpu_try_finish_task E sw lam2 k s.
Proof.
  intros Hp Hn. open_state s Hp. unfold pme_gpu_try_finish_task. mrun.
  destruct (pme_gpu_active (Some p)); cbn; [|reflexivity].
  destruct (useGpuForceReduction (settings (gpu p))); cbn; [reflexivity|].
  destruct (completion_is_Check k && is_cuda (GMX_GPU E)); cbn.
  - destruct (pme_gpu_stream_query E (gpu p)); cbn; [|reflexivity].
    apply try_finish_tail_lambda; assumption.
  - apply try_finish_tail_lambda; assumption.
Qed.


Lemma box_scan_flag (previous box : matrix) :
  fst (box_scan previous box) = lower_differs previous box.
Proof.
  destruct previous as [[r0 r1] r2].
  destruct r0 as [[a0 a1] a2], r1 as [[b0 b1] b2], r2 as [[c0 c1] c2].
  destruct box as [[q0 q1] q2].
  destruct q0 as [[x0 x1] x2], q1 as [[y0 y1] y2], q2 as [[z0 z1] z2].
  unfold box_scan, lower_differs. cbn.
  repeat match goal with |- context [real_ne ?a ?b] => destruct (real_ne a b) end;
    reflexivity.
Qed.

Lemma box_scan_entries (previous box : matrix) (i j : nat) :
  (i < 3)%nat -> (j < 3)%nat ->
  mget (snd (box_scan previous box)) i j
  = if (j <=? i)%nat then mget box i j else mget previous i j.
Proof.
  intros Hi Hj.
  destruct previous as [[r0 r1] r2].
  destruct r0 as [[a0 a1] a2], r1 as [[b0 b1] b2], r2 as [[c0 c1] c2].
  destruct box as [[q0 q1] q2].
  destruct q0 as [[x0 x1] x2], q1 as [[y0 y1] y2], q2 as [[z0 z1] z2].
  unfold box_scan.
  destruct i as [|[|[|i]]]; [| | |lia];
    (destruct j as [|[|[|j]]]; [| | |lia]); reflexivity.
Qed.

Lemma lower_differs_self (box : matrix) :
  (forall i j, (j <= i < 3)%nat -> real_ne (mget box i j) (mget box i j) = false) ->
  lower_differs (snd (box_scan box box)) box = false
  /\ forall previous, lower_differs (snd (box_scan previous box)) box = false.
Proof.
  intros H.
  assert (G : forall previous, lower_differs (snd (box_scan previous box)) box = false).
  { intros previous. unfold lower_differs, lower_triangle. cbn [existsb fst snd].
    rewrite !box_scan_entries by lia. cbn.
    rewrite (H 0 0)%nat, (H 1 0)%nat, (H 1 1)%nat, (H 2 0)%nat, (H 2 1)%nat, (H 2 2)%nat by lia.
    reflexivity. }
  split; [apply G | exact G].
Qed.

Lemma lower_differs_entry (previous box : matrix) (i j : nat) :
  (j <= i < 3)%nat ->
  real_ne (mget previous i j) (mget box i j) = true ->
  lower_differs previous box = true.
Proof.
  intros Hij Hne. unfold lower_differs. apply existsb_exists.
  exists (i, j). split; [|exact Hne].
  unfold lower_triangle.
  destruct i as [|[|[|i]]]; [| | |lia];
    (destruct j as [|[|[|j]]]; try lia); cbn; tauto.
Qed.

Lemma box_updates_app (l1 l2 : list Call) :
  box_updates (l1 ++ l2) = (box_updates l1 + box_updates l2)%nat.
Proof. unfold box_updates. rewrite filter_app, length_app. reflexivity. Qed.

Lemma prepare_computation_run (box : matrix) (sw : StepWorkload) p w c f e :
  pme_gpu_active (Some p) = true ->
  (0 <? nnodes p) = true ->
  ((nnodes p =? 1) || (0 <? ndecompdim p)) = true ->
  exists p' w',
    pme_gpu_prepare_computation E box sw (mkState (Some p) w c f e)
    = Ok tt (mkState (Some p') w'
               (c ++ (if haveDynamicBox sw
                         || lower_differs (previousBox (common (gpu p))) box
                      then [call_update_input_box box] else [])) f e)
    /\ runMode p' = runMode p /\ nnodes p' = nnodes p /\ ndecompdim p' = ndecompdim p
    /\ previousBox (common (gpu p'))
       = snd (box_scan (previousBox (common (gpu p))) box)
    /\ (recipbox p', boxVolume p')
       = if (haveDynamicBox sw || lower_differs (previousBox (common (gpu p))) box)
            && negb (performGPUSolve (settings (gpu p)))
         then (invertBoxMatrix E (scaleBox E box),
               real_mul
                 (real_mul (mget (scaleBox E box) XX XX)
                                (mget (scaleBox E box) YY YY))
                 (mget (scaleBox E box) ZZ ZZ))
         else (recipbox p, boxVolume p).
Proof.
  intros Ha Hn Hd. unfold pme_gpu_prepare_computation. mrun.
  rewrite Ha; cbn. rewrite Hn; cbn. rewrite Hd; cbn.
  rewrite <- box_scan_flag.
  destruct (box_scan (previousBox (common (gpu p))) box) as [should newPrevious].
  cbn.
  destruct (haveDynamicBox sw || should); cbn.
  - destruct (performGPUSolve (settings (gpu p))); cbn;
      do 2 eexists; (split; [reflexivity|]); repeat split.
  - do 2 eexists. rewrite app_nil_r. (split; [reflexivity|]); repeat split.
Qed.

Lemma grid_count_ok_test p :
  ((ngrids (common (gpu p)) =? 1) || ((ngrids (common (gpu p)) =? 2) && bFEP_q p)) = true
  <-> grid_count_ok p.
Proof.
  unfold grid_count_ok. rewrite orb_true_iff, andb_true_iff, !Z.eqb_eq. tauto.
Qed.

(** C9.  [pme_gpu_launch_spread] asserts that there is one grid, or two
    grids with [bFEP_q].  For every other combination the call ends in a
    failed assertion, which is this one once the earlier assertions hold;
    under the contract this assertion cannot fail, and the spread is
    launched when the earlier assertions hold too. *)
Theorem launch_spread_grid_count (xr : pointer) (lam : real)
    (s : State) (p : gmx_pme_t) :
  pme s = Some p ->
  let earlier :=
    pme_gpu_active (Some p) = true
    /\ (negb (is_null xr) || negb (bPPnode p) || negb (is_cuda (GMX_GPU E))) = true
    /\ doCoulomb p = true in
  (~ grid_count_ok p ->
     exists msg, pme_gpu_launch_spread E xr lam s = AssertionFailed msg)
  /\ (~ grid_count_ok p -> earlier ->
      pme_gpu_launch_spread E xr lam s = AssertionFailed msg_ngrids)
  /\ (grid_count_ok p ->
      pme_gpu_launch_spread E xr lam s <> AssertionFailed msg_ngrids)
  /\ (grid_count_ok p -> earlier ->
      exists s',
        pme_gpu_launch_spread E xr lam s = Ok tt s'
        /\ calls s' = calls s ++ [call_spread xr true true lam]).
Proof.
  intros Hp earlier. subst earlier. open_state s Hp.
  pose proof (grid_count_ok_test p) as T.
  unfold pme_gpu_launch_spread. mrun.
  split; [|split; [|split]].
  - intros Hn. repeat (case_if; cbn; eauto).
    exfalso; apply Hn, T; reflexivity.
  - intros Hn (Ha & Hx & Hc). rewrite Ha; cbn. rewrite Hx; cbn. rewrite Hc; cbn.
    case_if; cbn; eauto.
    exfalso; apply Hn, T; reflexivity.
  - intros Hok. apply T in Hok.
    repeat (case_if; cbn; try discriminate).
  - intros Hok (Ha & Hx & Hc). apply T in Hok.
    rewrite Ha; cbn. rewrite Hx; cbn. rewrite Hc; cbn. rewrite Hok; cbn.
    eexists. split; reflexivity.
Qed.




(** *** Logs of appended calls *)

Lemma fetches_app (l1 l2 : list Call) : fetches (l1 ++ l2) = fetches l1 ++ fetches l2.
Proof.
  induction l1 as [|c l1 IH]; [reflexivity|].
  destruct c; cbn; rewrite IH; reflexivity.
Qed.

Lemma solve_orderings_app (l1 l2 : list Call) :
  solve_orderings (l1 ++ l2) = solve_orderings l1 ++ solve_orderings l2.
Proof.
  induction l1 as [|c l1 IH]; [reflexivity|].
  destruct c; cbn; rewrite IH; reflexivity.
Qed.

Lemma solve_flags_app (l1 l2 : list Call) :
  solve_flags (l1 ++ l2) = solve_flags l1 ++ solve_flags l2.
Proof.
  induction l1 as [|c l1 IH]; [reflexivity|].
  destruct c; cbn; rewrite IH; reflexivity.
Qed.

Lemma host_force_sums_app (l1 l2 : list Call) :
  host_force_sums (l1 ++ l2) = (host_force_sums l1 + host_force_sums l2)%nat.
Proof. unfold host_force_sums. rewrite filter_app, length_app. reflexivity. Qed.

Lemma solve_orderings_host (A : Type) (body : A -> Call) (l : list A) :
  (forall a, solve_orderings [body a] = []) ->
  solve_orderings (map body l) = [].
Proof.
  intros H. induction l as [|a l IH]; [reflexivity|].
  change (map body (a :: l)) with ([body a] ++ map body l).
  rewrite solve_orderings_app, H, IH. reflexivity.
Qed.

Lemma solve_orderings_fft p g dir : solve_orderings (fft_calls p g dir) = [].
Proof.
  unfold fft_calls. destruct (performGPUFFT _); [reflexivity|].
  apply solve_orderings_host. reflexivity.
Qed.

Lemma solve_orderings_grids p cev (gs : list Z) :
  performGPUSolve (settings (gpu p)) = true ->
  solve_orderings (flat_map (grid_calls p cev) gs)
  = repeat (if useDecomposition (settings (gpu p)) then YZX else XYZ) (List.length gs).
Proof.
  intros Hs. induction gs as [|g gs IH]; [reflexivity|].
  cbn [flat_map List.length repeat]. rewrite solve_orderings_app, IH.
  unfold grid_calls, solve_calls. rewrite Hs.
  rewrite !solve_orderings_app, !solve_orderings_fft. reflexivity.
Qed.

Lemma solve_flags_host (A : Type) (body : A -> Call) (cev : bool) (l : list A) :
  (forall a, Forall (eq cev) (solve_flags [body a])) ->
  Forall (eq cev) (solve_flags (map body l)).
Proof.
  intros H. induction l as [|a l IH]; [constructor|].
  change (map body (a :: l)) with ([body a] ++ map body l).
  rewrite solve_flags_app. apply Forall_app. split; [apply H | exact IH].
Qed.

Lemma solve_flags_fft p g dir (cev : bool) : Forall (eq cev) (solve_flags (fft_calls p g dir)).
Proof.
  unfold fft_calls. destruct (performGPUFFT _); [constructor|].
  apply solve_flags_host. intros a. constructor.
Qed.

Lemma solve_flags_grids p cev (gs : list Z) :
  Forall (eq cev) (solve_flags (flat_map (grid_calls p cev) gs)).
Proof.
  induction gs as [|g gs IH]; [constructor|].
  cbn [flat_map]. rewrite solve_flags_app. apply Forall_app. split; [|exact IH].
  unfold grid_calls. rewrite !solve_flags_app. rewrite !Forall_app.
  repeat split; try apply solve_flags_fft.
  unfold solve_calls. destruct (performGPUSolve _).
  - repeat constructor.
  - apply solve_flags_host. intros a. repeat constructor.
Qed.

Lemma int_range_length (n : Z) : List.length (int_range n) = Z.to_nat n.
Proof. unfold int_range. rewrite length_map, length_seq. reflexivity. Qed.

Lemma same_data_advance s1 s2 d :
  same_data s1 s2 -> same_data (advance_device s1 d) (advance_device s2 d).
Proof.
  destruct s1 as [pm w1 c1 f e], s2 as [pm2 w2 c2 f2 e2].
  intros (H1 & H2 & H3); cbn in H1, H2, H3; subst pm2 f2 e2.
  unfold advance_device; cbn. destruct pm; repeat split.
Qed.

Lemma getOutput_haveForceOutput (q : gmx_pme_t) (cev : bool) (l : real) :
  haveForceOutput_ (getOutput_value E q cev l)
  = negb (useGpuForceReduction (settings (gpu q))).
Proof.
  unfold getOutput_value.
  destruct cev; [destruct (staged_energy_virial E q l) as [[? ?] ?]|]; reflexivity.
Qed.

(** *** The completion paths do complete

    Given an active PME structure, a force output with room for the staged
    forces and an energy output, neither completion path fails. *)

Lemma eqb_negb_negb (b : bool) : Bool.eqb b (negb (negb b)) = true.
Proof. destruct b; reflexivity. Qed.

Lemma reduce_outputs_completes (cev : bool) (out : PmeOutput) pm w c f e f' :
  reduced_forces E cev out f = Some f' ->
  exists s',
    pme_gpu_reduce_outputs E cev out (mkState pm w c (Some f) (Some e)) = Ok tt s'.
Proof.
  unfold pme_gpu_reduce_outputs, reduced_forces, sum_forces. mrun.
  destruct cev; cbn;
    (destruct (haveForceOutput_ out); cbn;
     [destruct (sum_forces_loop _ _) as [l|]; cbn; [|discriminate]|]);
    intros _; eexists; reflexivity.
Qed.

Lemma wait_and_reduce_completes (sw : StepWorkload) (lam : real) p w c f e :
  pme_gpu_active (Some p) = true ->
  (forall d out,
      out = getOutput_value E (with_device p d)
              (computeEnergy sw || computeVirial sw) (lambda_weight p lam) ->
      reduced_forces E (computeEnergy sw || computeVirial sw) out f <> None) ->
  exists s',
    pme_gpu_wait_and_reduce E sw lam (mkState (Some p) w c (Some f) (Some e))
    = Ok tt s'.
Proof.
  intros Ha Hroom. unfold pme_gpu_wait_and_reduce.
  cbv [bind deref_pme]. cbn [pme].
  rewrite (wait_finish_task_run _ _ p w c (Some f) (Some e) Ha). cbv zeta.
  rewrite lambda_weight_twice.
  set (cev := computeEnergy sw || computeVirial sw) in *.
  set (pf := if negb _ || cev then _ else p).
  assert (Hpf : exists d, pf = with_device p d).
  { subst pf. destruct (negb _ || cev); [eexists; reflexivity|].
    exists (archSpecific (gpu p)). symmetry; apply with_device_self. }
  destruct Hpf as (d & Hpf).
  cbn [pme]. unfold GMX_ASSERT.
  rewrite getOutput_haveForceOutput, eqb_negb_negb.
  destruct (reduced_forces E cev (getOutput_value E pf cev (lambda_weight p lam)) f)
    as [f'|] eqn:R.
  - eapply reduce_outputs_completes; exact R.
  - exfalso. eapply Hroom; [|exact R]. rewrite Hpf. reflexivity.
Qed.

Lemma try_finish_task_completes (sw : StepWorkload) (lam : real)
    (k : GpuTaskCompletion) p w c f e :
  pme_gpu_active (Some p) = true ->
  useGpuForceReduction (settings (gpu p)) = false ->
  (forall d out,
      out = getOutput_value E (with_device p d)
              (computeEnergy sw || computeVirial sw) (lambda_weight p lam) ->
      reduced_forces E (computeEnergy sw || computeVirial sw) out f <> None) ->
  exists done s',
    pme_gpu_try_finish_task E sw lam k (mkState (Some p) w c (Some f) (Some e))
    = Ok done s'.
Proof.
  intros Ha Hr Hroom.
  assert (Tail : forall b w0 c0,
             exists s', try_finish_tail E sw lam b
                          (mkState (Some p) w0 c0 (Some f) (Some e)) = Ok true s').
  { intros b w0 c0. unfold try_finish_tail, pme_gpu_getOutput.
    set (cev := computeEnergy sw || computeVirial sw) in *.
    destruct b; mrun;
      change (lambda_weight (set_gpu _ _) lam) with (lambda_weight p lam);
      match goal with |- context [getOutput_value E ?q cev _] => set (pf := q) end;
      rewrite getOutput_haveForceOutput; subst pf; cbn; rewrite eqb_negb_negb;
      match goal with
      | |- context [pme_gpu_reduce_outputs E cev ?out (mkState ?pm ?w1 ?c1 _ _)] =>
          destruct (reduced_forces E cev out f) as [f'|] eqn:R;
          [destruct (reduce_outputs_completes cev out pm w1 c1 f e f' R) as (s' & Rs);
           rewrite Rs; eexists; reflexivity
          | exfalso; eapply Hroom; [|exact R]; reflexivity]
      end. }
  unfold pme_gpu_try_finish_task. mrun.
  rewrite Ha; cbn. rewrite Hr; cbn.
  destruct (completion_is_Check k && is_cuda (GMX_GPU E)); cbn.
  - destruct (pme_gpu_stream_query E (gpu p)); cbn.
    + destruct (Tail false
                  ((w ++ [wc_start_nocount ewcWAIT_GPU_PME_GATHER])
                     ++ [wc_stop ewcWAIT_GPU_PME_GATHER])
                  (c ++ [call_stream_query])) as (s' & Rs).
      rewrite Rs. do 2 eexists; reflexivity.
    + do 2 eexists; reflexivity.
  - destruct (Tail true w c) as (s' & Rs). rewrite Rs. do 2 eexists; reflexivity.
Qed.

(** *** The claims *)

(** C1 (as amended).  The blocking path synchronizes the stream before the
    output fetch exactly when an output has to be waited for, that is when
    the force reduction is host-side or energy and virial are computed;
    otherwise it fetches without synchronizing.  The fetch is always made. *)
Theorem wait_and_reduce_synchronization (sw : StepWorkload) (lam : real)
    (s : State) (p : gmx_pme_t) :
  pme s = Some p ->
  pme_gpu_active (Some p) = true ->
  let cev := computeEnergy sw || computeVirial sw in
  let awaited := negb (useGpuForceReduction (settings (gpu p))) || cev in
  (exists out s1,
      pme_gpu_wait_finish_task E cev (lambda_weight p lam) s = Ok out s1
      /\ calls s1 = calls s ++ (if awaited then [call_synchronize] else [])
                      ++ [call_getOutput cev (lambda_weight p lam)])
  /\ (forall s',
        pme_gpu_wait_and_reduce E sw lam s = Ok tt s' ->
        exists rest,
          calls s' = calls s ++ (if awaited then [call_synchronize] else [])
                       ++ [call_getOutput cev (lambda_weight p lam)] ++ rest
          /\ synchronizations rest = 0%nat).
Proof.
  intros Hp Ha cev awaited. split.
  - open_state s Hp.
    rewrite (wait_finish_task_run _ _ p s_wc s_calls s_fwv s_enerd Ha). cbv zeta.
    do 2 eexists. split; [reflexivity|]. cbn [calls].
    rewrite lambda_weight_twice. reflexivity.
  - intros s' H. apply (wait_and_reduce_ok sw lam s s' p Hp) in H.
    destruct H as (pf & f & f' & _ & _ & Hc & _).
    eexists. split; [exact Hc|]. destruct (haveForceOutput_ _); reflexivity.
Qed.

(** C2 (as amended).  Each call compares the six lower-triangular entries
    of the new box with the persisted ones using [!=], overwrites these six
    persisted entries (and no other) whether or not the recompute triggers,
    and triggers it exactly when [haveDynamicBox] is set or a compared entry
    differs.  On a trigger with the solve on the host the reciprocal box
    and the cell volume are recomputed from the scaled box, and otherwise
    they are left alone.  A second call with the same box, none of whose
    compared entries is a NaN, and without [haveDynamicBox] does not
    trigger; a second call with a box that has a compared entry unequal
    under [!=] triggers. *)
Theorem prepare_box_tracking (box : matrix) (sw : StepWorkload)
    (s : State) (p : gmx_pme_t) :
  pme s = Some p ->
  pme_gpu_active (Some p) = true ->
  0 < nnodes p ->
  nnodes p = 1 \/ 0 < ndecompdim p ->
  exists s' p',
    pme_gpu_prepare_computation E box sw s = Ok tt s'
    /\ pme s' = Some p'
    /\ (forall i j, (j <= i < 3)%nat ->
          mget (previousBox (common (gpu p'))) i j = mget box i j)
    /\ (forall i j, (i < j < 3)%nat ->
          mget (previousBox (common (gpu p'))) i j
          = mget (previousBox (common (gpu p))) i j)
    /\ box_updates (calls s')
       = (box_updates (calls s)
          + if haveDynamicBox sw || lower_differs (previousBox (common (gpu p))) box
            then 1 else 0)%nat
    /\ (recipbox p', boxVolume p')
       = (if (haveDynamicBox sw || lower_differs (previousBox (common (gpu p))) box)
             && negb (performGPUSolve (settings (gpu p)))
          then (invertBoxMatrix E (scaleBox E box),
                real_mul
                  (real_mul (mget (scaleBox E box) XX XX)
                                 (mget (scaleBox E box) YY YY))
                  (mget (scaleBox E box) ZZ ZZ))
          else (recipbox p, boxVolume p))
    /\ (forall sw2,
          haveDynamicBox sw2 = false ->
          (forall i j, (j <= i < 3)%nat ->
             real_ne (mget box i j) (mget box i j) = false) ->
          exists s'',
            pme_gpu_prepare_computation E box sw2 s' = Ok tt s''
            /\ box_updates (calls s'') = box_updates (calls s'))
    /\ (forall sw2 box2 i j,
          (j <= i < 3)%nat ->
          real_ne (mget box i j) (mget box2 i j) = true ->
          exists s'',
            pme_gpu_prepare_computation E box2 sw2 s' = Ok tt s''
            /\ box_updates (calls s'') = S (box_updates (calls s'))).
Proof.
  intros Hp Ha Hn Hd. open_state s Hp.
  assert (Hn' : (0 <? nnodes p) = true) by (apply Z.ltb_lt; exact Hn).
  assert (Hd' : ((nnodes p =? 1) || (0 <? ndecompdim p)) = true).
  { apply orb_true_iff. rewrite Z.eqb_eq, Z.ltb_lt. exact Hd. }
  destruct (prepare_computation_run box sw p s_wc s_calls s_fwv s_enerd Ha Hn' Hd')
    as (p' & w' & R & Hm & Hnn & Hnd & Hprev & Hrecip).
  eexists. exists p'. split; [exact R|]. cbn [pme calls].
  assert (Ha2 : pme_gpu_active (Some p') = true).
  { unfold pme_gpu_active in *. rewrite Hm. exact Ha. }
  assert (Hn2 : (0 <? nnodes p') = true) by (rewrite Hnn; exact Hn').
  assert (Hd2 : ((nnodes p' =? 1) || (0 <? ndecompdim p')) = true)
    by (rewrite Hnn, Hnd; exact Hd').
  assert (Hlow : forall i j, (j <= i < 3)%nat ->
            mget (previousBox (common (gpu p'))) i j = mget box i j).
  { intros i j Hij. rewrite Hprev, box_scan_entries by lia.
    destruct (Nat.leb_spec j i); [reflexivity | lia]. }
  split; [reflexivity|]. split; [exact Hlow|]. split; [|split; [|split; [|split]]].
  - intros i j Hij. rewrite Hprev, box_scan_entries by lia.
    destruct (Nat.leb_spec j i); [lia | reflexivity].
  - rewrite box_updates_app.
    destruct (haveDynamicBox sw || lower_differs _ _); reflexivity.
  - exact Hrecip.
  - intros sw2 Hdyn Hself.
    match type of R with _ = Ok tt (mkState _ _ ?c1 _ _) =>
      destruct (prepare_computation_run box sw2 p' w' c1 s_fwv s_enerd Ha2 Hn2 Hd2)
        as (p2 & w2 & R2 & _) end.
    eexists. split; [exact R2|]. cbn [calls].
    rewrite Hdyn, Hprev. destruct (lower_differs_self box Hself) as [_ G].
    rewrite G. cbn. rewrite app_nil_r. reflexivity.
  - intros sw2 box2 i j Hij Hne.
    match type of R with _ = Ok tt (mkState _ _ ?c1 _ _) =>
      destruct (prepare_computation_run box2 sw2 p' w' c1 s_fwv s_enerd Ha2 Hn2 Hd2)
        as (p2 & w2 & R2 & _) end.
    eexists. split; [exact R2|]. cbn [calls].
    rewrite (lower_differs_entry (previousBox (common (gpu p'))) box2 i j Hij)
      by (rewrite Hlow by exact Hij; exact Hne).
    rewrite orb_true_r, (box_updates_app _ [_]). cbn. lia.
Qed.

Lemma reduced_forces_virial (cev : bool) (out : PmeOutput) (f f' : ForceWithVirial) :
  reduced_forces E cev out f = Some f' ->
  virial_ f' = virial_ (if cev then addVirialContribution E f (coulombVirial_ out) else f).
Proof.
  unfold reduced_forces. destruct (haveForceOutput_ out).
  - destruct (sum_forces_loop _ _); [|discriminate].
    intros H; inversion H; reflexivity.
  - intros H; inversion H; reflexivity.
Qed.





Lemma finish_effect_updated_together sw lam p front s s' :
  finish_effect E sw lam p front s s' ->
  exists pf,
    pme s' = Some pf
    /\ updated_together E (computeEnergy sw || computeVirial sw)
         (getOutput_value E pf (computeEnergy sw || computeVirial sw)
            (lambda_weight p lam)) s s'.
Proof.
  intros (pf & f & f' & _ & Hpf & _ & Hf & Hr & Hf' & He). cbv zeta in *.
  exists pf. split; [exact Hpf|]. exists f, f'.
  split; [exact Hf|]. split; [exact Hf'|].
  apply reduced_forces_virial in Hr.
  destruct (computeEnergy sw || computeVirial sw).
  - split; [exact Hr|]. destruct He as (e & He1 & He2).
    exists e. eexists. split; [exact He1|]. split; [exact He2|].
    apply reduced_energies_added.
  - split; assumption.
Qed.

Lemma finish_effect_fetches sw lam p front s s' :
  fetches front = [] ->
  finish_effect E sw lam p front s s' ->
  fetches (calls s')
  = fetches (calls s) ++ [(computeEnergy sw || computeVirial sw, lambda_weight p lam)].
Proof.
  intros Hfront (pf & f & f' & _ & _ & Hc & _). cbv zeta in Hc.
  rewrite Hc, !fetches_app, Hfront. destruct (haveForceOutput_ _); reflexivity.
Qed.


(** C4.  A poll ([Check], stream query supported) that finds the stream
    unfinished returns false at once: no output is fetched, nothing is
    reduced, and the PME structure, the forces, the virial, the energy
    terms and dvdl are as before; only the wait timer and the query are
    recorded.  A later poll or blocking call, after any progress of the
    device, therefore behaves as if that poll had not been made. *)
Theorem poll_incomplete_leaves_state (sw : StepWorkload) (lam : real)
    (s : State) (p : gmx_pme_t) :
  pme s = Some p ->
  pme_gpu_active (Some p) = true ->
  useGpuForceReduction (settings (gpu p)) = false ->
  GMX_GPU E = GMX_GPU_CUDA ->
  pme_gpu_stream_query E (gpu p) = false ->
  exists s',
    pme_gpu_try_finish_task E sw lam Check s = Ok false s'
    /\ pme s' = pme s
    /\ forceWithVirial s' = forceWithVirial s
    /\ enerd s' = enerd s
    /\ calls s' = calls s ++ [call_stream_query]
    /\ wcycle s' = wcycle s ++ [wc_start_nocount ewcWAIT_GPU_PME_GATHER;
                                wc_stop ewcWAIT_GPU_PME_GATHER]
    /\ (forall d sw2 lam2 k2,
          same_outcome
            (pme_gpu_try_finish_task E sw2 lam2 k2 (advance_device s' d))
            (pme_gpu_try_finish_task E sw2 lam2 k2 (advance_device s d)))
    /\ (forall d sw2 lam2,
          same_outcome
            (pme_gpu_wait_and_reduce E sw2 lam2 (advance_device s' d))
            (pme_gpu_wait_and_reduce E sw2 lam2 (advance_device s d))).
Proof.
  intros Hp Ha Hr Hc Hq. open_state s Hp.
  eexists. split.
  { apply try_finish_task_incomplete; assumption. }
  cbn [pme forceWithVirial enerd calls wcycle].
  repeat split.
  - intros d sw2 lam2 k2. apply try_finish_task_logs, same_data_advance. repeat split.
  - intros d sw2 lam2. apply wait_and_reduce_logs, same_data_advance. repeat split.
Qed.

(** C5 (as amended).  With the solve on the device, every grid is solved
    with the ordering [YZX] when a decomposition is used and [XYZ]
    otherwise. *)
Theorem solve_ordering_by_decomposition (sw : StepWorkload)
    (s : State) (p : gmx_pme_t) :
  pme s = Some p ->
  performGPUSolve (settings (gpu p)) = true ->
  exists s',
    pme_gpu_launch_complex_transforms E sw s = Ok tt s'
    /\ solve_orderings (calls s')
       = solve_orderings (calls s)
         ++ repeat (if useDecomposition (settings (gpu p)) then YZX else XYZ)
                   (Z.to_nat (ngrids (common (gpu p)))).
Proof.
  intros Hp Hs. open_state s Hp.
  destruct (launch_complex_transforms_run sw p s_wc s_calls s_fwv s_enerd)
    as (d & w' & R).
  eexists. split; [exact R|]. cbn [calls].
  rewrite !solve_orderings_app, solve_orderings_grids, int_range_length by exact Hs.
  destruct (performGPUFFT _); reflexivity.
Qed.

(** C6.  On both completion paths the lambda handed to the output fetch is
    the caller's [lambdaQ] when there is more than one grid and 1.0
    otherwise; with a single grid the whole result, fetched output
    included, is the same for every [lambdaQ]. *)
Theorem fetch_lambda_weight (sw : StepWorkload) (lam : real)
    (s : State) (p : gmx_pme_t) :
  pme s = Some p ->
  let cev := computeEnergy sw || computeVirial sw in
  let weight := if 1 <? ngrids (common (gpu p)) then lam else real_one in
  (forall k s',
      pme_gpu_try_finish_task E sw lam k s = Ok true s' ->
      fetches (calls s') = fetches (calls s) ++ [(cev, weight)])
  /\ (forall s',
        pme_gpu_wait_and_reduce E sw lam s = Ok tt s' ->
        fetches (calls s') = fetches (calls s) ++ [(cev, weight)])
  /\ (forall c out s',
        pme_gpu_wait_finish_task E c lam s = Ok out s' ->
        fetches (calls s') = fetches (calls s) ++ [(c, weight)]
        /\ exists pf, pme s' = Some pf /\ out = getOutput_value E pf c weight)
  /\ (ngrids (common (gpu p)) = 1 ->
      forall lam2,
        (forall k, pme_gpu_try_finish_task E sw lam k s
                   = pme_gpu_try_finish_task E sw lam2 k s)
        /\ pme_gpu_wait_and_reduce E sw lam s = pme_gpu_wait_and_reduce E sw lam2 s
        /\ (forall c, pme_gpu_wait_finish_task E c lam s
                      = pme_gpu_wait_finish_task E c lam2 s)).
Proof.
  intros Hp cev weight.
  change weight with (lambda_weight p lam).
  split; [|split; [|split]].
  - intros k s' H. apply (try_finish_task_ok sw lam k s s' p Hp) in H.
    destruct H as (_ & _ & H).
    eapply finish_effect_fetches; [|exact H]. destruct (_ && _); reflexivity.
  - intros s' H. apply (wait_and_reduce_ok sw lam s s' p Hp) in H.
    eapply finish_effect_fetches; [|exact H]. destruct (negb _ || _); reflexivity.
  - intros c out s' H. open_state s Hp.
    destruct (pme_gpu_active (Some p)) eqn:Ha.
    2:{ revert H. unfold pme_gpu_wait_finish_task. mrun. rewrite Ha. cbn. discriminate. }
    rewrite (wait_finish_task_run _ _ p s_wc s_calls s_fwv s_enerd Ha) in H.
    cbv zeta in H. inversion H; subst; clear H. cbn [calls pme]. split.
    + rewrite !fetches_app. destruct (_ || c); reflexivity.
    + eexists. split; reflexivity.
  - intros Hone lam2. split; [|split].
    + intros k. apply (try_finish_task_lambda sw lam lam2 k s p Hp). lia.
    + apply (wait_and_reduce_lambda sw lam lam2 s p Hp). lia.
    + intros c. apply (wait_finish_task_lambda c lam lam2 s p Hp). lia.
Qed.

(** C7.  In each of the three entry points the flag is
    [computeEnergy || computeVirial]: it is the flag every solver call
    receives, the flag of the output fetch, and the one condition under
    which [pme_gpu_reduce_outputs] updates the three accumulators.  Under
    the flag the virial contribution is added, the fetched energy is added
    to [term\[F_COUL_RECIP\]] in [float] and the fetched dvdl to
    [dvdl_lin\[efptCOUL\]] in that array's format, every other entry staying
    as it was; without the flag neither the virial nor the energy output
    changes. *)
Theorem energy_and_virial_together (sw : StepWorkload) (lam : real)
    (s : State) (p : gmx_pme_t) :
  pme s = Some p ->
  let cev := computeEnergy sw || computeVirial sw in
  (exists s' launched,
      pme_gpu_launch_complex_transforms E sw s = Ok tt s'
      /\ calls s' = calls s ++ launched
      /\ Forall (eq cev) (solve_flags launched))
  /\ (forall c out s0 s1,
        pme_gpu_reduce_outputs E c out s0 = Ok tt s1 ->
        updated_together E c out s0 s1)
  /\ (forall k s',
        pme_gpu_try_finish_task E sw lam k s = Ok true s' ->
        (exists l, fetches (calls s') = fetches (calls s) ++ [(cev, l)])
        /\ exists pf,
             pme s' = Some pf
             /\ updated_together E cev
                  (getOutput_value E pf cev (lambda_weight p lam)) s s')
  /\ (forall s',
        pme_gpu_wait_and_reduce E sw lam s = Ok tt s' ->
        (exists l, fetches (calls s') = fetches (calls s) ++ [(cev, l)])
        /\ exists pf,
             pme s' = Some pf
             /\ updated_together E cev
                  (getOutput_value E pf cev (lambda_weight p lam)) s s').
Proof.
  intros Hp cev. split; [|split; [|split]].
  - open_state s Hp.
    destruct (launch_complex_transforms_run sw p s_wc s_calls s_fwv s_enerd)
      as (d & w' & R).
    do 2 eexists. split; [exact R|]. split; [reflexivity|].
    rewrite solve_flags_app. apply Forall_app. split.
    + destruct (performGPUFFT _); repeat constructor.
    + apply solve_flags_grids.
  - intros c out s0 s1 H. apply reduce_outputs_ok in H.
    destruct H as (f & f' & Hf & Hr & Hf' & He & _).
    exists f, f'. split; [exact Hf|]. split; [exact Hf'|].
    apply reduced_forces_virial in Hr.
    destruct c.
    + split; [exact Hr|]. destruct He as (e & He1 & He2).
      exists e. eexists. split; [exact He1|]. split; [exact He2|].
      apply reduced_energies_added.
    + split; assumption.
  - intros k s' H. apply (try_finish_task_ok sw lam k s s' p Hp) in H.
    destruct H as (_ & _ & H). split.
    + eexists. eapply finish_effect_fetches; [|exact H]. destruct (_ && _); reflexivity.
    + eapply finish_effect_updated_together; exact H.
  - intros s' H. apply (wait_and_reduce_ok sw lam s s' p Hp) in H. split.
    + eexists. eapply finish_effect_fetches; [|exact H]. destruct (negb _ || _); reflexivity.
    + eapply finish_effect_updated_together; exact H.
Qed.
(** C8.  Without [performGPUGather] the gather returns with the state
    exactly as it was: nothing is launched and nothing is timed.  With it,
    the gather kernel is launched. *)
Theorem launch_gather_skipped_or_launched (lam : real) (s : State) (p : gmx_pme_t) :
  pme s = Some p ->
  pme_gpu_active (Some p) = true ->
  (performGPUGather (settings (gpu p)) = false ->
     pme_gpu_launch_gather E lam s = Ok tt s)
  /\ (performGPUGather (settings (gpu p)) = true ->
      exists s',
        pme_gpu_launch_gather E lam s = Ok tt s'
        /\ calls s' = calls s ++ [call_gather lam]).
Proof.
  intros Hp Ha. open_state s Hp.
  unfold pme_gpu_launch_gather. mrun. rewrite Ha; cbn.
  split; intros ->; cbn.
  - reflexivity.
  - eexists; split; reflexivity.
Qed.

(** C10.  For a null [pme], or one whose run mode is [CPU], the two
    pointer accessors return [nullptr] and the block size is 0. *)
Theorem inactive_accessors (p : option gmx_pme_t) :
  p = None \/ (exists q, p = Some q /\ runMode q = CPU) ->
  pme_gpu_get_device_f E p = nullptr
  /\ pme_gpu_get_f_ready_synchronizer E p = nullptr
  /\ pme_gpu_get_block_size E p = 0.
Proof.
  intros [-> | (q & -> & Hq)].
  - repeat split.
  - unfold pme_gpu_get_device_f, pme_gpu_get_f_ready_synchronizer,
      pme_gpu_get_block_size, pme_gpu_active.
    rewrite Hq. repeat split.
Qed.

End Properties.

(** ** The model run on the sample data *)

(** C1, counterexample to the claim as first stated: with the force
    reduction on the device and neither energy nor virial computed, the
    blocking path fetches the output without synchronizing the stream. *)
Lemma wait_and_reduce_without_synchronize :
  exists s',
    pme_gpu_wait_and_reduce refExternals device_reduction_step real_one
      sample_state_device_reduction = Ok tt s'
    /\ fetches (calls s') = [(false, real_one)]
    /\ synchronizations (calls s') = 0%nat.
Proof.
  eexists. split; [vm_compute; reflexivity|]. split; reflexivity.
Qed.

Lemma wait_and_reduce_synchronization_witness :
  pme sample_state = Some sample_pme
  /\ pme_gpu_active (Some sample_pme) = true
  /\ ((exists out s1,
          pme_gpu_wait_finish_task refExternals
            (computeEnergy energy_step || computeVirial energy_step)
            (lambda_weight sample_pme real_half) sample_state = Ok out s1
          /\ calls s1
             = calls sample_state
               ++ (if negb (useGpuForceReduction (settings (gpu sample_pme)))
                      || (computeEnergy energy_step || computeVirial energy_step)
                   then [call_synchronize] else [])
               ++ [call_getOutput
                     (computeEnergy energy_step || computeVirial energy_step)
                     (lambda_weight sample_pme real_half)])
      /\ (forall s',
            pme_gpu_wait_and_reduce refExternals energy_step real_half sample_state
            = Ok tt s' ->
            exists rest,
              calls s'
              = calls sample_state
                ++ (if negb (useGpuForceReduction (settings (gpu sample_pme)))
                       || (computeEnergy energy_step || computeVirial energy_step)
                    then [call_synchronize] else [])
                ++ [call_getOutput
                      (computeEnergy energy_step || computeVirial energy_step)
                      (lambda_weight sample_pme real_half)] ++ rest
              /\ synchronizations rest = 0%nat)).
Proof.
  split; [reflexivity|]. split; [reflexivity|].
  apply (wait_and_reduce_synchronization refExternals energy_step real_half
           sample_state sample_pme); reflexivity.
Defined.

(** C2, counterexample to the claim as first stated: a box with a NaN in a
    compared entry, prepared twice without [haveDynamicBox], triggers the
    recompute on the second call as well. *)
Lemma prepare_nan_box_recomputes_twice :
  exists s1 s2,
    pme_gpu_prepare_computation refExternals nan_box static_step sample_state
    = Ok tt s1
    /\ pme_gpu_prepare_computation refExternals nan_box static_step s1 = Ok tt s2
    /\ box_updates (calls s1) = 1%nat
    /\ box_updates (calls s2) = 2%nat.
Proof.
  do 2 eexists. split; [vm_compute; reflexivity|].
  split; [vm_compute; reflexivity|]. split; reflexivity.
Qed.

Lemma prepare_box_tracking_witness :
  pme sample_state = Some sample_pme
  /\ pme_gpu_active (Some sample_pme) = true
  /\ 0 < nnodes sample_pme
  /\ (nnodes sample_pme = 1 \/ 0 < ndecompdim sample_pme)
  /\ exists s' p',
       pme_gpu_prepare_computation refExternals sample_box static_step sample_state
       = Ok tt s'
       /\ pme s' = Some p'
       /\ (forall i j, (j <= i < 3)%nat ->
             mget (previousBox (common (gpu p'))) i j = mget sample_box i j)
       /\ (forall i j, (i < j < 3)%nat ->
             mget (previousBox (common (gpu p'))) i j
             = mget (previousBox (common (gpu sample_pme))) i j)
       /\ box_updates (calls s')
          = (box_updates (calls sample_state)
             + if haveDynamicBox static_step
                  || lower_differs (previousBox (common (gpu sample_pme))) sample_box
               then 1 else 0)%nat
       /\ (recipbox p', boxVolume p')
          = (if (haveDynamicBox static_step
                 || lower_differs (previousBox (common (gpu sample_pme))) sample_box)
                && negb (performGPUSolve (settings (gpu sample_pme)))
             then (invertBoxMatrix refExternals (scaleBox refExternals sample_box),
                   real_mul
                     (real_mul (mget (scaleBox refExternals sample_box) XX XX)
                                    (mget (scaleBox refExternals sample_box) YY YY))
                     (mget (scaleBox refExternals sample_box) ZZ ZZ))
             else (recipbox sample_pme, boxVolume sample_pme))
       /\ (forall sw2,
             haveDynamicBox sw2 = false ->
             (forall i j, (j <= i < 3)%nat ->
                real_ne (mget sample_box i j) (mget sample_box i j) = false) ->
             exists s'',
               pme_gpu_prepare_computation refExternals sample_box sw2 s' = Ok tt s''
               /\ box_updates (calls s'') = box_updates (calls s'))
       /\ (forall sw2 box2 i j,
             (j <= i < 3)%nat ->
             real_ne (mget sample_box i j) (mget box2 i j) = true ->
             exists s'',
               pme_gpu_prepare_computation refExternals box2 sw2 s' = Ok tt s''
               /\ box_updates (calls s'') = S (box_updates (calls s'))).
Proof.
  split; [reflexivity|]. split; [reflexivity|]. split; [reflexivity|].
  split; [left; reflexivity|].
  apply (prepare_box_tracking refExternals sample_box static_step
           sample_state sample_pme);
    [reflexivity | reflexivity | reflexivity | left; reflexivity].
Defined.


Lemma poll_incomplete_leaves_state_witness :
  pme sample_state = Some sample_pme
  /\ pme_gpu_active (Some sample_pme) = true
  /\ useGpuForceReduction (settings (gpu sample_pme)) = false
  /\ GMX_GPU refExternals = GMX_GPU_CUDA
  /\ pme_gpu_stream_query refExternals (gpu sample_pme) = false
  /\ exists s',
       pme_gpu_try_finish_task refExternals energy_step real_half Check sample_state
       = Ok false s'
       /\ pme s' = pme sample_state
       /\ forceWithVirial s' = forceWithVirial sample_state
       /\ enerd s' = enerd sample_state
       /\ calls s' = calls sample_state ++ [call_stream_query]
       /\ wcycle s' = wcycle sample_state
                      ++ [wc_start_nocount ewcWAIT_GPU_PME_GATHER;
                          wc_stop ewcWAIT_GPU_PME_GATHER]
       /\ (forall d sw2 lam2 k2,
             same_outcome
               (pme_gpu_try_finish_task refExternals sw2 lam2 k2 (advance_device s' d))
               (pme_gpu_try_finish_task refExternals sw2 lam2 k2
                  (advance_device sample_state d)))
       /\ (forall d sw2 lam2,
             same_outcome
               (pme_gpu_wait_and_reduce refExternals sw2 lam2 (advance_device s' d))
               (pme_gpu_wait_and_reduce refExternals sw2 lam2
                  (advance_device sample_state d))).
Proof.
  do 5 (split; [reflexivity|]).
  apply (poll_incomplete_leaves_state refExternals energy_step real_half
           sample_state sample_pme); reflexivity.
Defined.

(** C5, counterexample to the claim as first stated: with a decomposition
    the device solver is handed [YZX], whose outermost axis is Y, not the
    ordering Z-Y-X. *)
Lemma decomposed_solve_ordering_is_not_ZYX :
  exists s',
    pme_gpu_launch_complex_transforms refExternals static_step sample_state_decomposed
    = Ok tt s'
    /\ solve_orderings (calls s') = [YZX]
    /\ ordering_axes YZX <> [AxisZ; AxisY; AxisX].
Proof.
  eexists. split; [vm_compute; reflexivity|]. split; [reflexivity|].
  cbn. discriminate.
Qed.

Lemma solve_ordering_by_decomposition_witness :
  pme sample_state_decomposed = Some sample_pme_decomposed
  /\ performGPUSolve (settings (gpu sample_pme_decomposed)) = true
  /\ exists s',
       pme_gpu_launch_complex_transforms refExternals static_step sample_state_decomposed
       = Ok tt s'
       /\ solve_orderings (calls s')
          = solve_orderings (calls sample_state_decomposed)
            ++ repeat (if useDecomposition (settings (gpu sample_pme_decomposed))
                       then YZX else XYZ)
                      (Z.to_nat (ngrids (common (gpu sample_pme_decomposed)))).
Proof.
  split; [reflexivity|]. split; [reflexivity|].
  apply (solve_ordering_by_decomposition refExternals static_step
           sample_state_decomposed sample_pme_decomposed); reflexivity.
Defined.

Lemma fetch_lambda_weight_witness :
  pme sample_state_done = Some sample_pme_done
  /\ ((forall k s',
          pme_gpu_try_finish_task refExternals energy_step real_half k sample_state_done
          = Ok true s' ->
          fetches (calls s')
          = fetches (calls sample_state_done)
            ++ [(computeEnergy energy_step || computeVirial energy_step,
                 if 1 <? ngrids (common (gpu sample_pme_done))
                 then real_half else real_one)])
      /\ (forall s',
            pme_gpu_wait_and_reduce refExternals energy_step real_half sample_state_done
            = Ok tt s' ->
            fetches (calls s')
            = fetches (calls sample_state_done)
              ++ [(computeEnergy energy_step || computeVirial energy_step,
                   if 1 <? ngrids (common (gpu sample_pme_done))
                   then real_half else real_one)])
      /\ (forall c out s',
            pme_gpu_wait_finish_task refExternals c real_half sample_state_done
            = Ok out s' ->
            fetches (calls s')
            = fetches (calls sample_state_done)
              ++ [(c, if 1 <? ngrids (common (gpu sample_pme_done))
                      then real_half else real_one)]
            /\ exists pf,
                 pme s' = Some pf
                 /\ out = getOutput_value refExternals pf c
                            (if 1 <? ngrids (common (gpu sample_pme_done))
                             then real_half else real_one))
      /\ (ngrids (common (gpu sample_pme_done)) = 1 ->
          forall lam2,
            (forall k,
                pme_gpu_try_finish_task refExternals energy_step real_half k
                  sample_state_done
                = pme_gpu_try_finish_task refExternals energy_step lam2 k
                    sample_state_done)
            /\ pme_gpu_wait_and_reduce refExternals energy_step real_half
                 sample_state_done
               = pme_gpu_wait_and_reduce refExternals energy_step lam2
                   sample_state_done
            /\ (forall c,
                  pme_gpu_wait_finish_task refExternals c real_half sample_state_done
                  = pme_gpu_wait_finish_task refExternals c lam2 sample_state_done))).
Proof.
  split; [reflexivity|].
  apply (fetch_lambda_weight refExternals energy_step real_half
           sample_state_done sample_pme_done); reflexivity.
Defined.

Lemma energy_and_virial_together_witness :
  pme sample_state = Some sample_pme
  /\ ((exists s' launched,
          pme_gpu_launch_complex_transforms refExternals energy_step sample_state
          = Ok tt s'
          /\ calls s' = calls sample_state ++ launched
          /\ Forall (eq (computeEnergy energy_step || computeVirial energy_step))
                    (solve_flags launched))
      /\ (forall c out s0 s1,
            pme_gpu_reduce_outputs refExternals c out s0 = Ok tt s1 ->
            updated_together refExternals c out s0 s1)
      /\ (forall k s',
            pme_gpu_try_finish_task refExternals energy_step real_half k sample_state
            = Ok true s' ->
            (exists l,
                fetches (calls s')
                = fetches (calls sample_state)
                  ++ [(computeEnergy energy_step || computeVirial energy_step, l)])
            /\ exists pf,
                 pme s' = Some pf
                 /\ updated_together refExternals
                      (computeEnergy energy_step || computeVirial energy_step)
                      (getOutput_value refExternals pf
                         (computeEnergy energy_step || computeVirial energy_step)
                         (lambda_weight sample_pme real_half))
                      sample_state s')
      /\ (forall s',
            pme_gpu_wait_and_reduce refExternals energy_step real_half sample_state
            = Ok tt s' ->
            (exists l,
                fetches (calls s')
                = fetches (calls sample_state)
                  ++ [(computeEnergy energy_step || computeVirial energy_step, l)])
            /\ exists pf,
                 pme s' = Some pf
                 /\ updated_together refExternals
                      (computeEnergy energy_step || computeVirial energy_step)
                      (getOutput_value refExternals pf
                         (computeEnergy energy_step || computeVirial energy_step)
                         (lambda_weight sample_pme real_half))
                      sample_state s')).
Proof.
  split; [reflexivity|].
  apply (energy_and_virial_together refExternals energy_step real_half
           sample_state sample_pme); reflexivity.
Defined.

Lemma launch_gather_skipped_or_launched_witness :
  pme sample_state_no_gather = Some sample_pme_no_gather
  /\ pme_gpu_active (Some sample_pme_no_gather) = true
  /\ ((performGPUGather (settings (gpu sample_pme_no_gather)) = false ->
       pme_gpu_launch_gather refExternals real_half sample_state_no_gather
       = Ok tt sample_state_no_gather)
      /\ (performGPUGather (settings (gpu sample_pme_no_gather)) = true ->
          exists s',
            pme_gpu_launch_gather refExternals real_half sample_state_no_gather
            = Ok tt s'
            /\ calls s' = calls sample_state_no_gather ++ [call_gather real_half])).
Proof.
  split; [reflexivity|]. split; [reflexivity|].
  apply (launch_gather_skipped_or_launched refExternals real_half
           sample_state_no_gather sample_pme_no_gather); reflexivity.
Defined.

Lemma launch_spread_grid_count_witness :
  pme sample_state_three_grids = Some sample_pme_three_grids
  /\ ((~ grid_count_ok sample_pme_three_grids ->
       exists msg,
         pme_gpu_launch_spread refExternals (addr 1) real_half sample_state_three_grids
         = AssertionFailed msg)
      /\ (~ grid_count_ok sample_pme_three_grids ->
          pme_gpu_active (Some sample_pme_three_grids) = true
          /\ (negb (is_null (addr 1)) || negb (bPPnode sample_pme_three_grids)
              || negb (is_cuda (GMX_GPU refExternals))) = true
          /\ doCoulomb sample_pme_three_grids = true ->
          pme_gpu_launch_spread refExternals (addr 1) real_half sample_state_three_grids
          = AssertionFailed msg_ngrids)
      /\ (grid_count_ok sample_pme_three_grids ->
          pme_gpu_launch_spread refExternals (addr 1) real_half sample_state_three_grids
          <> AssertionFailed msg_ngrids)
      /\ (grid_count_ok sample_pme_three_grids ->
          pme_gpu_active (Some sample_pme_three_grids) = true
          /\ (negb (is_null (addr 1)) || negb (bPPnode sample_pme_three_grids)
              || negb (is_cuda (GMX_GPU refExternals))) = true
          /\ doCoulomb sample_pme_three_grids = true ->
          exists s',
            pme_gpu_launch_spread refExternals (addr 1) real_half sample_state_three_grids
            = Ok tt s'
            /\ calls s' = calls sample_state_three_grids
                          ++ [call_spread (addr 1) true true real_half])).
Proof.
  split; [reflexivity|].
  apply (launch_spread_grid_count refExternals (addr 1) real_half
           sample_state_three_grids sample_pme_three_grids); reflexivity.
Defined.

Lemma inactive_accessors_witness :
  (Some sample_pme_cpu = None
   \/ exists q, Some sample_pme_cpu = Some q /\ runMode q = CPU)
  /\ pme_gpu_get_device_f refExternals (Some sample_pme_cpu) = nullptr
  /\ pme_gpu_get_f_ready_synchronizer refExternals (Some sample_pme_cpu) = nullptr
  /\ pme_gpu_get_block_size refExternals (Some sample_pme_cpu) = 0.
Proof.
  assert (H : Some sample_pme_cpu = None
              \/ exists q, Some sample_pme_cpu = Some q /\ runMode q = CPU).
  { right. exists sample_pme_cpu. split; reflexivity. }
  split; [exact H|].
  apply (inactive_accessors refExternals (Some sample_pme_cpu) H).
Defined.

(** *** Further runs *)

(** The same box twice: only the first call pushes the box to the device. *)
Example prepare_same_box_twice :
  exists s1 s2,
    pme_gpu_prepare_computation refExternals sample_box static_step sample_state
    = Ok tt s1
    /\ pme_gpu_prepare_computation refExternals sample_box static_step s1 = Ok tt s2
    /\ calls s2 = [call_update_input_box sample_box].
Proof.
  do 2 eexists. split; [vm_compute; reflexivity|].
  split; [vm_compute; reflexivity|]. reflexivity.
Qed.

(** A changed diagonal entry: both calls push the box. *)
Example prepare_changed_box :
  exists s1 s2,
    pme_gpu_prepare_computation refExternals sample_box static_step sample_state
    = Ok tt s1
    /\ pme_gpu_prepare_computation refExternals sample_box_stretched static_step s1
       = Ok tt s2
    /\ calls s2 = [call_update_input_box sample_box;
                   call_update_input_box sample_box_stretched].
Proof.
  do 2 eexists. split; [vm_compute; reflexivity|].
  split; [vm_compute; reflexivity|]. reflexivity.
Qed.

(** A zero replaced by a negative zero is no change under [!=], although
    the persisted entry is overwritten. *)
Example prepare_negative_zero :
  exists s1 s2 p2,
    pme_gpu_prepare_computation refExternals sample_box static_step sample_state
    = Ok tt s1
    /\ pme_gpu_prepare_computation refExternals sample_box_negative_zero static_step s1
       = Ok tt s2
    /\ calls s2 = [call_update_input_box sample_box]
    /\ pme s2 = Some p2
    /\ previousBox (common (gpu p2)) = sample_box_negative_zero.
Proof.
  do 3 eexists. split; [vm_compute; reflexivity|].
  split; [vm_compute; reflexivity|]. repeat split.
Qed.

(** A poll that finds the stream busy, then, once the device has finished,
    a poll that fetches and reduces. *)
Example poll_then_poll_again :
  exists s1 s2 f2,
    pme_gpu_try_finish_task refExternals energy_step real_half Check sample_state
    = Ok false s1
    /\ pme_gpu_try_finish_task refExternals energy_step real_half Check
         (advance_device s1 100)
       = Ok true s2
    /\ calls s2 = [call_stream_query; call_stream_query; call_update_timings;
                   call_getOutput true real_one; host_omp_nthreads_get_emntPME]
    /\ forceWithVirial s2 = Some f2
    /\ force_ f2 = [(real_one, real_of_Z 2, real_of_Z 3); (real_of_Z 4, real_of_Z 5, real_of_Z 6);
                    rvec_zero].
Proof.
  do 3 eexists. split; [vm_compute; reflexivity|].
  split; [vm_compute; reflexivity|]. repeat split.
Qed.

(** The blocking path with a host-side reduction and energies requested. *)
Example wait_and_reduce_run :
  exists s' f' e',
    pme_gpu_wait_and_reduce refExternals energy_step real_half sample_state = Ok tt s'
    /\ calls s' = [call_synchronize; call_getOutput true real_one;
                   host_omp_nthreads_get_emntPME]
    /\ forceWithVirial s' = Some f'
    /\ enerd s' = Some e'
    /\ mget (virial_ f') XX XX = real_one
    /\ term e' (F_COUL_RECIP refExternals) = real_one
    /\ dvdl_lin e' (efptCOUL refExternals) = double_of_Z 1.
Proof.
  do 3 eexists. split; [vm_compute; reflexivity|]. repeat split.
Qed.

(** A step with the reduction on the device: the gather kernel is launched
    and accumulates in place, the blocking call fetches without
    synchronizing, and the host sums nothing into the force output. *)
Example device_reduction_step_run :
  exists s1 s2,
    pme_gpu_launch_gather refExternals real_half sample_state_device_reduction
    = Ok tt s1
    /\ pme_gpu_wait_and_reduce refExternals device_reduction_step real_half s1
       = Ok tt s2
    /\ calls s2 = [call_gather real_half; call_getOutput false real_one]
    /\ device_force_accumulations (gpu sample_pme_device_reduction) (calls s2) = 1%nat
    /\ host_force_sums (calls s2) = 0%nat
    /\ forceWithVirial s2 = Some sample_fwv.
Proof.
  do 2 eexists. split; [vm_compute; reflexivity|].
  split; [vm_compute; reflexivity|]. repeat split.
Qed.

(** A whole step with the reduction on the device, from the preparation,
    which sets the flag, to the blocking call. *)
Example device_reduction_whole_step_run :
  exists s1 s2 s3 s4 s5 p5,
    pme_gpu_prepare_computation refExternals sample_box device_reduction_step
      sample_state = Ok tt s1
    /\ pme_gpu_launch_spread refExternals (addr 1) real_half s1 = Ok tt s2
    /\ pme_gpu_launch_complex_transforms refExternals device_reduction_step s2
       = Ok tt s3
    /\ pme_gpu_launch_gather refExternals real_half s3 = Ok tt s4
    /\ pme_gpu_wait_and_reduce refExternals device_reduction_step real_half s4
       = Ok tt s5
    /\ calls s5 = [call_update_input_box sample_box;
                   call_spread (addr 1) true true real_half;
                   call_3dfft GMX_FFT_REAL_TO_COMPLEX 0; call_solve 0 XYZ false;
                   call_3dfft GMX_FFT_COMPLEX_TO_REAL 0;
                   call_gather real_half; call_getOutput false real_one]
    /\ pme s5 = Some p5
    /\ reduces_forces_once p5 (calls s5)
    /\ forceWithVirial s5 = Some sample_fwv.
Proof.
  do 6 eexists. do 5 (split; [vm_compute; reflexivity|]).
  split; [reflexivity|]. split; [reflexivity|]. split; [|reflexivity].
  split; [reflexivity|].
  split; intros H; [split; reflexivity | discriminate H].
Qed.

(** Gather stage and blocking call on a rank that skips the gather, with
    the reduction on the device: no force is requested, and nothing is
    accumulated on the device or summed on the host. *)
Example skipped_gather_device_reduction_run :
  exists s1 s2,
    pme_gpu_launch_gather refExternals real_half
      sample_state_no_gather_device_reduction = Ok tt s1
    /\ pme_gpu_wait_and_reduce refExternals device_reduction_step real_half s1
       = Ok tt s2
    /\ calls s2 = [call_getOutput false real_one]
    /\ device_force_accumulations (gpu sample_pme_no_gather_device_reduction)
         (calls s2) = 0%nat
    /\ host_force_sums (calls s2) = 0%nat.
Proof.
  do 2 eexists. split; [vm_compute; reflexivity|].
  split; [vm_compute; reflexivity|]. repeat split.
Qed.

(** A skipped gather with the reduction on the host: the blocking call
    still sums whatever the staging buffer holds into the force output. *)
Example skipped_gather_host_reduction_run :
  exists s1 s2 f2,
    pme_gpu_launch_gather refExternals real_half sample_state_no_gather = Ok tt s1
    /\ pme_gpu_wait_and_reduce refExternals static_step real_half s1 = Ok tt s2
    /\ calls s2 = [call_synchronize; call_getOutput false real_one;
                   host_omp_nthreads_get_emntPME]
    /\ forceWithVirial s2 = Some f2
    /\ force_ f2 = [(real_one, real_of_Z 2, real_of_Z 3);
                    (real_of_Z 4, real_of_Z 5, real_of_Z 6); rvec_zero].
Proof.
  do 3 eexists. split; [vm_compute; reflexivity|].
  split; [vm_compute; reflexivity|]. repeat split.
Qed.

(** Sums and products are rounded to [float]: 16777216 + 1 is 16777216
    again, in a force component and in an energy term, the largest [float]
    added to itself is infinity, and the cell volume of a scaled box with
    diagonal 4097, 4097, 1 is 16785408, not 16785409.  In a [dvdl_lin] of
    [double]s 16777216 + 1 is 16777217, in one of [float]s it is 16777216. *)
Example sum_forces_rounds_to_float :
  sum_forces_loop [(real_of_Z 16777216, real_zero, real_zero)]
                  [(real_one, real_zero, real_zero)]
  = Some [(real_of_Z 16777216, real_zero, real_zero)].
Proof. reflexivity. Qed.

Example sum_forces_overflows_to_infinity :
  sum_forces_loop [(real_literal 16777215 104, real_zero, real_zero)]
                  [(real_literal 16777215 104, real_zero, real_zero)]
  = Some [(S754_infinity false, real_zero, real_zero)].
Proof. reflexivity. Qed.

Example reduce_outputs_rounds_to_float :
  exists s' e',
    pme_gpu_reduce_outputs refExternals true
      (mkOutput [] false real_one matrix_zero real_one)
      (mkState (Some sample_pme) [] [] (Some sample_fwv)
         (Some (mkEnerd (fun _ => real_of_Z 16777216)
                        (fun _ => double_of_Z 16777216))))
    = Ok tt s'
    /\ enerd s' = Some e'
    /\ term e' (F_COUL_RECIP refExternals) = real_of_Z 16777216
    /\ dvdl_lin e' (efptCOUL refExternals) = double_of_Z 16777217.
Proof.
  do 2 eexists. split; [vm_compute; reflexivity|]. repeat split.
Qed.

Example reduce_outputs_dvdl_of_floats :
  exists s' e',
    pme_gpu_reduce_outputs (refExternals_with binary32) true
      (mkOutput [] false real_one matrix_zero real_one)
      (mkState (Some sample_pme) [] [] (Some sample_fwv)
         (Some (mkEnerd (fun _ => real_of_Z 16777216)
                        (fun _ => real_of_Z 16777216))))
    = Ok tt s'
    /\ enerd s' = Some e'
    /\ term e' (F_COUL_RECIP refExternals) = real_of_Z 16777216
    /\ dvdl_lin e' (efptCOUL refExternals) = real_of_Z 16777216.
Proof.
  do 2 eexists. split; [vm_compute; reflexivity|]. repeat split.
Qed.

Example prepare_volume_rounds_to_float :
  exists s' p',
    pme_gpu_prepare_computation refExternals
      ((real_of_Z 4097, real_zero, real_zero),
       (real_zero, real_of_Z 4097, real_zero),
       (real_zero, real_zero, real_one))
      static_step sample_state_host_solve
    = Ok tt s'
    /\ pme s' = Some p'
    /\ boxVolume p' = real_of_Z 16785408.
Proof.
  do 2 eexists. split; [vm_compute; reflexivity|]. split; reflexivity.
Qed.

(** Two grids without the host FFT or solver: every call of the transform
    stage, in order. *)
Example launch_complex_transforms_run_two_grids :
  exists s',
    pme_gpu_launch_complex_transforms refExternals energy_step
      (mkState (Some (mkPme GPU
                        (mkPmeGpu sample_settings (mkShared 2 matrix_zero) 0)
                        1 0 2 true true true matrix_zero real_zero))
               [] [] None None)
    = Ok tt s'
    /\ calls s' = [call_3dfft GMX_FFT_REAL_TO_COMPLEX 0; call_solve 0 XYZ true;
                   call_3dfft GMX_FFT_COMPLEX_TO_REAL 0;
                   call_3dfft GMX_FFT_REAL_TO_COMPLEX 1; call_solve 1 XYZ true;
                   call_3dfft GMX_FFT_COMPLEX_TO_REAL 1].
Proof.
  eexists. split; [vm_compute; reflexivity|]. reflexivity.
Qed.

(** ** Further properties of the code *)

Section Extras.

Variable E : Externals.

(** *** sum_forces *)

(** X1.  With a force output in place, [sum_forces] reads out of bounds
    exactly when that output is shorter than the forces to add.  Otherwise
    it returns, the output keeps its length, each leading entry is the
    [float] sum, component by component, of the old entry and the added
    force, and the entries past the added forces are untouched. *)
Theorem sum_forces_bounds (forceToAdd : list rvec) pm w c f e :
  (sum_forces forceToAdd (mkState pm w c (Some f) e) = Undefined
   <-> (List.length (force_ f) < List.length forceToAdd)%nat)
  /\ ((List.length forceToAdd <= List.length (force_ f))%nat ->
      exists r,
        sum_forces forceToAdd (mkState pm w c (Some f) e)
        = Ok tt (mkState pm w (c ++ [host_omp_nthreads_get_emntPME])
                         (Some (set_force_ f r)) e)
        /\ List.length r = List.length (force_ f)
        /\ (forall i, (i < List.length forceToAdd)%nat ->
              nth i r rvec_zero
              = (real_add (fst (fst (nth i (force_ f) rvec_zero)))
                          (fst (fst (nth i forceToAdd rvec_zero))),
                 real_add (snd (fst (nth i (force_ f) rvec_zero)))
                          (snd (fst (nth i forceToAdd rvec_zero))),
                 real_add (snd (nth i (force_ f) rvec_zero))
                          (snd (nth i forceToAdd rvec_zero))))
        /\ (forall i, (List.length forceToAdd <= i)%nat ->
              nth i r rvec_zero = nth i (force_ f) rvec_zero)).
Proof.
  pose proof (sum_forces_loop_none (force_ f) forceToAdd) as Hnone.
  pose proof (sum_forces_loop_some (force_ f) forceToAdd) as Hsome.
  unfold sum_forces. mrun.
  destruct (sum_forces_loop (force_ f) forceToAdd) as [r|]; cbn.
  - split.
    + split; [intros H; discriminate H|]. intros H.
      assert (Hn : Some r = None) by (apply Hnone; exact H). discriminate Hn.
    + intros _. exists r. split; [reflexivity|]. apply (Hsome r). reflexivity.
  - assert (Hlt : (List.length (force_ f) < List.length forceToAdd)%nat)
      by (apply Hnone; reflexivity).
    split; [split; [intros _; exact Hlt | reflexivity]|]. intros Hle. lia.
Qed.

(** *** pme_gpu_reduce_outputs *)

(** X2. [pme_gpu_reduce_outputs] fails its first assertion on a null force
    output whatever else it is given, and its second on a null energy
    output when energy and virial are computed.  When they are not, a null
    energy output is never looked at. *)
Theorem reduce_outputs_null_pointers (out : PmeOutput) pm w c :
  (forall cev e,
      pme_gpu_reduce_outputs E cev out (mkState pm w c None e)
      = AssertionFailed msg_force_pointer)
  /\ (forall f,
        pme_gpu_reduce_outputs E true out (mkState pm w c (Some f) None)
        = AssertionFailed msg_enerd_pointer)
  /\ (forall f f',
        reduced_forces E false out f = Some f' ->
        pme_gpu_reduce_outputs E false out (mkState pm w c (Some f) None)
        = Ok tt (mkState pm
                   (w ++ [wc_start ewcPME_GPU_F_REDUCTION;
                          wc_stop ewcPME_GPU_F_REDUCTION])
                   (c ++ if haveForceOutput_ out
                         then [host_omp_nthreads_get_emntPME] else [])
                   (Some f') None)).
Proof.
  split; [|split].
  - intros cev e. unfold pme_gpu_reduce_outputs. mrun. reflexivity.
  - intros f. unfold pme_gpu_reduce_outputs. mrun. reflexivity.
  - intros f f'. unfold pme_gpu_reduce_outputs, reduced_forces, sum_forces. mrun.
    destruct (haveForceOutput_ out); cbn.
    + destruct (sum_forces_loop _ _) as [l|]; cbn; [|discriminate].
      intros H; inversion H; subst. rewrite <- !app_assoc. reflexivity.
    + intros H; inversion H; subst. rewrite app_nil_r, <- app_assoc. reflexivity.
Qed.

(** *** Entry points on an inactive or null PME *)


(** X4. Two entry points do not guard a null [pme] themselves.
    [pme_gpu_launch_complex_transforms] has no assertion and reads
    [pme->gpu] at once; [pme_gpu_wait_and_reduce] reads [pme->gpu] for the
    grid count before it calls [pme_gpu_wait_finish_task].  On a null
    [pme] both therefore dereference it, whereas
    [pme_gpu_wait_finish_task] called directly stops at its assertion. *)
Theorem unguarded_entry_points (sw : StepWorkload) (lam : real) (cev : bool)
    (s : State) :
  pme s = None ->
  pme_gpu_launch_complex_transforms E sw s = Undefined
  /\ pme_gpu_wait_and_reduce E sw lam s = Undefined
  /\ pme_gpu_wait_finish_task E cev lam s = AssertionFailed msg_not_gpu.
Proof.
  destruct s as [pm w c f e]. cbn [pme]. intros ->. split; [|split].
  - unfold pme_gpu_launch_complex_transforms. mrun. reflexivity.
  - unfold pme_gpu_wait_and_reduce. mrun. reflexivity.
  - unfold pme_gpu_wait_finish_task. mrun. reflexivity.
Qed.



(** *** Wallcycle timers are balanced *)

Lemma timers_run_app (running : list Timer) (w1 w2 : list WcCall) :
  timers_run running (w1 ++ w2)
  = match timers_run running w1 with
    | Some running' => timers_run running' w2
    | None => None
    end.
Proof.
  revert running. induction w1 as [|c w1 IH]; intros running; [reflexivity|].
  destruct c; cbn [app timers_run]; try apply IH.
  - destruct running as [|[c'|c'] rest]; try reflexivity.
    destruct (ewc_eqb c c'); [apply IH | reflexivity].
  - destruct running as [|[c'|c'] rest]; try reflexivity. apply IH.
Qed.

Lemma ewc_eqb_refl (c : ewc) : ewc_eqb c c = true.
Proof. destruct c; reflexivity. Qed.

Lemma te_bind {A B : Type} (m : M A) (k : A -> M B) (t0 t1 t2 : list Timer) :
  timers_effect m t0 t1 ->
  (forall a, timers_effect (k a) t1 t2) ->
  timers_effect (bind m k) t0 t2.
Proof.
  intros Hm Hk s b s'. unfold bind.
  destruct (m s) as [a s1| |] eqn:R; try discriminate.
  intros Rk.
  destruct (Hm s a s1 R) as (w1 & E1 & T1).
  destruct (Hk a s1 b s' Rk) as (w2 & E2 & T2).
  exists (w1 ++ w2). split.
  - rewrite E2, E1, app_assoc. reflexivity.
  - rewrite timers_run_app, T1. exact T2.
Qed.

(** A computation that leaves the wallcycle counter alone. *)
Definition untimed {A : Type} (m : M A) : Prop :=
  forall s a s', m s = Ok a s' -> wcycle s' = wcycle s.

Lemma te_untimed {A : Type} (m : M A) (t : list Timer) :
  untimed m -> timers_effect m t t.
Proof.
  intros H s a s' R. exists []. rewrite app_nil_r. split; [apply (H s a s' R) | reflexivity].
Qed.

Lemma te_start (c : ewc) (t : list Timer) :
  timers_effect (wallcycle (wc_start c)) t (main_timer c :: t).
Proof. intros s a s' R. inversion R; subst. eexists. split; reflexivity. Qed.

Lemma te_start_nocount (c : ewc) (t : list Timer) :
  timers_effect (wallcycle (wc_start_nocount c)) t (main_timer c :: t).
Proof. intros s a s' R. inversion R; subst. eexists. split; reflexivity. Qed.

Lemma te_stop (c : ewc) (t : list Timer) :
  timers_effect (wallcycle (wc_stop c)) (main_timer c :: t) t.
Proof.
  intros s a s' R. inversion R; subst. eexists. split; [reflexivity|].
  cbn. rewrite ewc_eqb_refl. reflexivity.
Qed.

Lemma te_sub_start (c : ewcs) (t : list Timer) :
  timers_effect (wallcycle (wc_sub_start_nocount c)) t (sub_timer c :: t).
Proof. intros s a s' R. inversion R; subst. eexists. split; reflexivity. Qed.

Lemma te_sub_stop (c : ewcs) (t : list Timer) :
  timers_effect (wallcycle (wc_sub_stop c)) (sub_timer c :: t) t.
Proof. intros s a s' R. inversion R; subst. eexists. split; reflexivity. Qed.

Lemma te_for_each {A : Type} (l : list A) (body : A -> M unit) (t : list Timer) :
  (forall a, timers_effect (body a) t t) ->
  timers_effect (for_each l body) t t.
Proof.
  intros H. induction l as [|a l IH]; cbn [for_each].
  - apply te_untimed. intros s a s' R. inversion R; reflexivity.
  - eapply te_bind; [apply H | intros _; exact IH].
Qed.

Lemma untimed_ret {A : Type} (a : A) : untimed (ret a).
Proof. intros s b s' R. inversion R; reflexivity. Qed.

Lemma untimed_assert (b : bool) (msg : string) : untimed (GMX_ASSERT b msg).
Proof. intros s a s' R. unfold GMX_ASSERT in R. destruct b; inversion R; reflexivity. Qed.

Lemma untimed_pme_pointer : untimed pme_pointer.
Proof. intros s a s' R. inversion R; reflexivity. Qed.

Lemma untimed_deref_pme : untimed deref_pme.
Proof.
  intros s a s' R. unfold deref_pme in R. destruct (pme s); inversion R; reflexivity.
Qed.

Lemma untimed_write_pme (p : gmx_pme_t) : untimed (write_pme p).
Proof. intros s a s' R. inversion R; reflexivity. Qed.

Lemma untimed_log_call (c : Call) : untimed (log_call c).
Proof. intros s a s' R. inversion R; reflexivity. Qed.

Lemma untimed_forceWithVirial_pointer : untimed forceWithVirial_pointer.
Proof. intros s a s' R. inversion R; reflexivity. Qed.

Lemma untimed_deref_forceWithVirial : untimed deref_forceWithVirial.
Proof.
  intros s a s' R. unfold deref_forceWithVirial in R.
  destruct (forceWithVirial s); inversion R; reflexivity.
Qed.

Lemma untimed_write_forceWithVirial (f : ForceWithVirial) :
  untimed (write_forceWithVirial f).
Proof. intros s a s' R. inversion R; reflexivity. Qed.

Lemma untimed_enerd_pointer : untimed enerd_pointer.
Proof. intros s a s' R. inversion R; reflexivity. Qed.

Lemma untimed_deref_enerd : untimed deref_enerd.
Proof.
  intros s a s' R. unfold deref_enerd in R. destruct (enerd s); inversion R; reflexivity.
Qed.

Lemma untimed_write_enerd (e : gmx_enerdata_t) : untimed (write_enerd e).
Proof. intros s a s' R. inversion R; reflexivity. Qed.

Lemma untimed_undefined {A : Type} : untimed (fun _ : State => @Undefined A).
Proof. intros s a s' R. discriminate R. Qed.

(** One step of the replay: split a bind, replay a timer call, or pass over
    a computation that has no timer call. *)
Ltac te_step :=
  lazymatch goal with
  | |- timers_effect (bind _ _) _ _ => eapply te_bind; [|intros ?]
  | |- timers_effect (wallcycle (wc_start _)) _ _ => apply te_start
  | |- timers_effect (wallcycle (wc_start_nocount _)) _ _ => apply te_start_nocount
  | |- timers_effect (wallcycle (wc_stop _)) _ _ => apply te_stop
  | |- timers_effect (wallcycle (wc_sub_start_nocount _)) _ _ => apply te_sub_start
  | |- timers_effect (wallcycle (wc_sub_stop _)) _ _ => apply te_sub_stop
  | |- timers_effect (for_each _ _) _ _ => apply te_for_each; intros ?
  | |- timers_effect (if ?b then _ else _) _ _ => destruct b
  | |- timers_effect (match ?x with Some _ => _ | None => _ end) _ _ => destruct x
  | |- timers_effect (let '(_, _) := ?x in _) _ _ => destruct x
  | |- timers_effect _ _ _ =>
      apply te_untimed;
      first [ apply untimed_ret | apply untimed_assert | apply untimed_pme_pointer
            | apply untimed_deref_pme | apply untimed_write_pme | apply untimed_log_call
            | apply untimed_forceWithVirial_pointer | apply untimed_deref_forceWithVirial
            | apply untimed_write_forceWithVirial | apply untimed_enerd_pointer
            | apply untimed_deref_enerd | apply untimed_write_enerd
            | apply untimed_undefined ]
  end.

Ltac te_run :=
  cbv [assert_active gpu_call host_call host_parallel_for launch_timers_start
       launch_timers_stop sum_forces pme_gpu_getOutput];
  repeat te_step.

Lemma te_fft_wrapper (g : Z) (dir : gmx_fft_direction) (t : list Timer) :
  timers_effect (parallel_3dfft_execute_gpu_wrapper E g dir) t t.
Proof. unfold parallel_3dfft_execute_gpu_wrapper. te_run. Qed.

Lemma te_transform_grid (cev : bool) (g : Z) (t : list Timer) :
  timers_effect (transform_grid E cev g) t t.
Proof.
  unfold transform_grid.
  eapply te_bind; [apply te_fft_wrapper | intros _].
  eapply te_bind; [apply te_untimed, untimed_deref_pme | intros p].
  eapply te_bind; [|intros _; apply te_fft_wrapper].
  te_run.
Qed.

Lemma te_reduce_outputs (cev : bool) (out : PmeOutput) (t : list Timer) :
  timers_effect (pme_gpu_reduce_outputs E cev out) t t.
Proof. unfold pme_gpu_reduce_outputs. te_run. Qed.

Lemma te_wait_finish_task (cev : bool) (lam : real) (t : list Timer) :
  timers_effect (pme_gpu_wait_finish_task E cev lam) t t.
Proof. unfold pme_gpu_wait_finish_task. te_run. Qed.

Lemma te_try_finish_tail (sw : StepWorkload) (lam : real) (b : bool) (t : list Timer) :
  timers_effect (try_finish_tail E sw lam b) t t.
Proof.
  unfold try_finish_tail.
  do 8 (eapply te_bind; [te_run | intros ?]).
  eapply te_bind; [apply te_reduce_outputs | intros ?]. te_run.
Qed.

(** X13. Every stage and completion function, whenever it returns, has
    stopped each wallcycle counter and sub-counter it started, innermost
    first; this includes the early return of a poll that finds the stream
    busy. *)
Theorem wallcycle_timers_balanced (box : matrix) (sw : StepWorkload)
    (xr : pointer) (lam : real) (k : GpuTaskCompletion) (cev : bool)
    (out : PmeOutput) :
  keeps_timers_balanced (pme_gpu_prepare_computation E box sw)
  /\ keeps_timers_balanced (pme_gpu_launch_spread E xr lam)
  /\ keeps_timers_balanced (pme_gpu_launch_complex_transforms E sw)
  /\ keeps_timers_balanced (pme_gpu_launch_gather E lam)
  /\ keeps_timers_balanced (pme_gpu_reduce_outputs E cev out)
  /\ keeps_timers_balanced (pme_gpu_try_finish_task E sw lam k)
  /\ keeps_timers_balanced (pme_gpu_wait_finish_task E cev lam)
  /\ keeps_timers_balanced (pme_gpu_wait_and_reduce E sw lam).
Proof.
  assert (B : forall A (m : M A),
             (forall t, timers_effect m t t) -> keeps_timers_balanced m).
  { intros A m H s a s' R. destruct (H [] s a s' R) as (w & Hw & _).
    exists w. split; [exact Hw|]. intros running.
    destruct (H running s a s' R) as (w' & Hw' & T).
    rewrite Hw in Hw'. apply app_inv_head in Hw'. subst w'. exact T. }
  repeat split; apply B; intros t.
  - unfold pme_gpu_prepare_computation. te_run.
  - unfold pme_gpu_launch_spread. te_run.
  - unfold pme_gpu_launch_complex_transforms.
    eapply te_bind; [te_run | intros p].
    eapply te_bind; [te_run | intros _].
    apply te_for_each. intros g. apply te_transform_grid.
  - unfold pme_gpu_launch_gather. te_run.
  - apply te_reduce_outputs.
  - unfold pme_gpu_try_finish_task. cbv zeta.
    do 3 (eapply te_bind; [te_run | intros ?]).
    destruct (completion_is_Check k && is_cuda (GMX_GPU E)).
    + do 3 (eapply te_bind; [te_run | intros ?]).
      destruct (negb _); [te_run | apply te_try_finish_tail].
    + apply te_try_finish_tail.
  - apply te_wait_finish_task.
  - unfold pme_gpu_wait_and_reduce.
    eapply te_bind; [te_run | intros p].
    eapply te_bind; [apply te_wait_finish_task | intros o].
    do 2 (eapply te_bind; [te_run | intros ?]).
    apply te_reduce_outputs.
Qed.

(** *** The transform stage *)

Lemma int_range_nonpositive (n : Z) : n <= 0 -> int_range n = [].
Proof.
  intros H. unfold int_range.
  replace (Z.to_nat n) with 0%nat by lia. reflexivity.
Qed.

(** X10. [pme_gpu_launch_complex_transforms] waits for the spread first,
    and only then, when the FFT runs on the host; after that it handles
    the grids in index order, each with a forward FFT, a solve and an
    inverse FFT.  With no grid it launches nothing more.  Force and energy
    outputs and every host-visible field of the PME structure are left as
    they were. *)
Theorem launch_complex_transforms_sequence (sw : StepWorkload)
    (s : State) (p : gmx_pme_t) :
  pme s = Some p ->
  exists s' p',
    pme_gpu_launch_complex_transforms E sw s = Ok tt s'
    /\ calls s'
       = calls s
         ++ (if performGPUFFT (settings (gpu p)) then [] else [call_sync_spread_grid])
         ++ flat_map (grid_calls p (computeEnergy sw || computeVirial sw))
              (int_range (ngrids (common (gpu p))))
    /\ (ngrids (common (gpu p)) <= 0 ->
        calls s'
        = calls s
          ++ (if performGPUFFT (settings (gpu p)) then [] else [call_sync_spread_grid]))
    /\ pme s' = Some p'
    /\ same_host_fields p p'
    /\ forceWithVirial s' = forceWithVirial s
    /\ enerd s' = enerd s.
Proof.
  intros Hp. open_state s Hp.
  destruct (launch_complex_transforms_run E sw p s_wc s_calls s_fwv s_enerd)
    as (d & w' & R).
  eexists. exists (with_device p d). split; [exact R|]. cbn [calls pme forceWithVirial enerd].
  split; [reflexivity|]. split.
  - intros Hn. rewrite (int_range_nonpositive _ Hn). cbn [flat_map].
    rewrite app_nil_r. reflexivity.
  - repeat split. exists d. reflexivity.
Qed.


(** X12. Spread and gather change nothing but the opaque device state and
    the logs: when either returns, the force and energy outputs and every
    host-visible field of the PME structure are as before, and exactly
    one call has gone to the back end, or none for a skipped gather. *)
Theorem launch_spread_gather_frame (xr : pointer) (lam : real)
    (s : State) (p : gmx_pme_t) :
  pme s = Some p ->
  (forall s',
      pme_gpu_launch_spread E xr lam s = Ok tt s' ->
      (exists p', pme s' = Some p' /\ same_host_fields p p')
      /\ forceWithVirial s' = forceWithVirial s
      /\ enerd s' = enerd s
      /\ calls s' = calls s ++ [call_spread xr true true lam])
  /\ (forall s',
        pme_gpu_launch_gather E lam s = Ok tt s' ->
        (exists p', pme s' = Some p' /\ same_host_fields p p')
        /\ forceWithVirial s' = forceWithVirial s
        /\ enerd s' = enerd s
        /\ calls s'
           = calls s ++ (if performGPUGather (settings (gpu p))
                         then [call_gather lam] else [])).
Proof.
  intros Hp. open_state s Hp. split; intros s'.
  - unfold pme_gpu_launch_spread. mrun.
    repeat (case_if; cbn; try discriminate).
    intros H; inversion H; subst; clear H. cbn.
    repeat split. eexists. split; [reflexivity|]. eexists. reflexivity.
  - unfold pme_gpu_launch_gather. mrun.
    destruct (pme_gpu_active (Some p)); cbn; [|discriminate].
    destruct (performGPUGather (settings (gpu p))); cbn;
      intros H; inversion H; subst; clear H; cbn.
    + repeat split. eexists. split; [reflexivity|]. eexists. reflexivity.
    + rewrite app_nil_r. repeat split.
      exists p. split; [reflexivity|].
      exists (archSpecific (gpu p)). symmetry. apply with_device_self.
Qed.

(** *** Completion *)

Lemma synchronizations_app (l1 l2 : list Call) :
  synchronizations (l1 ++ l2) = (synchronizations l1 + synchronizations l2)%nat.
Proof. unfold synchronizations. rewrite filter_app, length_app. reflexivity. Qed.

Lemma stream_queries_app (l1 l2 : list Call) :
  stream_queries (l1 ++ l2) = (stream_queries l1 + stream_queries l2)%nat.
Proof. unfold stream_queries. rewrite filter_app, length_app. reflexivity. Qed.

(** The counts of a completed fetch and reduction. *)
Lemma finish_effect_counts sw lam p front s s' :
  finish_effect E sw lam p front s s' ->
  synchronizations (calls s')
  = (synchronizations (calls s) + synchronizations front)%nat
  /\ stream_queries (calls s') = (stream_queries (calls s) + stream_queries front)%nat.
Proof.
  intros (pf & f & f' & _ & _ & Hc & _). cbv zeta in Hc. rewrite Hc.
  rewrite !synchronizations_app, !stream_queries_app.
  destruct (haveForceOutput_ _); cbn; lia.
Qed.

(** X5. Without a stream query (any build but CUDA) a poll is a blocking
    call: [Check] and [Wait] give the same result.  A [Wait] that returns
    always returns true, having queried nothing and synchronized the
    stream once, before the one output fetch. *)
Theorem poll_degrades_to_wait (sw : StepWorkload) (lam : real)
    (s : State) (p : gmx_pme_t) :
  pme s = Some p ->
  (is_cuda (GMX_GPU E) = false ->
     pme_gpu_try_finish_task E sw lam Check s = pme_gpu_try_finish_task E sw lam Wait s)
  /\ (forall done s',
        pme_gpu_try_finish_task E sw lam Wait s = Ok done s' ->
        done = true
        /\ stream_queries (calls s') = stream_queries (calls s)
        /\ synchronizations (calls s') = S (synchronizations (calls s))
        /\ exists rest,
             calls s'
             = calls s ++ call_synchronize :: call_update_timings
                          :: call_getOutput (computeEnergy sw || computeVirial sw)
                               (lambda_weight p lam) :: rest).
Proof.
  intros Hp. split.
  - intros Hc. unfold pme_gpu_try_finish_task. cbv zeta. rewrite Hc. reflexivity.
  - intros done s' H.
    assert (Hd : done = true).
    { revert H. open_state s Hp. unfold pme_gpu_try_finish_task. mrun.
      destruct (pme_gpu_active (Some p)); cbn; [|discriminate].
      destruct (useGpuForceReduction (settings (gpu p))); cbn; [discriminate|].
      intros H. apply try_finish_tail_ok in H. apply H. }
    subst done. split; [reflexivity|].
    apply (try_finish_task_ok E sw lam Wait s s' p Hp) in H.
    destruct H as (_ & _ & H). cbn [completion_is_Check andb] in H.
    destruct (finish_effect_counts _ _ _ _ _ _ H) as (Hs & Hq).
    split; [rewrite Hq; cbn; lia|]. split; [rewrite Hs; cbn; lia|].
    destruct H as (pf & f & f' & _ & _ & Hcalls & _). cbv zeta in Hcalls.
    eexists. rewrite Hcalls. cbn. reflexivity.
Qed.

(** X14. With a stream query, a poll that returns reports exactly what the
    query said.  It queries once and never synchronizes, and it fetches
    the output once if the stream had finished and not at all if it had
    not. *)
Theorem poll_result_is_query (sw : StepWorkload) (lam : real)
    (s : State) (p : gmx_pme_t) :
  pme s = Some p ->
  GMX_GPU E = GMX_GPU_CUDA ->
  forall done s',
    pme_gpu_try_finish_task E sw lam Check s = Ok done s' ->
    done = pme_gpu_stream_query E (gpu p)
    /\ stream_queries (calls s') = S (stream_queries (calls s))
    /\ synchronizations (calls s') = synchronizations (calls s)
    /\ fetches (calls s')
       = fetches (calls s)
         ++ (if done
             then [(computeEnergy sw || computeVirial sw, lambda_weight p lam)]
             else []).
Proof.
  intros Hp Hc done s' H.
  destruct done.
  - apply (try_finish_task_ok E sw lam Check s s' p Hp) in H.
    destruct H as (_ & Hq & H). rewrite Hc in Hq, H. cbn in Hq, H.
    destruct (finish_effect_counts _ _ _ _ _ _ H) as (Hs & Hqs).
    split; [symmetry; apply Hq; reflexivity|].
    split; [rewrite Hqs; cbn; lia|]. split; [rewrite Hs; cbn; lia|].
    apply (finish_effect_fetches E) in H; [exact H | reflexivity].
  - revert H. open_state s Hp. unfold pme_gpu_try_finish_task. mrun.
    destruct (pme_gpu_active (Some p)); cbn; [|discriminate].
    destruct (useGpuForceReduction (settings (gpu p))); cbn; [discriminate|].
    rewrite Hc; cbn.
    destruct (pme_gpu_stream_query E (gpu p)); cbn.
    + intros H. apply try_finish_tail_ok in H. destruct H as [H _]. discriminate H.
    + intros H; inversion H; subst; clear H. cbn [calls].
      rewrite stream_queries_app, synchronizations_app, fetches_app. cbn.
      rewrite !app_nil_r. repeat split; try reflexivity;
        unfold stream_queries, synchronizations; lia.
Qed.

(** X15. [pme_gpu_wait_finish_task] only waits and fetches: it never
    touches the force or energy output and sums no forces, and the
    host-visible fields of the PME structure stay as they were.  With the
    reduction on the device and no energy or virial requested it does not
    even synchronize, so the whole PME structure is unchanged. *)
Theorem wait_finish_task_fetch_only (cev : bool) (lam : real)
    (s : State) (p : gmx_pme_t) :
  pme s = Some p ->
  pme_gpu_active (Some p) = true ->
  exists out s' p',
    pme_gpu_wait_finish_task E cev lam s = Ok out s'
    /\ pme s' = Some p'
    /\ same_host_fields p p'
    /\ forceWithVirial s' = forceWithVirial s
    /\ enerd s' = enerd s
    /\ host_force_sums (calls s') = host_force_sums (calls s)
    /\ (useGpuForceReduction (settings (gpu p)) = true -> cev = false ->
        p' = p /\ synchronizations (calls s') = synchronizations (calls s)).
Proof.
  intros Hp Ha. open_state s Hp.
  rewrite (wait_finish_task_run E cev lam p s_wc s_calls s_fwv s_enerd Ha). cbv zeta.
  do 3 eexists. split; [reflexivity|]. cbn [pme forceWithVirial enerd calls].
  split; [reflexivity|]. split; [|split; [reflexivity|split; [reflexivity|split]]].
  - destruct (negb _ || cev); [eexists; reflexivity|].
    exists (archSpecific (gpu p)). symmetry. apply with_device_self.
  - rewrite !host_force_sums_app. destruct (negb _ || cev); cbn; lia.
  - intros Hr Hcev. rewrite Hr, Hcev. cbn. split; [reflexivity|].
    rewrite synchronizations_app. cbn. lia.
Qed.

(** X16. When [pme_gpu_reduce_outputs] returns, the PME structure is as
    before, and of the energy output only [term\[F_COUL_RECIP\]] and
    [dvdl_lin\[efptCOUL\]] can differ.  When energy and virial are computed
    the first has had the fetched energy added in [float] and the second
    the fetched dvdl, converted to and added in the format of [dvdl_lin];
    otherwise neither has changed. *)
Theorem reduce_outputs_energy_frame (cev : bool) (out : PmeOutput) (s s' : State) :
  pme_gpu_reduce_outputs E cev out s = Ok tt s' ->
  pme s' = pme s
  /\ (enerd s = None -> enerd s' = None)
  /\ (forall e,
        enerd s = Some e ->
        exists e',
          enerd s' = Some e'
          /\ (forall k, k <> F_COUL_RECIP E -> term e' k = term e k)
          /\ (forall k, k <> efptCOUL E -> dvdl_lin e' k = dvdl_lin e k)
          /\ term e' (F_COUL_RECIP E)
             = (if cev
                then real_add (term e (F_COUL_RECIP E)) (coulombEnergy_ out)
                else term e (F_COUL_RECIP E))
          /\ dvdl_lin e' (efptCOUL E)
             = (if cev
                then SFadd (format_prec (dvdl_format E)) (format_emax (dvdl_format E))
                       (dvdl_lin e (efptCOUL E))
                       (real_to_format (dvdl_format E) (coulombDvdl_ out))
                else dvdl_lin e (efptCOUL E))).
Proof.
  intros H. apply reduce_outputs_ok in H.
  destruct H as (f & f' & _ & _ & _ & He & Hp & _).
  split; [exact Hp|]. destruct cev.
  - destruct He as (e0 & He0 & He1). split.
    + intros Hn. rewrite Hn in He0. discriminate He0.
    + intros e Hs. rewrite Hs in He0. inversion He0; subst e0; clear He0.
      eexists. split; [exact He1|]. unfold reduced_energies, array_add, add_real_to. cbn.
      repeat split.
      * intros k Hk. apply Nat.eqb_neq in Hk. rewrite Hk. reflexivity.
      * intros k Hk. apply Nat.eqb_neq in Hk. rewrite Hk. reflexivity.
      * rewrite Nat.eqb_refl. reflexivity.
      * rewrite Nat.eqb_refl. reflexivity.
  - split.
    + intros Hn. rewrite He. exact Hn.
    + intros e Hs. exists e. rewrite He. repeat split. exact Hs.
Qed.

(** *** Preparation *)

Lemma prepare_computation_explicit (box : matrix) (sw : StepWorkload) p w c f e :
  pme_gpu_active (Some p) = true ->
  0 < nnodes p ->
  nnodes p = 1 \/ 0 < ndecompdim p ->
  let g1 :=
    set_previousBox
      (set_settings (gpu p)
         (set_useGpuForceReduction (settings (gpu p)) (useGpuPmeFReduction sw)))
      (snd (box_scan (previousBox (common (gpu p))) box)) in
  let q := with_device (set_gpu p g1)
             (device_effect E (call_update_input_box box) g1) in
  pme_gpu_prepare_computation E box sw (mkState (Some p) w c f e)
  = Ok tt
      (if haveDynamicBox sw || lower_differs (previousBox (common (gpu p))) box
       then mkState
              (Some (if performGPUSolve (settings (gpu p)) then q
                     else set_recipbox_boxVolume q
                            (invertBoxMatrix E (scaleBox E box))
                            (real_mul
                               (real_mul (mget (scaleBox E box) XX XX)
                                              (mget (scaleBox E box) YY YY))
                               (mget (scaleBox E box) ZZ ZZ))))
              (w ++ [wc_start_nocount ewcLAUNCH_GPU;
                     wc_sub_start_nocount ewcsLAUNCH_GPU_PME;
                     wc_sub_stop ewcsLAUNCH_GPU_PME;
                     wc_stop ewcLAUNCH_GPU])
              (c ++ [call_update_input_box box]) f e
       else mkState (Some (set_gpu p g1)) w c f e).
Proof.
  intros Ha Hn Hd.
  assert (Hn' : (0 <? nnodes p) = true) by (apply Z.ltb_lt; exact Hn).
  assert (Hd' : ((nnodes p =? 1) || (0 <? ndecompdim p)) = true).
  { apply orb_true_iff. rewrite Z.eqb_eq, Z.ltb_lt. exact Hd. }
  unfold pme_gpu_prepare_computation. mrun.
  rewrite Ha; cbn. rewrite Hn'; cbn. rewrite Hd'; cbn.
  rewrite <- box_scan_flag.
  destruct (box_scan (previousBox (common (gpu p))) box) as [should newPrevious].
  cbn.
  destruct (haveDynamicBox sw || should); cbn; [|reflexivity].
  destruct (performGPUSolve (settings (gpu p))); cbn;
    rewrite <- !app_assoc; reflexivity.
Qed.

Lemma box_scan_fixed (previous box : matrix) :
  (forall i j, (j <= i < 3)%nat -> mget previous i j = mget box i j) ->
  snd (box_scan previous box) = previous.
Proof.
  intros H.
  pose proof (H 0 0 ltac:(lia))%nat as H00. pose proof (H 1 0 ltac:(lia))%nat as H10.
  pose proof (H 1 1 ltac:(lia))%nat as H11. pose proof (H 2 0 ltac:(lia))%nat as H20.
  pose proof (H 2 1 ltac:(lia))%nat as H21. pose proof (H 2 2 ltac:(lia))%nat as H22.
  clear H.
  destruct previous as [[r0 r1] r2].
  destruct r0 as [[a0 a1] a2], r1 as [[b0 b1] b2], r2 as [[c0 c1] c2].
  destruct box as [[q0 q1] q2].
  destruct q0 as [[x0 x1] x2], q1 as [[y0 y1] y2], q2 as [[z0 z1] z2].
  cbn in H00, H10, H11, H20, H21, H22. subst.
  reflexivity.
Qed.

Lemma set_useGpuForceReduction_twice (st : PmeGpuSettings) (b : bool) :
  set_useGpuForceReduction (set_useGpuForceReduction st b) b
  = set_useGpuForceReduction st b.
Proof. reflexivity. Qed.

(** X7. Whenever [pme_gpu_prepare_computation] gets past its assertions
    it copies [useGpuPmeFReduction] of the step into the settings, box
    change or not, and leaves the other settings, the grid count and the
    force and energy outputs alone.  So a step prepared with the reduction
    on the device cannot be polled: [pme_gpu_try_finish_task] then fails
    its assertion. *)
Theorem prepare_sets_force_reduction (box : matrix) (sw : StepWorkload)
    (s : State) (p : gmx_pme_t) :
  pme s = Some p ->
  pme_gpu_active (Some p) = true ->
  0 < nnodes p ->
  nnodes p = 1 \/ 0 < ndecompdim p ->
  exists s' p',
    pme_gpu_prepare_computation E box sw s = Ok tt s'
    /\ pme s' = Some p'
    /\ settings (gpu p')
       = set_useGpuForceReduction (settings (gpu p)) (useGpuPmeFReduction sw)
    /\ ngrids (common (gpu p')) = ngrids (common (gpu p))
    /\ forceWithVirial s' = forceWithVirial s
    /\ enerd s' = enerd s
    /\ (useGpuPmeFReduction sw = true ->
        forall sw2 lam k,
          pme_gpu_try_finish_task E sw2 lam k s' = AssertionFailed msg_reduction_active).
Proof.
  intros Hp Ha Hn Hd. open_state s Hp.
  rewrite (prepare_computation_explicit box sw p s_wc s_calls s_fwv s_enerd Ha Hn Hd).
  cbv zeta.
  assert (Hact : forall p', runMode p' = runMode p -> pme_gpu_active (Some p') = true).
  { intros p' Hm. unfold pme_gpu_active in *. rewrite Hm. exact Ha. }
  destruct (haveDynamicBox sw || lower_differs _ _);
    [destruct (performGPUSolve (settings (gpu p)))|];
    (eexists; eexists; split; [reflexivity|]; cbn [pme forceWithVirial enerd];
     split; [reflexivity|]; repeat split;
     intros Hr sw2 lam k;
     unfold pme_gpu_try_finish_task; mrun;
     rewrite Hact by reflexivity; cbn; rewrite Hr; reflexivity).
Qed.

Lemma lower_differs_false (a b : matrix) :
  (forall i j, (j <= i < 3)%nat -> real_ne (mget a i j) (mget b i j) = false) ->
  lower_differs a b = false.
Proof.
  intros H. unfold lower_differs, lower_triangle. cbn [existsb fst snd].
  rewrite (H 0 0)%nat, (H 1 0)%nat, (H 1 1)%nat, (H 2 0)%nat, (H 2 1)%nat, (H 2 2)%nat
    by lia.
  reflexivity.
Qed.

(** X8. The box comparison sees the six compared entries only, and a
    repeated step is a no-op.  After one call, a second call without
    [haveDynamicBox], with the same force-reduction flag and with any box
    that has the same six lower-triangular entries (none of them a NaN),
    returns the state unchanged, timers and logs included: nothing is
    pushed to the device, whatever the upper-triangular entries are. *)
Theorem prepare_repeated_is_noop (box box2 : matrix) (sw sw2 : StepWorkload)
    (s : State) (p : gmx_pme_t) :
  pme s = Some p ->
  pme_gpu_active (Some p) = true ->
  0 < nnodes p ->
  nnodes p = 1 \/ 0 < ndecompdim p ->
  haveDynamicBox sw2 = false ->
  useGpuPmeFReduction sw2 = useGpuPmeFReduction sw ->
  (forall i j, (j <= i < 3)%nat -> mget box2 i j = mget box i j) ->
  (forall i j, (j <= i < 3)%nat -> real_ne (mget box i j) (mget box i j) = false) ->
  exists s',
    pme_gpu_prepare_computation E box sw s = Ok tt s'
    /\ pme_gpu_prepare_computation E box2 sw2 s' = Ok tt s'.
Proof.
  intros Hp Ha Hn Hd Hdyn Hflag Hlow Hself. open_state s Hp.
  rewrite (prepare_computation_explicit box sw p s_wc s_calls s_fwv s_enerd Ha Hn Hd).
  cbv zeta.
  set (prev1 := snd (box_scan (previousBox (common (gpu p))) box)).
  assert (Hprev : forall i j, (j <= i < 3)%nat -> mget prev1 i j = mget box2 i j).
  { intros i j Hij. subst prev1. rewrite box_scan_entries, Hlow by lia.
    destruct (Nat.leb_spec j i); [reflexivity | lia]. }
  assert (Hfix : snd (box_scan prev1 box2) = prev1).
  { apply box_scan_fixed. exact Hprev. }
  assert (Hsame : lower_differs prev1 box2 = false).
  { apply lower_differs_false. intros i j Hij.
    rewrite Hprev, Hlow by exact Hij. apply Hself. exact Hij. }
  assert (Second : forall p' w' c',
             runMode p' = runMode p -> nnodes p' = nnodes p ->
             ndecompdim p' = ndecompdim p ->
             settings (gpu p')
             = set_useGpuForceReduction (settings (gpu p)) (useGpuPmeFReduction sw) ->
             previousBox (common (gpu p')) = prev1 ->
             pme_gpu_prepare_computation E box2 sw2
               (mkState (Some p') w' c' s_fwv s_enerd)
             = Ok tt (mkState (Some p') w' c' s_fwv s_enerd)).
  { intros p' w' c' Hm Hnn Hnd Hst Hpb.
    rewrite prepare_computation_explicit.
    - cbv zeta. rewrite Hdyn, Hflag, Hpb, Hsame, Hfix, Hst. cbn [orb].
      rewrite set_useGpuForceReduction_twice, <- Hst, <- Hpb.
      destruct p' as [? [? [? ?] ?] ? ? ? ? ? ? ? ?]; reflexivity.
    - unfold pme_gpu_active in *. rewrite Hm. exact Ha.
    - rewrite Hnn. exact Hn.
    - rewrite Hnn, Hnd. exact Hd. }
  destruct (haveDynamicBox sw || lower_differs _ _);
    [destruct (performGPUSolve (settings (gpu p)))|];
    (eexists; split; [reflexivity|]; apply Second; reflexivity).
Qed.

(** *** Preparation feeds the host solver *)

Lemma solve_volumes_app (l1 l2 : list Call) :
  solve_volumes (l1 ++ l2) = solve_volumes l1 ++ solve_volumes l2.
Proof.
  induction l1 as [|c l1 IH]; [reflexivity|].
  destruct c; cbn; rewrite IH; reflexivity.
Qed.

Lemma solve_volumes_host (A : Type) (body : A -> Call) (v : real) (l : list A) :
  (forall a, Forall (eq v) (solve_volumes [body a])) ->
  Forall (eq v) (solve_volumes (map body l)).
Proof.
  intros H. induction l as [|a l IH]; [constructor|].
  change (map body (a :: l)) with ([body a] ++ map body l).
  rewrite solve_volumes_app. apply Forall_app. split; [apply H | exact IH].
Qed.

Lemma solve_volumes_grids p cev (gs : list Z) :
  Forall (eq (boxVolume p)) (solve_volumes (flat_map (grid_calls p cev) gs)).
Proof.
  induction gs as [|g gs IH]; [constructor|].
  cbn [flat_map]. rewrite solve_volumes_app. apply Forall_app. split; [|exact IH].
  unfold grid_calls, fft_calls, solve_calls.
  rewrite !solve_volumes_app, !Forall_app. repeat split.
  - destruct (performGPUFFT _); [constructor|].
    apply solve_volumes_host. intros a. constructor.
  - destruct (performGPUSolve _); [constructor|].
    apply solve_volumes_host. intros a. repeat constructor.
  - destruct (performGPUFFT _); [constructor|].
    apply solve_volumes_host. intros a. constructor.
Qed.

(** X17. With the solve on the host, the cell volume the host solver
    receives is the one the last triggering preparation computed: after a
    [pme_gpu_prepare_computation] with [haveDynamicBox], every
    [solve_pme_yzx] call of the following transform stage gets the product
    of the diagonal of the scaled box, multiplied in [float] from left to
    right and so rounded twice, and the reciprocal box is the inverse of
    that scaled box. *)
Theorem prepared_volume_reaches_host_solver (box : matrix) (sw sw2 : StepWorkload)
    (s : State) (p : gmx_pme_t) :
  pme s = Some p ->
  pme_gpu_active (Some p) = true ->
  0 < nnodes p ->
  nnodes p = 1 \/ 0 < ndecompdim p ->
  haveDynamicBox sw = true ->
  performGPUSolve (settings (gpu p)) = false ->
  exists s1 s2 p2 launched,
    pme_gpu_prepare_computation E box sw s = Ok tt s1
    /\ pme_gpu_launch_complex_transforms E sw2 s1 = Ok tt s2
    /\ calls s2 = calls s1 ++ launched
    /\ Forall (eq (real_mul (real_mul (mget (scaleBox E box) XX XX)
                                      (mget (scaleBox E box) YY YY))
                            (mget (scaleBox E box) ZZ ZZ)))
              (solve_volumes launched)
    /\ List.length (solve_volumes launched)
       = (Z.to_nat (ngrids (common (gpu p))) * Z.to_nat (nthread p))%nat
    /\ pme s2 = Some p2
    /\ recipbox p2 = invertBoxMatrix E (scaleBox E box)
    /\ boxVolume p2
       = real_mul (real_mul (mget (scaleBox E box) XX XX)
                            (mget (scaleBox E box) YY YY))
                  (mget (scaleBox E box) ZZ ZZ).
Proof.
  intros Hp Ha Hn Hd Hdyn Hsolve. open_state s Hp.
  rewrite (prepare_computation_explicit box sw p s_wc s_calls s_fwv s_enerd Ha Hn Hd).
  cbv zeta. rewrite Hdyn, Hsolve. cbn [orb].
  match goal with
  | |- context [Ok tt (mkState (Some ?q) ?w1 ?c1 _ _)] =>
      destruct (launch_complex_transforms_run E sw2 q w1 c1 s_fwv s_enerd)
        as (d & w' & R);
      set (p1 := q) in *
  end.
  eexists. eexists. exists (with_device p1 d). eexists.
  split; [reflexivity|]. split; [exact R|]. cbn [calls pme].
  split; [reflexivity|].
  assert (Hs1 : performGPUSolve (settings (gpu p1)) = false) by exact Hsolve.
  split; [|split; [|repeat split]].
  - rewrite solve_volumes_app. apply Forall_app. split.
    + destruct (performGPUFFT _); constructor.
    + apply (solve_volumes_grids p1).
  - rewrite solve_volumes_app.
    assert (H0 : solve_volumes
                   (if performGPUFFT (settings (gpu p1)) then []
                    else [call_sync_spread_grid]) = [])
      by (destruct (performGPUFFT _); reflexivity).
    rewrite H0. cbn [app].
    change (ngrids (common (gpu p1))) with (ngrids (common (gpu p))).
    rewrite <- (int_range_length (ngrids (common (gpu p)))).
    induction (int_range (ngrids (common (gpu p)))) as [|g gs IH]; [reflexivity|].
    cbn [flat_map List.length]. rewrite solve_volumes_app, length_app, IH.
    unfold grid_calls, fft_calls, solve_calls. rewrite Hs1.
    rewrite !solve_volumes_app, !length_app.
    assert (Hf : forall dir,
               solve_volumes
                 (if performGPUFFT (settings (gpu p1)) then [call_3dfft dir g]
                  else map (host_parallel_3dfft_execute g dir) (int_range (nthread p1)))
               = []).
    { intros dir. destruct (performGPUFFT _); [reflexivity|].
      induction (int_range (nthread p1)) as [|a l IHl]; [reflexivity | exact IHl]. }
    rewrite !Hf. cbn [List.length].
    assert (Hh : forall l,
               List.length
                 (solve_volumes
                    (map (host_solve_pme_yzx g (boxVolume p1)
                            (computeEnergy sw2 || computeVirial sw2) (nthread p1)) l))
               = List.length l).
    { intros l. induction l as [|a l IHl]; [reflexivity|].
      cbn [map solve_volumes List.length]. rewrite IHl. reflexivity. }
    rewrite Hh, int_range_length.
    change (nthread p1) with (nthread p). lia.
Qed.

(** *** Sufficient conditions for completion *)

Lemma reduced_forces_fits (cev : bool) (out : PmeOutput) (f : ForceWithVirial) :
  (forall g v, force_ (addVirialContribution E g v) = force_ g) ->
  (List.length (forces_ out) <= List.length (force_ f))%nat ->
  reduced_forces E cev out f <> None.
Proof.
  intros Hkeep Hfit. unfold reduced_forces.
  destruct (haveForceOutput_ out); [|discriminate].
  set (f1 := if cev then _ else f).
  assert (Hlen : force_ f1 = force_ f) by (subst f1; destruct cev; [apply Hkeep | reflexivity]).
  pose proof (sum_forces_loop_none (force_ f1) (forces_ out)) as Hnone.
  destruct (sum_forces_loop (force_ f1) (forces_ out)); [discriminate|].
  intros _. assert (Hlt : (List.length (force_ f1) < List.length (forces_ out))%nat)
    by (apply Hnone; reflexivity).
  rewrite Hlen in Hlt. lia.
Qed.

Lemma getOutput_forces_fit (q : gmx_pme_t) (cev : bool) (l : real) (n : nat) :
  (List.length (staged_forces E (gpu q)) <= n)%nat ->
  (List.length (forces_ (getOutput_value E q cev l)) <= n)%nat.
Proof.
  intros H. unfold getOutput_value.
  destruct cev; [destruct (staged_energy_virial E q l) as [[? ?] ?]|];
    cbn; destruct (negb _); cbn; lia.
Qed.

(** The gather stage followed by the blocking call does complete, whether
    or not the gather kernel is launched. *)
Lemma gather_step_completes (sw : StepWorkload) (lam lamG : real) p w c f e :
  pme_gpu_active (Some p) = true ->
  (forall g v, force_ (addVirialContribution E g v) = force_ g) ->
  (forall d,
      (List.length (staged_forces E (gpu (with_device p d)))
       <= List.length (force_ f))%nat) ->
  exists s1 s2,
    pme_gpu_launch_gather E lamG (mkState (Some p) w c (Some f) (Some e)) = Ok tt s1
    /\ pme_gpu_wait_and_reduce E sw lam s1 = Ok tt s2.
Proof.
  intros Ha Hkeep Hfit.
  assert (Hroom : forall d0 d out,
             out = getOutput_value E (with_device (with_device p d0) d)
                     (computeEnergy sw || computeVirial sw)
                     (lambda_weight (with_device p d0) lam) ->
             reduced_forces E (computeEnergy sw || computeVirial sw) out f <> None).
  { intros d0 d out ->. apply reduced_forces_fits; [exact Hkeep|].
    apply getOutput_forces_fit. apply (Hfit d). }
  unfold pme_gpu_launch_gather. mrun. rewrite Ha; cbn.
  destruct (performGPUGather (settings (gpu p))); cbn.
  - match goal with
    | |- exists s1 s2, Ok tt (mkState (Some ?q) ?w1 ?c1 _ _) = Ok tt s1 /\ _ =>
        destruct (wait_and_reduce_completes E sw lam q w1 c1 f e Ha
                    (Hroom (device_effect E (call_gather lamG) (gpu p))))
          as (s2 & R2)
    end.
    do 2 eexists. split; [reflexivity | exact R2].
  - destruct (wait_and_reduce_completes E sw lam p w c f e Ha) as (s2 & R2).
    { intros d out Hout. rewrite <- (with_device_self p) in Hout at 2.
      apply (Hroom (archSpecific (gpu p)) d out).
      rewrite Hout. reflexivity. }
    do 2 eexists. split; [reflexivity | exact R2].
Qed.

(** X18. Both completion paths return, with no failed assertion and no
    access out of bounds, once PME is active, the force and energy outputs
    are there, the force output is at least as long as the staged forces,
    and adding a virial does not resize the forces; the poll path needs the
    host-side reduction in addition. *)
Theorem completion_succeeds (sw : StepWorkload) (lam : real)
    (k : GpuTaskCompletion) p w c f e :
  pme_gpu_active (Some p) = true ->
  (forall g v, force_ (addVirialContribution E g v) = force_ g) ->
  (forall d,
      (List.length (staged_forces E (gpu (with_device p d)))
       <= List.length (force_ f))%nat) ->
  (exists s',
      pme_gpu_wait_and_reduce E sw lam (mkState (Some p) w c (Some f) (Some e))
      = Ok tt s')
  /\ (useGpuForceReduction (settings (gpu p)) = false ->
      exists done s',
        pme_gpu_try_finish_task E sw lam k (mkState (Some p) w c (Some f) (Some e))
        = Ok done s').
Proof.
  intros Ha Hkeep Hfit.
  assert (Hroom : forall d out,
             out = getOutput_value E (with_device p d)
                     (computeEnergy sw || computeVirial sw) (lambda_weight p lam) ->
             reduced_forces E (computeEnergy sw || computeVirial sw) out f <> None).
  { intros d out ->. apply reduced_forces_fits; [exact Hkeep|].
    apply getOutput_forces_fit, Hfit. }
  split.
  - apply wait_and_reduce_completes; assumption.
  - intros Hr. apply try_finish_task_completes; assumption.
Qed.

End Extras.

(** ** Further properties on the sample data *)


Lemma unguarded_entry_points_witness :
  pme sample_state_null = None
  /\ pme_gpu_launch_complex_transforms refExternals energy_step sample_state_null
     = Undefined
  /\ pme_gpu_wait_and_reduce refExternals energy_step real_half sample_state_null
     = Undefined
  /\ pme_gpu_wait_finish_task refExternals true real_half sample_state_null
     = AssertionFailed msg_not_gpu.
Proof.
  split; [reflexivity|].
  apply (unguarded_entry_points refExternals energy_step real_half true
           sample_state_null); reflexivity.
Defined.

Lemma poll_degrades_to_wait_witness :
  pme sample_state = Some sample_pme
  /\ ((is_cuda (GMX_GPU refExternals) = false ->
       pme_gpu_try_finish_task refExternals energy_step real_half Check sample_state
       = pme_gpu_try_finish_task refExternals energy_step real_half Wait sample_state)
      /\ (forall done s',
            pme_gpu_try_finish_task refExternals energy_step real_half Wait sample_state
            = Ok done s' ->
            done = true
            /\ stream_queries (calls s') = stream_queries (calls sample_state)
            /\ synchronizations (calls s') = S (synchronizations (calls sample_state))
            /\ exists rest,
                 calls s'
                 = calls sample_state
                   ++ call_synchronize :: call_update_timings
                      :: call_getOutput
                           (computeEnergy energy_step || computeVirial energy_step)
                           (lambda_weight sample_pme real_half) :: rest)).
Proof.
  split; [reflexivity|].
  apply (poll_degrades_to_wait refExternals energy_step real_half
           sample_state sample_pme); reflexivity.
Defined.


Lemma prepare_sets_force_reduction_witness :
  pme sample_state = Some sample_pme
  /\ pme_gpu_active (Some sample_pme) = true
  /\ 0 < nnodes sample_pme
  /\ (nnodes sample_pme = 1 \/ 0 < ndecompdim sample_pme)
  /\ exists s' p',
       pme_gpu_prepare_computation refExternals sample_box device_reduction_step
         sample_state = Ok tt s'
       /\ pme s' = Some p'
       /\ settings (gpu p')
          = set_useGpuForceReduction (settings (gpu sample_pme))
              (useGpuPmeFReduction device_reduction_step)
       /\ ngrids (common (gpu p')) = ngrids (common (gpu sample_pme))
       /\ forceWithVirial s' = forceWithVirial sample_state
       /\ enerd s' = enerd sample_state
       /\ (useGpuPmeFReduction device_reduction_step = true ->
           forall sw2 lam k,
             pme_gpu_try_finish_task refExternals sw2 lam k s'
             = AssertionFailed msg_reduction_active).
Proof.
  do 3 (split; [reflexivity|]). split; [left; reflexivity|].
  apply (prepare_sets_force_reduction refExternals sample_box device_reduction_step
           sample_state sample_pme);
    [reflexivity | reflexivity | reflexivity | left; reflexivity].
Defined.

Lemma sample_box_upper_same_lower (i j : nat) :
  (j <= i < 3)%nat -> mget sample_box_upper i j = mget sample_box i j.
Proof.
  intros H. destruct i as [|[|[|i]]]; [| | |lia];
    (destruct j as [|[|[|j]]]; [| | |lia]); try reflexivity; lia.
Defined.

Lemma sample_box_no_nan (i j : nat) :
  (j <= i < 3)%nat -> real_ne (mget sample_box i j) (mget sample_box i j) = false.
Proof.
  intros H. destruct i as [|[|[|i]]]; [| | |lia];
    (destruct j as [|[|[|j]]]; [| | |lia]); try reflexivity; lia.
Defined.

Lemma prepare_repeated_is_noop_witness :
  pme sample_state = Some sample_pme
  /\ pme_gpu_active (Some sample_pme) = true
  /\ 0 < nnodes sample_pme
  /\ (nnodes sample_pme = 1 \/ 0 < ndecompdim sample_pme)
  /\ haveDynamicBox static_step = false
  /\ useGpuPmeFReduction static_step = useGpuPmeFReduction dynamic_step
  /\ (forall i j, (j <= i < 3)%nat -> mget sample_box_upper i j = mget sample_box i j)
  /\ (forall i j, (j <= i < 3)%nat ->
        real_ne (mget sample_box i j) (mget sample_box i j) = false)
  /\ exists s',
       pme_gpu_prepare_computation refExternals sample_box dynamic_step sample_state
       = Ok tt s'
       /\ pme_gpu_prepare_computation refExternals sample_box_upper static_step s'
          = Ok tt s'.
Proof.
  do 3 (split; [reflexivity|]). split; [left; reflexivity|].
  do 2 (split; [reflexivity|]).
  split; [exact sample_box_upper_same_lower|].
  split; [exact sample_box_no_nan|].
  apply (prepare_repeated_is_noop refExternals sample_box sample_box_upper
           dynamic_step static_step sample_state sample_pme);
    [reflexivity | reflexivity | reflexivity | left; reflexivity | reflexivity
    | reflexivity | exact sample_box_upper_same_lower | exact sample_box_no_nan].
Defined.


Lemma launch_complex_transforms_sequence_witness :
  pme sample_state_host_solve = Some sample_pme_host_solve
  /\ exists s' p',
       pme_gpu_launch_complex_transforms refExternals energy_step sample_state_host_solve
       = Ok tt s'
       /\ calls s'
          = calls sample_state_host_solve
            ++ (if performGPUFFT (settings (gpu sample_pme_host_solve))
                then [] else [call_sync_spread_grid])
            ++ flat_map
                 (grid_calls sample_pme_host_solve
                    (computeEnergy energy_step || computeVirial energy_step))
                 (int_range (ngrids (common (gpu sample_pme_host_solve))))
       /\ (ngrids (common (gpu sample_pme_host_solve)) <= 0 ->
           calls s'
           = calls sample_state_host_solve
             ++ (if performGPUFFT (settings (gpu sample_pme_host_solve))
                 then [] else [call_sync_spread_grid]))
       /\ pme s' = Some p'
       /\ same_host_fields sample_pme_host_solve p'
       /\ forceWithVirial s' = forceWithVirial sample_state_host_solve
       /\ enerd s' = enerd sample_state_host_solve.
Proof.
  split; [reflexivity|].
  apply (launch_complex_transforms_sequence refExternals energy_step
           sample_state_host_solve sample_pme_host_solve); reflexivity.
Defined.

Lemma launch_spread_gather_frame_witness :
  pme sample_state = Some sample_pme
  /\ ((forall s',
          pme_gpu_launch_spread refExternals (addr 1) real_half sample_state = Ok tt s' ->
          (exists p', pme s' = Some p' /\ same_host_fields sample_pme p')
          /\ forceWithVirial s' = forceWithVirial sample_state
          /\ enerd s' = enerd sample_state
          /\ calls s' = calls sample_state ++ [call_spread (addr 1) true true real_half])
      /\ (forall s',
            pme_gpu_launch_gather refExternals real_half sample_state = Ok tt s' ->
            (exists p', pme s' = Some p' /\ same_host_fields sample_pme p')
            /\ forceWithVirial s' = forceWithVirial sample_state
            /\ enerd s' = enerd sample_state
            /\ calls s'
               = calls sample_state
                 ++ (if performGPUGather (settings (gpu sample_pme))
                     then [call_gather real_half] else []))).
Proof.
  split; [reflexivity|].
  apply (launch_spread_gather_frame refExternals (addr 1) real_half sample_state
           sample_pme); reflexivity.
Defined.

Lemma poll_result_is_query_witness :
  pme sample_state = Some sample_pme
  /\ GMX_GPU refExternals = GMX_GPU_CUDA
  /\ pme_gpu_try_finish_task refExternals energy_step real_half Check sample_state
     = Ok false (run_state (pme_gpu_try_finish_task refExternals energy_step real_half
                              Check sample_state) sample_state)
  /\ (false = pme_gpu_stream_query refExternals (gpu sample_pme)
      /\ stream_queries
           (calls (run_state (pme_gpu_try_finish_task refExternals energy_step
                                real_half Check sample_state) sample_state))
         = S (stream_queries (calls sample_state))
      /\ synchronizations
           (calls (run_state (pme_gpu_try_finish_task refExternals energy_step
                                real_half Check sample_state) sample_state))
         = synchronizations (calls sample_state)
      /\ fetches
           (calls (run_state (pme_gpu_try_finish_task refExternals energy_step
                                real_half Check sample_state) sample_state))
         = fetches (calls sample_state)
           ++ (if false
               then [(computeEnergy energy_step || computeVirial energy_step,
                      lambda_weight sample_pme real_half)]
               else [])).
Proof.
  do 3 (split; [reflexivity|]).
  apply (poll_result_is_query refExternals energy_step real_half sample_state
           sample_pme); reflexivity.
Defined.

Lemma wait_finish_task_fetch_only_witness :
  pme sample_state_device_reduction = Some sample_pme_device_reduction
  /\ pme_gpu_active (Some sample_pme_device_reduction) = true
  /\ exists out s' p',
       pme_gpu_wait_finish_task refExternals false real_half
         sample_state_device_reduction = Ok out s'
       /\ pme s' = Some p'
       /\ same_host_fields sample_pme_device_reduction p'
       /\ forceWithVirial s' = forceWithVirial sample_state_device_reduction
       /\ enerd s' = enerd sample_state_device_reduction
       /\ host_force_sums (calls s')
          = host_force_sums (calls sample_state_device_reduction)
       /\ (useGpuForceReduction (settings (gpu sample_pme_device_reduction)) = true ->
           false = false ->
           p' = sample_pme_device_reduction
           /\ synchronizations (calls s')
              = synchronizations (calls sample_state_device_reduction)).
Proof.
  do 2 (split; [reflexivity|]).
  apply (wait_finish_task_fetch_only refExternals false real_half
           sample_state_device_reduction sample_pme_device_reduction); reflexivity.
Defined.

Lemma reduce_outputs_energy_frame_witness :
  pme_gpu_reduce_outputs refExternals true sample_output sample_state
  = Ok tt (run_state (pme_gpu_reduce_outputs refExternals true sample_output
                        sample_state) sample_state)
  /\ (pme (run_state (pme_gpu_reduce_outputs refExternals true sample_output
                        sample_state) sample_state)
      = pme sample_state
      /\ (enerd sample_state = None ->
          enerd (run_state (pme_gpu_reduce_outputs refExternals true sample_output
                              sample_state) sample_state) = None)
      /\ (forall e,
            enerd sample_state = Some e ->
            exists e',
              enerd (run_state (pme_gpu_reduce_outputs refExternals true sample_output
                                  sample_state) sample_state) = Some e'
              /\ (forall k, k <> F_COUL_RECIP refExternals -> term e' k = term e k)
              /\ (forall k, k <> efptCOUL refExternals -> dvdl_lin e' k = dvdl_lin e k)
              /\ term e' (F_COUL_RECIP refExternals)
                 = (if true
                    then real_add (term e (F_COUL_RECIP refExternals))
                           (coulombEnergy_ sample_output)
                    else term e (F_COUL_RECIP refExternals))
              /\ dvdl_lin e' (efptCOUL refExternals)
                 = (if true
                    then SFadd (format_prec (dvdl_format refExternals))
                           (format_emax (dvdl_format refExternals))
                           (dvdl_lin e (efptCOUL refExternals))
                           (real_to_format (dvdl_format refExternals)
                              (coulombDvdl_ sample_output))
                    else dvdl_lin e (efptCOUL refExternals)))).
Proof.
  split; [reflexivity|].
  apply (reduce_outputs_energy_frame refExternals true sample_output sample_state
           (run_state (pme_gpu_reduce_outputs refExternals true sample_output
                         sample_state) sample_state)); reflexivity.
Defined.

Lemma prepared_volume_reaches_host_solver_witness :
  pme sample_state_host_solve = Some sample_pme_host_solve
  /\ pme_gpu_active (Some sample_pme_host_solve) = true
  /\ 0 < nnodes sample_pme_host_solve
  /\ (nnodes sample_pme_host_solve = 1 \/ 0 < ndecompdim sample_pme_host_solve)
  /\ haveDynamicBox dynamic_step = true
  /\ performGPUSolve (settings (gpu sample_pme_host_solve)) = false
  /\ exists s1 s2 p2 launched,
       pme_gpu_prepare_computation refExternals sample_box dynamic_step
         sample_state_host_solve = Ok tt s1
       /\ pme_gpu_launch_complex_transforms refExternals energy_step s1 = Ok tt s2
       /\ calls s2 = calls s1 ++ launched
       /\ Forall (eq (real_mul (real_mul (mget (scaleBox refExternals sample_box) XX XX)
                                         (mget (scaleBox refExternals sample_box) YY YY))
                               (mget (scaleBox refExternals sample_box) ZZ ZZ)))
                 (solve_volumes launched)
       /\ List.length (solve_volumes launched)
          = (Z.to_nat (ngrids (common (gpu sample_pme_host_solve)))
             * Z.to_nat (nthread sample_pme_host_solve))%nat
       /\ pme s2 = Some p2
       /\ recipbox p2 = invertBoxMatrix refExternals (scaleBox refExternals sample_box)
       /\ boxVolume p2
          = real_mul (real_mul (mget (scaleBox refExternals sample_box) XX XX)
                               (mget (scaleBox refExternals sample_box) YY YY))
                     (mget (scaleBox refExternals sample_box) ZZ ZZ).
Proof.
  do 3 (split; [reflexivity|]). split; [left; reflexivity|].
  do 2 (split; [reflexivity|]).
  apply (prepared_volume_reaches_host_solver refExternals sample_box dynamic_step
           energy_step sample_state_host_solve sample_pme_host_solve);
    [reflexivity | reflexivity | reflexivity | left; reflexivity | reflexivity
    | reflexivity].
Defined.

Lemma refExternals_virial_keeps_forces (g : ForceWithVirial) (v : matrix) :
  force_ (addVirialContribution refExternals g v) = force_ g.
Proof. destruct v as [[v0 v1] v2]. reflexivity. Defined.

Lemma completion_succeeds_witness :
  pme_gpu_active (Some sample_pme) = true
  /\ (forall g v, force_ (addVirialContribution refExternals g v) = force_ g)
  /\ (forall d,
        (List.length (staged_forces refExternals (gpu (with_device sample_pme d)))
         <= List.length (force_ sample_fwv))%nat)
  /\ ((exists s',
          pme_gpu_wait_and_reduce refExternals energy_step real_half
            (mkState (Some sample_pme) [] [] (Some sample_fwv) (Some sample_enerd))
          = Ok tt s')
      /\ (useGpuForceReduction (settings (gpu sample_pme)) = false ->
          exists done s',
            pme_gpu_try_finish_task refExternals energy_step real_half Check
              (mkState (Some sample_pme) [] [] (Some sample_fwv) (Some sample_enerd))
            = Ok done s')).
Proof.
  assert (Hfit : forall d,
             (List.length (staged_forces refExternals (gpu (with_device sample_pme d)))
              <= List.length (force_ sample_fwv))%nat).
  { intros d. cbn. lia. }
  split; [reflexivity|]. split; [exact refExternals_virial_keeps_forces|].
  split; [exact Hfit|].
  apply (completion_succeeds refExternals energy_step real_half Check sample_pme
           [] [] sample_fwv sample_enerd);
    [reflexivity | exact refExternals_virial_keeps_forces | exact Hfit].
Defined.

(** The host fallback on two grids with three threads, after a preparation
    that recomputes the box: the calls of the transform stage in order. *)
Example host_solve_run :
  exists s1 s2,
    pme_gpu_prepare_computation refExternals sample_box dynamic_step
      sample_state_host_solve = Ok tt s1
    /\ pme_gpu_launch_complex_transforms refExternals energy_step s1 = Ok tt s2
    /\ List.length (calls s2) = 20%nat
    /\ firstn 6 (calls s2)
       = [call_update_input_box sample_box; call_sync_spread_grid;
          host_parallel_3dfft_execute 0 GMX_FFT_REAL_TO_COMPLEX 0;
          host_parallel_3dfft_execute 0 GMX_FFT_REAL_TO_COMPLEX 1;
          host_parallel_3dfft_execute 0 GMX_FFT_REAL_TO_COMPLEX 2;
          host_solve_pme_yzx 0 (real_of_Z 27) true 3 0].
Proof.
  do 2 eexists. split; [vm_compute; reflexivity|].
  split; [vm_compute; reflexivity|]. split; reflexivity.
Qed.
